(** * Crypto_agent: the interpretation and acquisition layer of the dashboard

    A shallow embedding of the client-side logic of [static/js/dashboard.js]
    (classes [CryptoDashboard], [MobileCryptoApp] and [CryptoNewsApp]) and
    of [static/js/crypto_app.js] (class [CryptoTradingApp]): metric
    extraction from analysis text, section splitting, news classification
    and filtering, the two-tier price fetch and the price cards, alert
    creation, relative times, themes, the analysis form and the periodic
    refresh timers.

    Strings.  A JavaScript string is modelled as the list of bytes of its
    UTF-8 encoding ([str]).  Every string operation the code uses
    ([includes], [startsWith], [split] on an ASCII separator, [replace] of an
    ASCII pattern, [trim], the two regular expressions over ASCII classes)
    commutes with the encoding on well-formed text, because a UTF-8 encoded
    code point never occurs inside the encoding of another.  Literals keep
    the source's text, Japanese included.

    Host functions.  [String.prototype.toLowerCase], [parseFloat] and
    [Number.prototype.toFixed] belong to the JavaScript runtime and are taken
    through the [Host] class; every theorem holds for all hosts, and the
    worked examples run with [exampleHost].  Where a function asks the page
    or the runtime for more (which elements exist, [toLocaleString], the
    clock, [Math.random]), it takes the answer as an argument.

    Presentation.  DOM updates, toasts and console output are kept only
    where a property speaks of them. *)

From Stdlib Require Import List Ascii String Bool Arith ZArith QArith Lia.
From Stdlib Require Import DecimalString Lqa.
Import ListNotations.


Set Warnings "-register-all".
Close Scope Q_scope.
Open Scope string_scope.
Open Scope list_scope.
Open Scope bool_scope.

(** ** Strings *)

Definition str := list ascii.

Coercion list_ascii_of_string : string >-> list.

Module JsString.

(** [s.startsWith(p)] *)
Fixpoint startsWith (s p : str) {struct p} : bool :=
  match p, s with
  | [], _ => true
  | c :: p', d :: s' => Ascii.eqb c d && startsWith s' p'
  | _ :: _, [] => false
  end.

(** [s.includes(p)]: [p] occurs at some position of [s]. *)
Fixpoint includes (s p : str) : bool :=
  startsWith s p ||
  match s with
  | [] => false
  | _ :: s' => includes s' p
  end.

(** [s.split(sep)] for a one-character separator; never empty:
    the empty string splits into one empty piece. *)
Fixpoint split (sep : ascii) (s : str) : list str :=
  match s with
  | [] => [[]]
  | c :: s' =>
      if Ascii.eqb c sep then [] :: split sep s'
      else match split sep s' with
           | piece :: pieces => (c :: piece) :: pieces
           | [] => [[c]]
           end
  end.

(** [pieces.join(glue)] *)
Fixpoint join (glue : str) (pieces : list str) : str :=
  match pieces with
  | [] => []
  | [piece] => piece
  | piece :: rest => piece ++ glue ++ join glue rest
  end.

(** [s.replace(/c/g, by)] for a one-character pattern. *)
Fixpoint replaceAll (c : ascii) (by_ : str) (s : str) : str :=
  match s with
  | [] => []
  | d :: s' =>
      if Ascii.eqb d c then by_ ++ replaceAll c by_ s'
      else d :: replaceAll c by_ s'
  end.

(** The white space of ECMAScript ([WhiteSpace] and [LineTerminator]), as
    UTF-8: TAB, LF, VT, FF, CR, SP, U+00A0, U+1680, U+2000..U+200A, U+2028,
    U+2029, U+202F, U+205F, U+3000, U+FEFF.  It is what [trim] removes and
    what [\s] matches. *)
Definition whiteSpace : list str :=
  map (map ascii_of_nat)
    ([ [9]; [10]; [11]; [12]; [13]; [32];
       [194; 160];
       [225; 154; 128] ]
     ++ map (fun k => [226; 128; 128 + k]) (seq 0 11)
     ++ [ [226; 128; 168]; [226; 128; 169]; [226; 128; 175];
          [226; 129; 159];
          [227; 128; 128];
          [239; 187; 191] ]).

(** The rest of [s] after one leading white-space character, if it has one. *)
Definition dropSpace (spaces : list str) (s : str) : option str :=
  match find (startsWith s) spaces with
  | Some w => Some (skipn (List.length w) s)
  | None => None
  end.

(** Removes leading white space; [fuel] bounds the characters removed. *)
Fixpoint dropSpaces (spaces : list str) (fuel : nat) (s : str) : str :=
  match fuel with
  | 0 => s
  | S fuel' =>
      match dropSpace spaces s with
      | Some s' => dropSpaces spaces fuel' s'
      | None => s
      end
  end.

(** [s.trimStart()]; also the effect of deleting a match of [^\s*]. *)
Definition trimStart (s : str) : str :=
  dropSpaces whiteSpace (List.length s) s.

(** [s.trimEnd()]: the same scan from the other end. *)
Definition trimEnd (s : str) : str :=
  rev (dropSpaces (map (@rev ascii) whiteSpace) (List.length s) (rev s)).

(** [s.trim()] *)
Definition trim (s : str) : str := trimEnd (trimStart s).

End JsString.

(** ** Numbers

    A JavaScript number is NaN, an infinity or a finite value; a finite
    double is a rational, and [Num 0] stands for both zeros. *)

Inductive number : Type :=
| NaN
| PosInfinity
| NegInfinity
| Num (q : Q).

Module JsNumber.

(** Truthiness of a number: everything but NaN and zero. *)
Definition truthy (n : number) : bool :=
  match n with
  | NaN => false
  | PosInfinity | NegInfinity => true
  | Num q => negb (Qeq_bool q 0%Q)
  end.

(** [n >= 0] *)
Definition geZero (n : number) : bool :=
  match n with
  | NaN => false
  | PosInfinity => true
  | NegInfinity => false
  | Num q => Qle_bool 0%Q q
  end.

(** [n] is a positive number. *)
Definition positive (n : number) : bool :=
  match n with
  | NaN => false
  | PosInfinity => true
  | NegInfinity => false
  | Num q => negb (Qle_bool q 0%Q)
  end.

End JsNumber.

(** ** The host *)

Class Host : Type := {
  toLowerCase : str -> str;
  parseFloat : str -> number;
  toFixed : nat -> number -> str
}.

(** ASCII lower-casing: all that [toLowerCase] does on ASCII text. *)
Definition asciiLower (c : ascii) : ascii :=
  let n := nat_of_ascii c in
  if (65 <=? n)%nat && (n <=? 90)%nat then ascii_of_nat (n + 32) else c.

(** The host of the worked examples: ASCII lower-casing, which is what
    [toLowerCase] does on their texts.  No example holds a percentage, so
    its two number functions are never called; they answer NaN. *)
Definition exampleHost : Host := {|
  toLowerCase := map asciiLower;
  parseFloat := fun _ => NaN;
  toFixed := fun _ _ => "NaN"
|}.

(** ** The two regular expressions of the metric extractor

    Both are written as the scan a backtracking matcher performs: each
    quantifier is greedy, and since everything after the first quantifier
    may match the empty string (price) or is forced by the next literal
    (change), the greedy choice is the only one that can succeed.
    [priceAt_sound], [priceAt_complete], [changeAt_sound] and
    [changeAt_complete] relate the scans to the languages of the
    expressions. *)

Module Regex.

Definition isDigit (c : ascii) : bool :=
  let n := nat_of_ascii c in (48 <=? n)%nat && (n <=? 57)%nat.

(** The class [[0-9,]]. *)
Definition isDigitOrComma (c : ascii) : bool :=
  isDigit c || Ascii.eqb c ",".

(** The class [[+-]]. *)
Definition isSign (c : ascii) : bool :=
  Ascii.eqb c "+" || Ascii.eqb c "-".

Fixpoint takeWhile (p : ascii -> bool) (s : str) : str :=
  match s with
  | c :: s' => if p c then c :: takeWhile p s' else []
  | [] => []
  end.

Fixpoint dropWhile (p : ascii -> bool) (s : str) : str :=
  match s with
  | c :: s' => if p c then dropWhile p s' else s
  | [] => []
  end.

(** One optional character of class [p]: what it matched, and the rest. *)
Definition optional (p : ascii -> bool) (s : str) : str * str :=
  match s with
  | c :: s' => if p c then ([c], s') else ([], s)
  | [] => ([], [])
  end.

(** A match of the price expression [/\$( [0-9,]+ \.? [0-9]* )/] that starts at the head of [s]:
    the text of group 1. *)
Definition priceAt (s : str) : option str :=
  match s with
  | c :: r =>
      if Ascii.eqb c "$" then
        match takeWhile isDigitOrComma r with
        | [] => None
        | whole =>
            let (dot, r') :=
              optional (Ascii.eqb ".") (dropWhile isDigitOrComma r) in
            Some (whole ++ dot ++ takeWhile isDigit r')
        end
      else None
  | [] => None
  end.

(** A match of the change expression [/( [+-]? [0-9]+ \.? [0-9]* )%/] that starts at the head of [s]:
    the text of group 1. *)
Definition changeAt (s : str) : option str :=
  let (sign, r) := optional isSign s in
  match takeWhile isDigit r with
  | [] => None
  | whole =>
      let (dot, r') := optional (Ascii.eqb ".") (dropWhile isDigit r) in
      match dropWhile isDigit r' with
      | c :: _ =>
          if Ascii.eqb c "%"
          then Some (sign ++ whole ++ dot ++ takeWhile isDigit r')
          else None
      | [] => None
      end
  end.

(** [text.match(re)] without the [g] flag: the match at the leftmost
    position that has one. *)
Fixpoint search {A : Type} (at_ : str -> option A) (s : str) : option A :=
  match at_ s with
  | Some m => Some m
  | None =>
      match s with
      | [] => None
      | _ :: s' => search at_ s'
      end
  end.

End Regex.

(** ** Data *)

(** A metric of [parseAnalysisMetrics]. *)
Record metric : Type := {
  label : str;
  value : str;
  class : str
}.

(** A metric line of a section: [{label, value}]. *)
Record sectionMetric : Type := {
  mLabel : str;
  mValue : str
}.

(** A section of [parseAnalysisSections]. *)
Record section : Type := {
  title : str;
  content : str;
  metrics : list sectionMetric
}.

(** ** Dates and whole numbers

    A [Date] is its time value in milliseconds, or the invalid date.  The
    difference of the current time and a date, and its floored quotients,
    are whole numbers or NaN; on time values (at most 8.64e15 in size) the
    divisions of the code, done in doubles and floored, give the exact
    floored quotients. *)

Inductive date : Type :=
| InvalidDate
| DateAt (ms : Z).

(** A whole number, or [None] for NaN. *)
Definition jsint : Type := option Z.

Module JsInt.

(** [now - date], [now] the current time. *)
Definition sub (now : Z) (d : date) : jsint :=
  match d with
  | DateAt ms => Some (now - ms)%Z
  | InvalidDate => None
  end.

(** [Math.floor(x / k)] for a positive constant [k]. *)
Definition floorDiv (x : jsint) (k : Z) : jsint :=
  match x with
  | Some z => Some (z / k)%Z
  | None => None
  end.

(** [x < k]; false on NaN. *)
Definition lt (x : jsint) (k : Z) : bool :=
  match x with
  | Some z => (z <? k)%Z
  | None => false
  end.

(** The number in a template literal. *)
Definition toString (x : jsint) : str :=
  match x with
  | Some z => list_ascii_of_string (NilZero.string_of_int (Z.to_int z))
  | None => "NaN"
  end.

(** [d < new Date(threshold)] on dates; false on the invalid date. *)
Definition before (d : date) (threshold : Z) : bool :=
  match d with
  | DateAt ms => (ms <? threshold)%Z
  | InvalidDate => false
  end.

End JsInt.


(** ** Double arithmetic

    [+], [*] and [>=] on numbers are the runtime's, on doubles, and [+] and
    [*] round.  Where the code computes with numbers that are not whole,
    the operations are taken through the [Doubles] class, with the laws of
    IEEE 754 arithmetic the properties use: a double is finite or not; a
    finite double has an exact rational value; the whole numbers up to
    2^53 in size are finite doubles; the sum and the product of two finite
    doubles are finite and lie between any two finite doubles their exact
    value lies between (rounding is monotone and keeps a double as it is);
    and [>=] on finite doubles compares the values. *)
Class Doubles : Type := {
  double : Type;
  dFinite : double -> Prop;
  dValue : double -> Q;
  dOfZ : Z -> double;
  dAdd : double -> double -> double;
  dMul : double -> double -> double;
  dGeb : double -> double -> bool;
  dOfZ_value : forall z : Z,
    (Z.abs z <= 9007199254740992)%Z ->
    dFinite (dOfZ z) /\ (dValue (dOfZ z) == inject_Z z)%Q;
  dAdd_rounds : forall a b lo hi : double,
    dFinite a -> dFinite b -> dFinite lo -> dFinite hi ->
    (dValue lo <= dValue a + dValue b)%Q ->
    (dValue a + dValue b <= dValue hi)%Q ->
    dFinite (dAdd a b)
    /\ (dValue lo <= dValue (dAdd a b))%Q
    /\ (dValue (dAdd a b) <= dValue hi)%Q;
  dMul_rounds : forall a b lo hi : double,
    dFinite a -> dFinite b -> dFinite lo -> dFinite hi ->
    (dValue lo <= dValue a * dValue b)%Q ->
    (dValue a * dValue b <= dValue hi)%Q ->
    dFinite (dMul a b)
    /\ (dValue lo <= dValue (dMul a b))%Q
    /\ (dValue (dMul a b) <= dValue hi)%Q;
  dGeb_value : forall a b : double,
    dFinite a -> dFinite b ->
    (dGeb a b = true <-> (dValue b <= dValue a)%Q)
}.

(** Arithmetic without rounding has these laws; the worked examples run
    with it. *)
Definition exactDoubles : Doubles := {|
  double := Q;
  dFinite := fun _ => True;
  dValue := fun q => q;
  dOfZ := inject_Z;
  dAdd := Qplus;
  dMul := Qmult;
  dGeb := fun a b => Qle_bool b a;
  dOfZ_value := fun z _ => conj I (Qeq_refl (inject_Z z));
  dAdd_rounds := fun a b lo hi _ _ _ _ Hlo Hhi => conj I (conj Hlo Hhi);
  dMul_rounds := fun a b lo hi _ _ _ _ Hlo Hhi => conj I (conj Hlo Hhi);
  dGeb_value := fun a b _ _ => Qle_bool_iff b a
|}.

(** ** JavaScript values, the network and effects *)

(** The JavaScript values the price fetch handles: parsed JSON and the
    objects built from it.  Property lookup is on own properties. *)
Inductive jsval : Type :=
| VUndefined
| VNull
| VBool (b : bool)
| VNum (n : number)
| VStr (s : str)
| VArr (items : list jsval)
| VObj (fields : list (str * jsval)).

Module JsValue.

Definition eqStr (a b : str) : bool :=
  if list_eq_dec ascii_dec a b then true else false.

(** Truthiness. *)
Definition truthy (v : jsval) : bool :=
  match v with
  | VUndefined | VNull => false
  | VBool b => b
  | VNum n => JsNumber.truthy n
  | VStr s => match s with [] => false | _ => true end
  | VArr _ | VObj _ => true
  end.

(** Own-property lookup; a field list holds each of its keys once. *)
Fixpoint lookup (key : str) (fields : list (str * jsval)) : jsval :=
  match fields with
  | [] => VUndefined
  | (k, v) :: rest => if eqStr k key then v else lookup key rest
  end.

(** [v[key]]: [None] is the [TypeError] of reading a property of [null]
    or [undefined]. *)
Definition get (v : jsval) (key : str) : option jsval :=
  match v with
  | VUndefined | VNull => None
  | VObj fields => Some (lookup key fields)
  | _ => Some VUndefined
  end.

(** [v?.key] *)
Definition getOpt (v : jsval) (key : str) : jsval :=
  match get v key with
  | Some x => x
  | None => VUndefined
  end.

End JsValue.

(** What a [fetch] call can come to: the promise rejects (a transport
    failure), or a response arrives with its [ok] flag and a body;
    [body = None] is a body [response.json()] rejects. *)
Inductive reply : Type :=
| NetworkError
| Response (ok : bool) (body : option jsval).

(** The two price endpoints, per entity id. *)
Record network : Type := {
  primary : str -> reply;   (* GET /api/crypto-price/{id} *)
  fallback : str -> reply   (* the public CoinGecko simple-price endpoint *)
}.

(** What the code does to the outside, in order. *)
Inductive event : Type :=
| RequestPrimary (id : str)
| RequestFallback (id : str)
| ConsoleError
| UpdatePriceCard (crypto : str) (data : jsval).

(** Computations that log events and may throw. *)
Module Eff.

Inductive outcome (A : Type) : Type :=
| Returned (a : A)
| Thrown.
Arguments Returned {A} a.
Arguments Thrown {A}.

Definition M (A : Type) : Type := list event -> list event * outcome A.

Definition ret {A} (a : A) : M A := fun log => (log, Returned a).

Definition throw {A} : M A := fun log => (log, Thrown).

Definition bind {A B} (m : M A) (k : A -> M B) : M B :=
  fun log =>
    match m log with
    | (log', Returned a) => k a log'
    | (log', Thrown) => (log', Thrown)
    end.

(** [try { body } catch (error) { handler }] *)
Definition tryCatch {A} (body handler : M A) : M A :=
  fun log =>
    match body log with
    | (log', Returned a) => (log', Returned a)
    | (log', Thrown) => handler log'
    end.

Definition emit (e : event) : M unit := fun log => (log ++ [e], Returned tt).

(** [await fetch(url)] against one endpoint. *)
Definition fetch (request : event) (r : reply) : M (bool * option jsval) :=
  bind (emit request) (fun _ =>
    match r with
    | NetworkError => throw
    | Response ok body => ret (ok, body)
    end).

(** [await response.json()] *)
Definition json (body : option jsval) : M jsval :=
  match body with
  | Some v => ret v
  | None => throw
  end.

(** A call of a method the object does not have: [TypeError]. *)
Definition notAFunction {A} : M A := throw.

(** Lifts a property read that may raise [TypeError]. *)
Definition orThrow {A} (x : option A) : M A :=
  match x with
  | Some a => ret a
  | None => throw
  end.

(** Runs a computation from the empty log. *)
Definition run {A} (m : M A) : list event * outcome A := m [].

End Eff.

Notation "x <- m ;; k" := (Eff.bind m (fun x => k))
  (at level 61, m at next level, right associativity).
Notation "m ;;; k" := (Eff.bind m (fun _ => k))
  (at level 61, right associativity).

(** ** Effects of the code around the price fetch

    The same computations as [Eff], over any type of events. *)
Module Js.

Definition M (E A : Type) : Type := list E -> list E * Eff.outcome A.

Section Events.
Context {E : Type}.

Definition ret {A} (a : A) : M E A := fun log => (log, Eff.Returned a).

Definition throw {A} : M E A := fun log => (log, Eff.Thrown).

Definition bind {A B} (m : M E A) (k : A -> M E B) : M E B :=
  fun log =>
    match m log with
    | (log', Eff.Returned a) => k a log'
    | (log', Eff.Thrown) => (log', Eff.Thrown)
    end.

(** [try { body } catch (error) { handler }] *)
Definition tryCatch {A} (body handler : M E A) : M E A :=
  fun log =>
    match body log with
    | (log', Eff.Returned a) => (log', Eff.Returned a)
    | (log', Eff.Thrown) => handler log'
    end.

(** [try { body } finally { cleanup }] *)
Definition finally {A} (body : M E A) (cleanup : M E unit) : M E A :=
  fun log =>
    match body log with
    | (log', result) =>
        match cleanup log' with
        | (log'', Eff.Returned _) => (log'', result)
        | (log'', Eff.Thrown) => (log'', Eff.Thrown)
        end
    end.

Definition emit (e : E) : M E unit :=
  fun log => (log ++ [e], Eff.Returned tt).

(** Lifts a property read that may raise [TypeError]. *)
Definition orThrow {A} (x : option A) : M E A :=
  match x with
  | Some a => ret a
  | None => throw
  end.

(** A computation of [Eff], its events seen through [inj]. *)
Definition lift {A} (inj : event -> E) (m : Eff.M A) : M E A :=
  fun log =>
    let (events, result) := Eff.run m in
    (log ++ map inj events, result).

(** Runs a computation from the empty log. *)
Definition run {A} (m : M E A) : list E * Eff.outcome A := m [].

(** A computation that only adds to the log, the same events whatever
    the log holds. *)
Definition appending {A} (m : M E A) : Prop :=
  forall log, m log = (log ++ fst (run m), snd (run m)).

End Events.

(** A computation over the events [E], its events seen through [inj]. *)
Definition mapEvents {E E' A} (inj : E -> E') (m : M E A) : M E' A :=
  fun log =>
    let (events, result) := run m in
    (log ++ map inj events, result).

End Js.

Declare Scope js_scope.
Delimit Scope js_scope with js.
Notation "x <- m ;; k" := (Js.bind m (fun x => k))
  (at level 61, m at next level, right associativity) : js_scope.
Notation "m ;;; k" := (Js.bind m (fun _ => k))
  (at level 61, right associativity) : js_scope.

(** What the code does to the page and the network: the events of the
    price fetch, and the writes to elements of the page, by id. *)
Inductive domEvent : Type :=
| Fetching (e : event)
| TextContent (id text : str)
| InnerHTML (id html : str)
| ClassName (id name : str).

(** Pieces of markup. *)
Module Html.

(** An attribute value in double quotes. *)
Definition quoted (s : str) : str :=
  ascii_of_nat 34 :: s ++ [ascii_of_nat 34].

(** [<div class="loading-skeleton" style="width: W; height: H;"></div>] *)
Definition skeleton (width height : str) : str :=
  "<div class=" ++ quoted "loading-skeleton"
  ++ " style=" ++ quoted ("width: " ++ width ++ "; height: " ++ height ++ ";")
  ++ "></div>".

(** [<span class="C">TEXT</span>] *)
Definition span (class text : str) : str :=
  "<span class=" ++ quoted class ++ ">" ++ text ++ "</span>".

End Html.

(** ** class CryptoDashboard *)

Module CryptoDashboard.
Import JsString.

Section WithHost.
Context {host : Host}.

(** [parseAnalysisMetrics(analysisText)] *)
Definition parseAnalysisMetrics (analysisText : str) : list metric :=
  let metrics : list metric := [] in
  (* Look for price information *)
  let metrics :=
    match Regex.search Regex.priceAt analysisText with
    | Some group1 =>
        metrics ++ [ {| label := "現在価格";
                        value := "$" ++ group1;
                        class := "" |} ]
    | None => metrics
    end in
  (* Look for percentage changes *)
  let metrics :=
    match Regex.search Regex.changeAt analysisText with
    | Some group1 =>
        let change := parseFloat group1 in
        metrics ++ [ {| label := "24h変動";
                        value := toFixed 2 change ++ "%";
                        class := if JsNumber.geZero change
                                 then "price-up" else "price-down" |} ]
    | None => metrics
    end in
  (* Look for sentiment *)
  let metrics :=
    if includes analysisText "POSITIVE" || includes analysisText "ポジティブ"
    then metrics ++ [ {| label := "センチメント";
                         value := "ポジティブ";
                         class := "sentiment-positive" |} ]
    else if includes analysisText "NEGATIVE"
            || includes analysisText "ネガティブ"
    then metrics ++ [ {| label := "センチメント";
                         value := "ネガティブ";
                         class := "sentiment-negative" |} ]
    else metrics ++ [ {| label := "センチメント";
                         value := "ニュートラル";
                         class := "sentiment-neutral" |} ] in
  (* Look for recommendation *)
  let metrics :=
    if includes analysisText "BUY" || includes analysisText "買い"
    then metrics ++ [ {| label := "推奨";
                         value := "BUY";
                         class := "sentiment-positive" |} ]
    else if includes analysisText "SELL" || includes analysisText "売り"
    then metrics ++ [ {| label := "推奨";
                         value := "SELL";
                         class := "sentiment-negative" |} ]
    else metrics ++ [ {| label := "推奨";
                         value := "HOLD";
                         class := "sentiment-neutral" |} ] in
  metrics.

End WithHost.

(** The loop state of [parseAnalysisSections]: [sections] and
    [currentSection]. *)
Definition splitter : Type := list section * option section.

(** [sections.push(currentSection)] under [if (currentSection)]. *)
Definition pushCurrent (sections : list section)
    (currentSection : option section) : list section :=
  match currentSection with
  | Some current => sections ++ [current]
  | None => sections
  end.

(** One turn of [for (const line of lines)]. *)
Definition splitLine (st : splitter) (line : str) : splitter :=
  let (sections, currentSection) := st in
  if startsWith line "##" then
    (pushCurrent sections currentSection,
     Some {| title := trimStart (skipn 2 line);   (* line.replace(/^##\s*/, '') *)
             content := "";
             metrics := [] |})
  else
    match currentSection with
    | Some current =>
        if includes line "$" && includes line ":" then
          (* const [label, value] = line.split(':') *)
          match split ":" line with
          | label :: value :: _ =>
              (sections,
               Some {| title := title current;
                       content := content current;
                       metrics := metrics current
                                  ++ [ {| mLabel := trim label;
                                          mValue := trim value |} ] |})
          | _ => st   (* not reached: a line with a colon has two pieces *)
          end
        else
          (sections,
           Some {| title := title current;
                   content := content current ++ line ++ "<br>";
                   metrics := metrics current |})
    | None => st
    end.

(** [parseAnalysisSections(analysisText)] *)
Definition parseAnalysisSections (analysisText : str) : list section :=
  let lines := split (ascii_of_nat 10) analysisText in
  let (sections, currentSection) := fold_left splitLine lines ([], None) in
  let sections := pushCurrent sections currentSection in
  match sections with
  | _ :: _ => sections
  | [] => [ {| title := "分析結果";
               content := replaceAll (ascii_of_nat 10) "<br>" analysisText;
               metrics := [] |} ]
  end.

(** [fetchFromCoinGecko(cryptoId)] *)
Definition fetchFromCoinGecko (net : network) (cryptoId : str) : Eff.M jsval :=
  Eff.tryCatch
    (response <- Eff.fetch (RequestFallback cryptoId) (fallback net cryptoId) ;;
     let (ok, body) := response in
     if ok then
       data <- Eff.json body ;;
       Eff.orThrow (JsValue.get data cryptoId)
     else Eff.ret VNull)
    (Eff.emit ConsoleError ;;; Eff.ret VNull).

(** The body of [for (const crypto of cryptos)] in [loadMarketOverview].
    Its catch block calls [this.showSkeletonData(crypto)], and the class
    has no method of that name ([showSkeletonPrice] is a method of
    [MobileCryptoApp]): the call raises [TypeError].
    [UpdatePriceCard] records the call of [this.updatePriceCard]; what
    follows the event is the run in which that call returns.  When the
    call returns and when it throws is the matter of [updatePriceCard]
    below. *)
Definition loadMarketOverviewOf (net : network) (crypto : str) : Eff.M unit :=
  Eff.tryCatch
    (response <- Eff.fetch (RequestPrimary crypto) (primary net crypto) ;;
     let (ok, body) := response in
     if ok then
       data <- Eff.json body ;;
       Eff.emit (UpdatePriceCard crypto data)
     else
       (* Fallback to CoinGecko API directly *)
       fallbackData <- fetchFromCoinGecko net crypto ;;
       if JsValue.truthy fallbackData
       then Eff.emit (UpdatePriceCard crypto fallbackData)
       else Eff.ret tt)
    (Eff.emit ConsoleError ;;; Eff.notAFunction).

(** [loadMarketOverview()], up to the market metrics it loads afterwards;
    an exception ends the loop and rejects the promise. *)
Definition loadMarketOverview (net : network) : Eff.M unit :=
  loadMarketOverviewOf net "bitcoin" ;;;
  loadMarketOverviewOf net "ethereum".

(** *** Periodic refresh *)

Inductive refresh : Type := LoadMarketOverview | LoadCryptoNews.

(** An interval registered with [setInterval]: its callback, its delay in
    milliseconds and the time of registration. *)
Record interval : Type := {
  callback : refresh;
  delay : Z;
  since : Z
}.

(** The values [saveSettings] reads from the form, [update-frequency]
    after [parseInt]. *)
Record settingsForm : Type := {
  updateFreq : Z;
  priceAlerts : bool;
  newsAlerts : bool
}.

(** The dashboard's refresh state: its [updateInterval], the intervals of
    the page that are registered and not cleared, and the stored
    [dashboard-settings]. *)
Record dashboard : Type := {
  updateInterval : Z;
  intervals : list interval;
  storedSettings : option settingsForm
}.

(** The constructor's state. *)
Definition initial : dashboard :=
  {| updateInterval := 30000; intervals := []; storedSettings := None |}.

(** [setInterval(callback, delay)] at time [now]. *)
Definition setInterval (cb : refresh) (ms now : Z) (d : dashboard) : dashboard :=
  {| updateInterval := updateInterval d;
     intervals := intervals d ++ [ {| callback := cb; delay := ms; since := now |} ];
     storedSettings := storedSettings d |}.

(** [startRealTimeUpdates()] at time [now]. *)
Definition startRealTimeUpdates (now : Z) (d : dashboard) : dashboard :=
  let d := setInterval LoadMarketOverview (updateInterval d) now d in
  setInterval LoadCryptoNews (updateInterval d * 2) now d.

(** [saveSettings()] at time [now]; its notification is left out. *)
Definition saveSettings (form : settingsForm) (now : Z) (d : dashboard)
  : dashboard :=
  let d := {| updateInterval := updateFreq form * 1000;
              intervals := intervals d;
              storedSettings := Some form |} in
  (* Restart real-time updates with new frequency *)
  startRealTimeUpdates now d.

(** The host's timer: an interval registered at [since] with a positive
    [delay] runs its callback at [since + k * delay], [k = 1, 2, ...].
    This is the timer for delays from 1 to 2^31 - 1, which the host
    reads as they are; other delays (zero, negative, beyond 32 bits) are
    outside what [fires] describes. *)
Definition fires (i : interval) (t : Z) : bool :=
  (0 <? delay i)%Z && (since i <? t)%Z && ((t - since i) mod delay i =? 0)%Z.

(** The refreshes that run at time [t]. *)
Definition refreshesAt (d : dashboard) (t : Z) : list refresh :=
  map callback (filter (fun i => fires i t) (intervals d)).

(** *** Relative times *)

(** [formatTime(date)] at the time [now]; a string argument has been
    turned into its [Date]. *)
Definition formatTime (now : Z) (d : date) : str :=
  let diffMs := JsInt.sub now d in
  let diffMins := JsInt.floorDiv diffMs 60000 in
  if JsInt.lt diffMins 1 then "たった今"
  else if JsInt.lt diffMins 60 then JsInt.toString diffMins ++ "分前"
  else if JsInt.lt diffMins 1440
  then JsInt.toString (JsInt.floorDiv diffMins 60) ++ "時間前"
  else JsInt.toString (JsInt.floorDiv diffMins 1440) ++ "日前".

(** *** Theme *)

(** [this.theme] and the item [dashboard-theme] of local storage. *)
Record themed : Type := {
  theme : str;
  storedTheme : option str
}.

(** The constructor: [localStorage.getItem('dashboard-theme') || 'light']. *)
Definition loadTheme (stored : option str) : themed :=
  {| theme := match stored with
              | Some (c :: s) => c :: s
              | _ => "light"
              end;
     storedTheme := stored |}.

(** [toggleTheme()], up to [setTheme], which only writes to the page;
    when the write to local storage throws, the item keeps its value. *)
Definition toggleTheme (storageThrows : bool) (t : themed) : themed :=
  let flipped : str :=
    if JsValue.eqStr (theme t) "light" then "dark" else "light" in
  {| theme := flipped;
     storedTheme := if storageThrows then storedTheme t else Some flipped |}.

(** *** Price cards *)

Section Cards.
Context {host : Host}.

(** [document.getElementById(id)] finds an element. *)
Variable present : str -> bool.

(** [v.toLocaleString()] on a value that is not [null] or
    [undefined]; [None] when the call throws. *)
Variable toLocaleString : jsval -> option str.

(** [a || b] *)
Definition orElse (a b : jsval) : jsval :=
  if JsValue.truthy a then a else b.

(** [crypto === 'bitcoin' ? 'btc' : 'eth'] *)
Definition cardName (crypto : str) : str :=
  if JsValue.eqStr crypto "bitcoin" then "btc" else "eth".

(** [updatePriceCard(crypto, data)] *)
Definition updatePriceCard (crypto : str) (data : jsval)
  : Js.M domEvent unit :=
  (let priceElement := cardName crypto ++ "-price" in
   let changeElement := cardName crypto ++ "-change" in
   if present priceElement && JsValue.truthy data then
     usd <- Js.orThrow (JsValue.get data "usd") ;;
     price_usd <- Js.orThrow (JsValue.get data "price_usd") ;;
     let price := orElse usd price_usd in
     usd_24h_change <- Js.orThrow (JsValue.get data "usd_24h_change") ;;
     price_change_24h <- Js.orThrow (JsValue.get data "price_change_24h") ;;
     let change := orElse usd_24h_change price_change_24h in
     (* price?.toLocaleString() || 'N/A' *)
     text <- match price with
             | VUndefined | VNull => Js.ret []
             | _ => Js.orThrow (toLocaleString price)
             end ;;
     Js.emit (InnerHTML priceElement
                ("$" ++ match text with [] => "N/A" | _ => text end)) ;;;
     if present changeElement then
       match change with
       | VUndefined => Js.ret tt
       | VNum change =>
           let changeClass : str :=
             if JsNumber.geZero change then "price-up" else "price-down" in
           Js.emit (InnerHTML changeElement
                      (Html.span changeClass (toFixed 2 change ++ "%")))
       | _ => Js.throw   (* change.toFixed is not a function *)
       end
     else Js.ret tt
   else Js.ret tt)%js.

(** [handlePriceUpdate(data)] *)
Definition handlePriceUpdate (data : jsval) : Js.M domEvent unit :=
  (symbol <- Js.orThrow (JsValue.get data "symbol") ;;
   if JsValue.truthy symbol then
     price <- Js.orThrow (JsValue.get data "price") ;;
     if JsValue.truthy price then
       match symbol with
       | VStr symbol => updatePriceCard (toLowerCase symbol) data
       | _ => Js.throw   (* data.symbol.toLowerCase is not a function *)
       end
     else Js.ret tt
   else Js.ret tt)%js.

End Cards.

(** *** The progress bar *)

Section Progress.
Context {doubles : Doubles}.

(** The state of [simulateAnalysisProgress] once the bar is found: the
    closure's [progress], the width of the bar in percent, and whether
    the interval is still registered. *)
Record progressBar : Type := {
  progress : double;
  width : double;
  ticking : bool
}.

(** The bar when [simulateAnalysisProgress] has registered its
    interval: [runDetailedAnalysis] writes it with [width: 0%]. *)
Definition started : progressBar :=
  {| progress := dOfZ 0; width := dOfZ 0; ticking := true |}.

(** One run of the interval's callback, [random] being the value of
    [Math.random()]; a cleared interval does not run. *)
Definition tick (random : double) (b : progressBar) : progressBar :=
  if ticking b then
    let progress := dAdd (progress b) (dMul random (dOfZ 15)) in
    if dGeb progress (dOfZ 95)
    then {| progress := dOfZ 95; width := dOfZ 95; ticking := false |}
    else {| progress := progress; width := progress; ticking := true |}
  else b.

End Progress.

End CryptoDashboard.

(** ** class MobileCryptoApp *)

Module MobileCryptoApp.
Import JsString.

(** [fetchCryptoPrice(cryptoId)]: the value the promise resolves to;
    [VNull] is the source's [null]. *)
Definition fetchCryptoPrice (net : network) (cryptoId : str) : Eff.M jsval :=
  first <-
    Eff.tryCatch
      (response <- Eff.fetch (RequestPrimary cryptoId) (primary net cryptoId) ;;
       let (ok, body) := response in
       if ok then
         data <- Eff.json body ;;
         Eff.ret (Some data)
       else Eff.ret None)
      (Eff.emit ConsoleError ;;; Eff.ret None) ;;
  match first with
  | Some data => Eff.ret data
  | None =>
      (* Fallback to CoinGecko API *)
      second <-
        Eff.tryCatch
          (response <- Eff.fetch (RequestFallback cryptoId)
                                 (fallback net cryptoId) ;;
           let (ok, body) := response in
           if ok then
             data <- Eff.json body ;;
             entry <- Eff.orThrow (JsValue.get data cryptoId) ;;
             Eff.ret (Some (VObj
               [ ("price_usd" : str, JsValue.getOpt entry "usd");
                 ("price_change_24h" : str,
                  JsValue.getOpt entry "usd_24h_change") ]))
           else Eff.ret None)
          (Eff.emit ConsoleError ;;; Eff.ret None) ;;
      match second with
      | Some quote => Eff.ret quote
      | None => Eff.ret VNull
      end
  end.

Section WithHost.
Context {host : Host}.

(** [parseAnalysisMetrics(analysisText)] *)
Definition parseAnalysisMetrics (analysisText : str) : list metric :=
  let metrics : list metric := [] in
  (* Extract key metrics from analysis text *)
  let metrics :=
    match Regex.search Regex.priceAt analysisText with
    | Some group1 =>
        metrics ++ [ {| label := "現在価格";
                        value := "$" ++ group1;
                        class := "" |} ]
    | None => metrics
    end in
  let metrics :=
    match Regex.search Regex.changeAt analysisText with
    | Some group1 =>
        let change := parseFloat group1 in
        metrics ++ [ {| label := "24h変動";
                        value := toFixed 2 change ++ "%";
                        class := if JsNumber.geZero change
                                 then "positive" else "negative" |} ]
    | None => metrics
    end in
  (* Sentiment analysis *)
  let metrics :=
    if includes analysisText "POSITIVE" || includes analysisText "ポジティブ"
    then metrics ++ [ {| label := "センチメント";
                         value := "😊 ポジティブ";
                         class := "positive" |} ]
    else if includes analysisText "NEGATIVE"
            || includes analysisText "ネガティブ"
    then metrics ++ [ {| label := "センチメント";
                         value := "😟 ネガティブ";
                         class := "negative" |} ]
    else metrics ++ [ {| label := "センチメント";
                         value := "😐 ニュートラル";
                         class := "" |} ] in
  (* Trading recommendation *)
  let metrics :=
    if includes analysisText "BUY" || includes analysisText "買い"
    then metrics ++ [ {| label := "推奨";
                         value := "📈 BUY";
                         class := "positive" |} ]
    else if includes analysisText "SELL" || includes analysisText "売り"
    then metrics ++ [ {| label := "推奨";
                         value := "📉 SELL";
                         class := "negative" |} ]
    else metrics ++ [ {| label := "推奨";
                         value := "⏸️ HOLD";
                         class := "" |} ] in
  metrics.

End WithHost.

(** *** Alerts *)

Record alert : Type := {
  id : Z;
  crypto : str;
  condition : str;
  price : number;
  created : Z;
  active : bool
}.

(** A toast: message and type. *)
Definition toast : Type := (str * str)%type.

(** The part of the app [saveAlert] touches: [this.alerts], the item
    [crypto-mobile-alerts] of local storage, whether writing to local
    storage throws, and the toasts shown so far. *)
Record app : Type := {
  alerts : list alert;
  stored : option (list alert);
  storageThrows : bool;
  toasts : list toast
}.

(** The app on a device without stored alerts. *)
Definition initial : app :=
  {| alerts := []; stored := None; storageThrows := false; toasts := [] |}.

Definition showToast (message type : str) (a : app) : app :=
  {| alerts := alerts a; stored := stored a;
     storageThrows := storageThrows a;
     toasts := toasts a ++ [(message, type)] |}.

(** [saveAlerts()]: a failing write is logged and dropped. *)
Definition saveAlerts (a : app) : app :=
  if storageThrows a then a
  else {| alerts := alerts a; stored := Some (alerts a);
          storageThrows := storageThrows a; toasts := toasts a |}.

(** [loadAlerts()]: a missing item is the empty list. *)
Definition loadAlerts (a : app) : list alert :=
  match stored a with
  | Some saved => saved
  | None => []
  end.

(** Truthiness of a string. *)
Definition nonEmpty (s : str) : bool :=
  match s with [] => false | _ => true end.

(** [saveAlert()] at time [now], on the form values [crypto], [condition]
    and [price = parseFloat(...)]; the status log and the closing of the
    modal are left out. *)
Definition saveAlert (crypto condition : str) (price : number) (now : Z)
    (a : app) : app :=
  if negb (nonEmpty crypto) || negb (nonEmpty condition)
     || negb (JsNumber.truthy price)
  then showToast "すべての項目を入力してください" "warning" a
  else
    let alert := {| id := now; crypto := crypto; condition := condition;
                    price := price; created := now; active := true |} in
    let a := {| alerts := alerts a ++ [alert]; stored := stored a;
                storageThrows := storageThrows a; toasts := toasts a |} in
    let a := saveAlerts a in
    showToast "アラートを設定しました" "success" a.

(** *** Relative times *)

(** [formatTime(date)] at the time [now]; a string argument has been
    turned into its [Date]. *)
Definition formatTime (now : Z) (d : date) : str :=
  let diffMs := JsInt.sub now d in
  let diffMins := JsInt.floorDiv diffMs 60000 in
  if JsInt.lt diffMins 1 then "たった今"
  else if JsInt.lt diffMins 60 then JsInt.toString diffMins ++ "分前"
  else if JsInt.lt diffMins 1440
  then JsInt.toString (JsInt.floorDiv diffMins 60) ++ "時間前"
  else JsInt.toString (JsInt.floorDiv diffMins 1440) ++ "日前".

(** *** Price cards *)

Section Cards.
Context {host : Host}.

(** [document.getElementById(id)] finds an element. *)
Variable present : str -> bool.

(** [v.toLocaleString()] on a value that is not [null] or
    [undefined]; [None] when the call throws. *)
Variable toLocaleString : jsval -> option str.

(** [crypto === 'bitcoin' ? 'btc' : crypto === 'ethereum' ? 'eth' : 'ada'] *)
Definition shortName (crypto : str) : str :=
  if JsValue.eqStr crypto "bitcoin" then "btc"
  else if JsValue.eqStr crypto "ethereum" then "eth"
  else "ada".

(** [updatePriceCard(crypto, data)] *)
Definition updatePriceCard (crypto : str) (data : jsval)
  : Js.M domEvent unit :=
  (let priceElement := "mobile-" ++ shortName crypto ++ "-price" in
   let changeElement := "mobile-" ++ shortName crypto ++ "-change" in
   (if present priceElement then
      price_usd <- Js.orThrow (JsValue.get data "price_usd") ;;
      if JsValue.truthy price_usd then
        text <- Js.orThrow (toLocaleString price_usd) ;;
        Js.emit (TextContent priceElement ("$" ++ text))
      else Js.ret tt
    else Js.ret tt) ;;;
   (if present changeElement then
      change <- Js.orThrow (JsValue.get data "price_change_24h") ;;
      match change with
      | VUndefined => Js.ret tt
      | VNum change =>
          let changeClass : str :=
            if JsNumber.geZero change then "positive" else "negative" in
          let changeSymbol : str :=
            if JsNumber.geZero change then "+" else "" in
          Js.emit (TextContent changeElement
                     (changeSymbol ++ toFixed 2 change ++ "%")) ;;;
          Js.emit (ClassName changeElement ("price-change " ++ changeClass))
      | _ => Js.throw   (* change.toFixed is not a function *)
      end
    else Js.ret tt))%js.

(** [showSkeletonPrice(crypto)] *)
Definition showSkeletonPrice (crypto : str) : Js.M domEvent unit :=
  (let priceElement := "mobile-" ++ shortName crypto ++ "-price" in
   let changeElement := "mobile-" ++ shortName crypto ++ "-change" in
   (if present priceElement
    then Js.emit (InnerHTML priceElement (Html.skeleton "80px" "20px"))
    else Js.ret tt) ;;;
   (if present changeElement
    then Js.emit (InnerHTML changeElement (Html.skeleton "60px" "16px"))
    else Js.ret tt))%js.

(** The body of [for (const crypto of cryptos)] in [loadPriceData]. *)
Definition loadPriceDataOf (net : network) (crypto : str)
  : Js.M domEvent unit :=
  Js.tryCatch
    (data <- Js.lift Fetching (fetchCryptoPrice net crypto) ;;
     if JsValue.truthy data
     then updatePriceCard crypto data
     else Js.ret tt)%js
    (Js.emit (Fetching ConsoleError) ;;;
     showSkeletonPrice crypto)%js.

(** [loadPriceData()] *)
Definition loadPriceData (net : network) : Js.M domEvent unit :=
  (loadPriceDataOf net "bitcoin" ;;;
   loadPriceDataOf net "ethereum" ;;;
   loadPriceDataOf net "cardano")%js.

End Cards.

(** *** Periodic price updates *)

(** The timers of the page: [this.priceUpdateInterval] ([None] is the
    constructor's [null]), the handles of the intervals of the app that
    are registered and not cleared, and the handle the next call of
    [setInterval] returns.  Handles are positive integers, each returned
    once. *)
Record pager : Type := {
  priceUpdateInterval : option positive;
  live : list positive;
  next : positive
}.

(** [startPriceUpdates()] *)
Definition startPriceUpdates (p : pager) : pager :=
  {| priceUpdateInterval := Some (next p);
     live := live p ++ [next p];
     next := Pos.succ (next p) |}.

(** [clearInterval(handle)] *)
Definition clearInterval (handle : positive) (p : pager) : pager :=
  {| priceUpdateInterval := priceUpdateInterval p;
     live := filter (fun h => negb (Pos.eqb h handle)) (live p);
     next := next p |}.

(** The timer part of [destroy()]. *)
Definition destroy (p : pager) : pager :=
  match priceUpdateInterval p with
  | Some handle => clearInterval handle p
  | None => p
  end.

(** The listener of [visibilitychange], on [document.hidden], once
    [window.mobileCryptoApp] is there; the refresh it starts when the
    page is shown is left out. *)
Definition visibilitychange (hidden : bool) (p : pager) : pager :=
  if hidden then
    (* Pause updates when tab is not visible *)
    match priceUpdateInterval p with
    | Some handle => clearInterval handle p
    | None => p
    end
  else
    (* Resume updates when tab becomes visible *)
    startPriceUpdates p.

(** The timers after the constructor and [init()]. *)
Definition loaded : pager :=
  startPriceUpdates {| priceUpdateInterval := None; live := []; next := 1 |}.

(** *** Refreshing *)

(** What [refreshData] does to the outside: what the loads do, the
    toasts shown, and the errors logged. *)
Inductive refreshEvent : Type :=
| Loading (e : domEvent)
| Toast (message type : str)
| LogError.

Section Refresh.

(** [Promise.all([this.loadPriceData(), this.loadNews(),
    this.loadAlertStatus()])]: what the three loads do, and whether
    one of them rejects. *)
Variable loads : Js.M domEvent unit.

(** [loadInitialData()] *)
Definition loadInitialData : Js.M refreshEvent unit :=
  Js.tryCatch
    (Js.mapEvents Loading loads)
    (Js.emit LogError ;;;
     Js.emit (Toast "データの読み込みに失敗しました" "error"))%js.

(** [refreshData()] *)
Definition refreshData : Js.M refreshEvent unit :=
  (Js.emit (Toast "データを更新中..." "info") ;;;
   Js.tryCatch
     (loadInitialData ;;;
      Js.emit (Toast "データを更新しました" "success"))
     (Js.emit (Toast "更新に失敗しました" "error")))%js.

End Refresh.

End MobileCryptoApp.

(** ** class CryptoNewsApp *)

Inductive category : Type :=
  bitcoin | ethereum | defi | regulation | technology | general.

Inductive sentiment : Type := positive | negative | neutral.

Module CryptoNewsApp.
Import JsString.

Definition positiveWords : list str :=
  [ "surge" : str; "rally" : str; "bullish" : str; "gains" : str;
    "rise" : str; "positive" : str; "breakthrough" : str; "adoption" : str;
    "growth" : str; "boom" : str; "soar" : str; "spike" : str;
    "moon" : str; "bull" : str; "up" : str; "high" : str; "record" : str;
    "上昇" : str; "急騰" : str; "強気" : str; "利益" : str; "増加" : str;
    "前向き" : str; "突破" : str; "採用" : str; "成長" : str;
    "好調" : str; "買い" : str ].

Definition negativeWords : list str :=
  [ "crash" : str; "dump" : str; "bearish" : str; "decline" : str;
    "fall" : str; "negative" : str; "concern" : str; "regulation" : str;
    "drop" : str; "plunge" : str; "bear" : str; "down" : str;
    "low" : str; "sell" : str; "fear" : str; "risk" : str;
    "暴落" : str; "ダンプ" : str; "弱気" : str; "下落" : str;
    "落下" : str; "否定的" : str; "懸念" : str; "規制" : str;
    "低下" : str; "急落" : str; "熊" : str; "下" : str; "低い" : str;
    "売り" : str; "恐怖" : str; "リスク" : str; "不安" : str ].

Section WithHost.
Context {host : Host}.

(** [categorizeNews(title, summary)] *)
Definition categorizeNews (title summary : str) : category :=
  let text := toLowerCase (title ++ " " ++ summary) in
  if includes text "bitcoin" || includes text "btc" then bitcoin
  else if includes text "ethereum" || includes text "eth" then ethereum
  else if includes text "defi" || includes text "decentralized" then defi
  else if includes text "regulation" || includes text "regulatory"
          || includes text "規制" then regulation
  else if includes text "blockchain" || includes text "technology"
          || includes text "tech" then technology
  else general.

(** [analyzeSentiment(title, summary)] *)
Definition analyzeSentiment (title summary : str) : sentiment :=
  let text := toLowerCase (title ++ " " ++ summary) in
  let posCount := List.length (filter (fun word => includes text word) positiveWords) in
  let negCount := List.length (filter (fun word => includes text word) negativeWords) in
  if (negCount <? posCount)%nat then positive
  else if (posCount <? negCount)%nat then negative
  else neutral.

End WithHost.

(** *** News items and filters *)

(** A news item as the server sends it; [published] is the date
    [new Date(item.published)]; the link of the item is left out. *)
Module Raw.
Record t : Type := {
  title : str;
  summary : str;
  source : str;
  published : date
}.
End Raw.

(** A news item with the fields [enhanceNewsData] adds; its random id
    and the copy of its date are left out. *)
Module Item.
Record t : Type := {
  title : str;
  summary : str;
  source : str;
  published : date;
  category : str;
  sentiment : str
}.
End Item.

(** The strings [categorizeNews] returns. *)
Definition categoryName (c : category) : str :=
  match c with
  | bitcoin => "bitcoin"
  | ethereum => "ethereum"
  | defi => "defi"
  | regulation => "regulation"
  | technology => "technology"
  | general => "general"
  end.

(** The strings [analyzeSentiment] returns. *)
Definition sentimentName (s : sentiment) : str :=
  match s with
  | positive => "positive"
  | negative => "negative"
  | neutral => "neutral"
  end.

(** [element?.value || fallback]: [None] is a missing element. *)
Definition formValue (value : option str) (fallback : str) : str :=
  match value with
  | Some (c :: s) => c :: s
  | _ => fallback
  end.

(** The [switch (timeFilter)] of [applyFilters]: the time value of
    [timeThreshold]. *)
Definition timeThreshold (timeFilter : str) (now : Z) : Z :=
  if JsValue.eqStr timeFilter "24h" then now - 24 * 60 * 60 * 1000
  else if JsValue.eqStr timeFilter "7d" then now - 7 * 24 * 60 * 60 * 1000
  else if JsValue.eqStr timeFilter "30d" then now - 30 * 24 * 60 * 60 * 1000
  else 0.

Section Filters.
Context {host : Host}.

(** [enhanceNewsData(newsData)] *)
Definition enhanceNewsData (newsData : list Raw.t) : list Item.t :=
  map (fun item =>
         {| Item.title := Raw.title item;
            Item.summary := Raw.summary item;
            Item.source := Raw.source item;
            Item.published := Raw.published item;
            Item.category :=
              categoryName
                (categorizeNews (Raw.title item) (Raw.summary item));
            Item.sentiment :=
              sentimentName
                (analyzeSentiment (Raw.title item) (Raw.summary item)) |})
      newsData.

(** The callback of [this.newsData.filter] in [applyFilters], at the
    time [now]. *)
Definition passes (categoryFilter sourceFilter timeFilter : str) (now : Z)
    (item : Item.t) : bool :=
  (* Category filter *)
  if negb (JsValue.eqStr categoryFilter "all")
     && negb (JsValue.eqStr (Item.category item) categoryFilter)
  then false
  (* Source filter *)
  else if negb (JsValue.eqStr sourceFilter "all")
          && negb (includes (toLowerCase (Item.source item)) sourceFilter)
  then false
  (* Time filter *)
  else if JsInt.before (Item.published item)
                       (timeThreshold timeFilter now)
  then false
  else true.

(** [applyFilters()] at the time [now]: the new [this.filteredNews],
    from the values of the three filter controls and [this.newsData]. *)
Definition applyFilters (categoryFilter sourceFilter timeFilter : option str)
    (now : Z) (newsData : list Item.t) : list Item.t :=
  let categoryFilter := formValue categoryFilter "all" in
  let sourceFilter := formValue sourceFilter "all" in
  let timeFilter := formValue timeFilter "24h" in
  filter (passes categoryFilter sourceFilter timeFilter now) newsData.

(** [clearFilters()] at the time [now]: the three controls are set and
    the filters applied. *)
Definition clearFilters (now : Z) (newsData : list Item.t) : list Item.t :=
  applyFilters (Some ("all" : str)) (Some ("all" : str))
               (Some ("24h" : str)) now newsData.

End Filters.

(** *** Relative times *)

(** [formatTimeAgo(date)] at the time [now]; [toLocaleDateString] is the
    host's [date.toLocaleDateString('ja-JP')]. *)
Definition formatTimeAgo (toLocaleDateString : date -> str) (now : Z)
    (d : date) : str :=
  let diffMs := JsInt.sub now d in
  let diffMins := JsInt.floorDiv diffMs 60000 in
  let diffHours := JsInt.floorDiv diffMins 60 in
  let diffDays := JsInt.floorDiv diffHours 24 in
  if JsInt.lt diffMins 1 then "たった今"
  else if JsInt.lt diffMins 60 then JsInt.toString diffMins ++ "分前"
  else if JsInt.lt diffHours 24 then JsInt.toString diffHours ++ "時間前"
  else if JsInt.lt diffDays 7 then JsInt.toString diffDays ++ "日前"
  else toLocaleDateString d.

End CryptoNewsApp.

(** ** class CryptoTradingApp *)

Module CryptoTradingApp.

(** The controls of the analysis form. *)
Record form : Type := {
  cryptoSymbol : str;
  customSymbol : str;
  analysisDepth : str;
  technicalAgent : bool;
  sentimentAgent : bool;
  riskAgent : bool
}.

Record enabledAgents : Type := {
  technical : bool;
  sentiment : bool;
  risk : bool
}.

Record formData : Type := {
  symbol : str;
  depth : str;
  agents : enabledAgents
}.

(** [getFormData()] *)
Definition getFormData (f : form) : formData :=
  {| symbol := match customSymbol f with
               | [] => cryptoSymbol f     (* customSymbol || cryptoSymbol *)
               | custom => custom
               end;
     depth := analysisDepth f;
     agents := {| technical := technicalAgent f;
                  sentiment := sentimentAgent f;
                  risk := riskAgent f |} |}.

(** [validateFormData(data)]: its result and the errors it shows. *)
Definition validateFormData (data : formData) : bool * list str :=
  match symbol data with
  | [] => (false, [ "仮想通貨銘柄を選択または入力してください。" : str ])
  | _ =>
      let enabledAgentCount :=
        List.length (filter (fun b : bool => b)
                            [ technical (agents data);
                              sentiment (agents data);
                              risk (agents data) ]) in
      if (enabledAgentCount =? 0)%nat
      then (false,
            [ "少なくとも1つの分析エージェントを選択してください。" : str ])
      else (true, [])
  end.

(** [handleAnalysisSubmit(e)]: the errors shown and the form data
    [runAnalysis] is called with, if it is called. *)
Definition handleAnalysisSubmit (f : form) : list str * option formData :=
  let formData := getFormData f in
  let (valid, errors) := validateFormData formData in
  if negb valid then (errors, None)
  else (errors, Some formData).

(** *** Running the analysis *)

(** What [runAnalysis] does to the outside, in order. *)
Inductive appEvent : Type :=
| PostAnalyze (data : formData)
| SetAnalysisStatus (status text : str)
| ShowLoadingSpinner (show : bool)
| DisplayAnalysisResults (analysisText : jsval)
| ShowExportOptions (show : bool)
| ShowError (message : str)
| LogError.

Section Analysis.

(** [displayAnalysisResults(v)] returns; it throws where the markdown
    formatter rejects [v]. *)
Variable displays : jsval -> bool.

(** The text of [v] in a template literal; [None] when the conversion
    throws. *)
Variable templateString : jsval -> option str.

(** [runAnalysis(formData)] against the reply of [POST /analyze]. *)
Definition runAnalysis (data : formData) (r : reply) : Js.M appEvent unit :=
  (Js.emit (SetAnalysisStatus "analyzing" "分析実行中...") ;;;
   Js.emit (ShowLoadingSpinner true) ;;;
   Js.finally
     (Js.tryCatch
        (Js.emit (PostAnalyze data) ;;;
         response <- match r with
                     | NetworkError => Js.throw
                     | Response ok body => Js.ret (ok, body)
                     end ;;
         result <- Js.orThrow (snd response) ;;
         success <- Js.orThrow (JsValue.get result "success") ;;
         if JsValue.truthy success then
           analysis <- Js.orThrow (JsValue.get result "analysis") ;;
           (if displays analysis
            then Js.emit (DisplayAnalysisResults analysis)
            else Js.throw) ;;;
           Js.emit (SetAnalysisStatus "completed" "分析完了") ;;;
           Js.emit (ShowExportOptions true)
         else
           error <- Js.orThrow (JsValue.get result "error") ;;
           text <- Js.orThrow (templateString error) ;;
           Js.emit (ShowError ("分析エラー: " ++ text)) ;;;
           Js.emit (SetAnalysisStatus "error" "エラー"))
        (Js.emit LogError ;;;
         Js.emit (ShowError
                    "分析中にエラーが発生しました。しばらく後にもう一度お試しください。") ;;;
         Js.emit (SetAnalysisStatus "error" "エラー")))
     (Js.emit (ShowLoadingSpinner false)))%js.

End Analysis.

End CryptoTradingApp.

(** ** What the specification speaks of *)

(** The languages of the two regular expressions, and matches in a text. *)
Module Pattern.
Import Regex.

(** The words of [[0-9,]+ \.? [0-9]*]: digits and thousands separators,
    at least one; an optional point; optional digits. *)
Definition priceBody (b : str) : Prop :=
  exists whole dot frac,
    b = whole ++ dot ++ frac /\
    whole <> [] /\ forallb isDigitOrComma whole = true /\
    (dot = [] \/ dot = ["."%char]) /\
    forallb isDigit frac = true.

(** [text] holds a [$]-prefixed number: [$] and [body] after [pre]. *)
Definition priceMatch (text pre body post : str) : Prop :=
  text = pre ++ "$" ++ body ++ post /\ priceBody body.

(** The words of [[+-]? [0-9]+ \.? [0-9]*]. *)
Definition changeBody (b : str) : Prop :=
  exists sign whole dot frac,
    b = sign ++ whole ++ dot ++ frac /\
    (sign = [] \/ sign = ["+"%char] \/ sign = ["-"%char]) /\
    whole <> [] /\ forallb isDigit whole = true /\
    (dot = [] \/ dot = ["."%char]) /\
    forallb isDigit frac = true.

(** [text] holds a percentage: [body] and [%] after [pre]. *)
Definition changeMatch (text pre body post : str) : Prop :=
  text = pre ++ body ++ "%" ++ post /\ changeBody body.

(** [p] is a substring of [text]. *)
Definition occursIn (p text : str) : Prop :=
  exists pre post, text = pre ++ p ++ post.

(** [p] occurs in [text] in some letter case: a substring of [text]
    gives [p] when its ASCII capital letters are made small. *)
Definition occursAnyCase (p text : str) : Prop :=
  exists pre w post, text = pre ++ w ++ post /\ map asciiLower w = p.

(** [text] holds a [$]-prefixed number somewhere. *)
Definition hasPrice (text : str) : Prop :=
  exists pre body post, priceMatch text pre body post.

(** [text] holds a percentage somewhere. *)
Definition hasChange (text : str) : Prop :=
  exists pre body post, changeMatch text pre body post.

(** The first [$]-prefixed number of [text]: it is [body0] after [pre0];
    no such number starts further left, and none at that place is
    longer. *)
Definition firstPrice (text pre0 body0 post0 : str) : Prop :=
  priceMatch text pre0 body0 post0 /\
  (forall pre body post, priceMatch text pre body post ->
                         List.length pre0 <= List.length pre) /\
  (forall body post, priceMatch text pre0 body post ->
                     List.length body <= List.length body0).

(** A keyword scan in two steps with a default: [result] is [onFirst]
    when a keyword of [first] occurs in [text]; else [onSecond] when one of
    [second] occurs; else [otherwise]. *)
Definition scan {A : Type} (text : str) (first second : list str)
    (onFirst onSecond otherwise result : A) : Prop :=
  (Exists (fun k => occursIn k text) first -> result = onFirst) /\
  (~ Exists (fun k => occursIn k text) first ->
   Exists (fun k => occursIn k text) second -> result = onSecond) /\
  (~ Exists (fun k => occursIn k text) first ->
   ~ Exists (fun k => occursIn k text) second -> result = otherwise).

(** How many metrics of [ms] carry the label [l]. *)
Definition labelled (l : str) (ms : list metric) : nat :=
  List.length (filter (fun m => JsValue.eqStr (label m) l) ms).

End Pattern.

(** Lines and headings of an analysis document. *)
Module Document.
Import JsString.

Definition newline : ascii := ascii_of_nat 10.

(** A line with the heading marker. *)
Definition isHeading (line : str) : bool := startsWith line "##".

(** No line of [text] has the heading marker. *)
Definition noHeading (text : str) : bool :=
  forallb (fun line => negb (isHeading line)) (split newline text).

(** A piece of text without the separator [sep]. *)
Definition free (sep : ascii) (piece : str) : Prop :=
  forallb (fun c => negb (Ascii.eqb c sep)) piece = true.

(** A line of the shape [label: value] with a currency sign. *)
Definition isMetricLine (line : str) : bool :=
  includes line "$" && includes line ":".

End Document.

(** Sentiment by occurrences, as the specification words it: every
    occurrence of a listed word in the text counts. *)
Module OccurrenceCount.
Import JsString.

(** The number of positions of [s] at which [p] occurs. *)
Fixpoint occurrences (s p : str) : nat :=
  (if startsWith s p then 1 else 0) +
  match s with
  | [] => 0
  | _ :: s' => occurrences s' p
  end.

(** The occurrences of all the words of a list. *)
Definition occurrencesOf (words : list str) (text : str) : nat :=
  list_sum (map (occurrences text) words).

(** The sentiment the occurrence counts give. *)
Definition sentimentByOccurrences (text : str) : sentiment :=
  let pos := occurrencesOf CryptoNewsApp.positiveWords text in
  let neg := occurrencesOf CryptoNewsApp.negativeWords text in
  if (neg <? pos)%nat then positive
  else if (pos <? neg)%nat then negative
  else neutral.

End OccurrenceCount.

(** The topic keyword sets of the news classifier in their priority order. *)
Module Topics.

Definition keywords (c : category) : list str :=
  match c with
  | bitcoin => [ "bitcoin" : str; "btc" : str ]
  | ethereum => [ "ethereum" : str; "eth" : str ]
  | defi => [ "defi" : str; "decentralized" : str ]
  | regulation => [ "regulation" : str; "regulatory" : str; "規制" : str ]
  | technology => [ "blockchain" : str; "technology" : str; "tech" : str ]
  | general => []
  end.

Definition priority : list category :=
  [ bitcoin; ethereum; defi; regulation; technology ].

(** Some keyword of [c] is a substring of [text]. *)
Definition matches (text : str) (c : category) : bool :=
  existsb (JsString.includes text) (keywords c).

(** The first topic of [priority] that matches, else [general]. *)
Definition firstMatch (text : str) : category :=
  match find (matches text) priority with
  | Some c => c
  | None => general
  end.

(** The place of a topic in the order of the classifier, [general]
    last. *)
Definition rank (c : category) : nat :=
  match c with
  | bitcoin => 0
  | ethereum => 1
  | defi => 2
  | regulation => 3
  | technology => 4
  | general => 5
  end.

(** A keyword of the topic is a substring of [lowered]. *)
Definition named (lowered : str) (c : category) : Prop :=
  Exists (fun k => Pattern.occursIn k lowered) (keywords c).

(** A keyword of the topic occurs in [text], in some letter case. *)
Definition mentions (text : str) (c : category) : Prop :=
  Exists (fun k => Pattern.occursAnyCase k text) (keywords c).

(** [c] is the first topic in the order that is mentioned, and [general]
    when none is. *)
Definition first (mentioned : category -> Prop) (c : category) : Prop :=
  (mentioned c \/ c = general)
  /\ forall c', rank c' < rank c -> ~ mentioned c'.

(** Equality of topics. *)
Definition same (a b : category) : bool :=
  match a, b with
  | bitcoin, bitcoin | ethereum, ethereum | defi, defi
  | regulation, regulation | technology, technology
  | general, general => true
  | _, _ => false
  end.

(** The words of a list that are substrings of [text], each once. *)
Definition present (words : list str) (text : str) : list str :=
  filter (fun word => JsString.includes text word) words.

End Topics.

(** Letters of a filter value. *)
Module Letters.

(** An ASCII capital letter. *)
Definition isUpper (c : ascii) : bool :=
  let n := nat_of_ascii c in (65 <=? n)%nat && (n <=? 90)%nat.

(** A host whose [toLowerCase] leaves no ASCII capital letter, as the
    runtime's does. *)
Definition lowers (host : Host) : Prop :=
  forall (s : str) (c : ascii), In c (toLowerCase s) -> isUpper c = false.

(** A text whose letters with two cases are all ASCII letters, as
    English and Japanese text is: the runtime's [toLowerCase] makes its
    ASCII capital letters small and leaves the rest. *)
Definition plain (host : Host) (text : str) : Prop :=
  toLowerCase text = map asciiLower text.

End Letters.

(** How a metric of the mobile app relates to the dashboard's. *)
Module Display.


End Display.

(** Readings of the events of a run. *)
Module Page.

(** The ids the primary endpoint was asked for, in order. *)
Fixpoint primaryIds (log : list domEvent) : list str :=
  match log with
  | Fetching (RequestPrimary id) :: rest => id :: primaryIds rest
  | _ :: rest => primaryIds rest
  | [] => []
  end.

(** The writes to the page, in order. *)
Definition writes (log : list domEvent) : list domEvent :=
  filter (fun e => match e with Fetching _ => false | _ => true end) log.

(** A reply that gives the price fetch nothing to return. *)
Definition fails (r : reply) : bool :=
  match r with
  | NetworkError | Response false _ | Response true None => true
  | Response true (Some _) => false
  end.

(** The toasts shown, in order. *)
Fixpoint toasts (log : list MobileCryptoApp.refreshEvent)
  : list (str * str) :=
  match log with
  | MobileCryptoApp.Toast message type :: rest =>
      (message, type) :: toasts rest
  | _ :: rest => toasts rest
  | [] => []
  end.

(** The status the analysis page shows last. *)
Fixpoint lastStatus (log : list CryptoTradingApp.appEvent) : option str :=
  match log with
  | [] => None
  | e :: rest =>
      match lastStatus rest, e with
      | Some status, _ => Some status
      | None, CryptoTradingApp.SetAnalysisStatus status _ => Some status
      | None, _ => None
      end
  end.

End Page.

(** The simulated progress of a detailed analysis. *)
Module Progress.
Import CryptoDashboard.

Section WithDoubles.
Context {doubles : Doubles}.

(** A value of [Math.random()]: a finite double, at least 0 and less
    than 1. *)
Definition drawn (random : double) : Prop :=
  dFinite random /\ (0 <= dValue random)%Q /\ (dValue random < 1)%Q.

(** The bar after the runs of the callback with the given values of
    [Math.random()]. *)
Definition after (randoms : list double) (b : progressBar)
  : progressBar :=
  fold_left (fun b random => tick random b) randoms b.

(** What the progress can have come to after so many runs: 15 for
    each. *)
Definition budget (runs : nat) : Z := (15 * Z.of_nat runs)%Z.

(** The bar after at most [runs] runs: it shows the progress, a finite
    double that is not negative; while the interval is registered the
    progress is within the budget and below 95, and once it is cleared
    the progress is 95, which the budget must allow. *)
Definition steady (runs : nat) (b : progressBar) : Prop :=
  width b = progress b
  /\ dFinite (progress b)
  /\ (0 <= dValue (progress b))%Q
  /\ if ticking b
     then (dValue (progress b) <= inject_Z (budget runs))%Q
          /\ (dValue (progress b) < 95)%Q
     else progress b = dOfZ 95 /\ (95 < budget runs)%Z.

End WithDoubles.

End Progress.

(** The states of the dashboard's refresh schedule the page can come to:
    [startRealTimeUpdates] and [saveSettings] in any order and at any
    times, with update frequencies the timer model covers. *)
Module Schedule.
Import CryptoDashboard.

(** A delay whose double is within what the timer model covers:
    positive, the double at most 2^31 - 1. *)
Definition inRange (delay : Z) : Prop :=
  (0 < delay /\ delay * 2 <= 2147483647)%Z.

Inductive reachable : dashboard -> Prop :=
| reach_initial : reachable initial
| reach_start (now : Z) (d : dashboard) :
    reachable d -> reachable (startRealTimeUpdates now d)
| reach_save (form : settingsForm) (now : Z) (d : dashboard) :
    reachable d -> inRange (updateFreq form * 1000) ->
    reachable (saveSettings form now d).

(** How many times a refresh runs at one time. *)
Definition runs (r : refresh) (d : dashboard) (t : Z) : nat :=
  List.length
    (filter (fun x => match x, r with
                      | LoadMarketOverview, LoadMarketOverview
                      | LoadCryptoNews, LoadCryptoNews => true
                      | _, _ => false
                      end)
            (refreshesAt d t)).

End Schedule.

(** Sequences of [visibilitychange] events, each the new value of
    [document.hidden]. *)
Module Visibility.

(** The app after the events. *)
Definition after (events : list bool) (p : MobileCryptoApp.pager)
  : MobileCryptoApp.pager :=
  fold_left (fun p hidden => MobileCryptoApp.visibilitychange hidden p)
            events p.

(** The events alternate, the first one being [first]. *)
Fixpoint alternates (first : bool) (events : list bool) : bool :=
  match events with
  | [] => true
  | hidden :: rest => Bool.eqb hidden first && alternates (negb first) rest
  end.

(** While the page is shown one interval is live and the app holds its
    handle; while it is hidden none is. *)
Definition tidy (shown : bool) (p : MobileCryptoApp.pager) : Prop :=
  if shown
  then exists handle,
         MobileCryptoApp.priceUpdateInterval p = Some handle
         /\ MobileCryptoApp.live p = [handle]
  else MobileCryptoApp.live p = [].

(** The first interval of the page is live and the app holds the handle
    of a later one. *)
Definition leaking (p : MobileCryptoApp.pager) : Prop :=
  In 1%positive (MobileCryptoApp.live p)
  /\ (1 < MobileCryptoApp.next p)%positive
  /\ exists handle,
       MobileCryptoApp.priceUpdateInterval p = Some handle
       /\ (1 < handle)%positive.

End Visibility.

(** The requests among the events of a run. *)
Module Trace.

Definition isRequest (e : event) : bool :=
  match e with
  | RequestPrimary _ | RequestFallback _ => true
  | _ => false
  end.

Definition requests (log : list event) : list event := filter isRequest log.

(** The quote the fallback tier is normalised to. *)
Definition normalised (entry : jsval) : jsval :=
  VObj [ ("price_usd" : str, JsValue.getOpt entry "usd");
         ("price_change_24h" : str, JsValue.getOpt entry "usd_24h_change") ].

(** The fallback body of the specification's example:
    [{bitcoin: {usd: 50000, usd_24h_change: 2.5}}]. *)
Definition exampleBody : jsval :=
  VObj [ ("bitcoin" : str,
          VObj [ ("usd" : str, VNum (Num 50000));
                 ("usd_24h_change" : str, VNum (Num 2.5)) ]) ].

End Trace.

(** The sections of a document told line by line: every heading line
    with the lines up to the next heading line. *)
Module Outline.
Import JsString.

(** The lines up to the first heading line. *)
Fixpoint leading (lines : list str) : list str :=
  match lines with
  | [] => []
  | line :: rest =>
      if Document.isHeading line then [] else line :: leading rest
  end.

(** Every heading line with the lines that follow it. *)
Fixpoint chunks (lines : list str) : list (str * list str) :=
  match lines with
  | [] => []
  | line :: rest =>
      if Document.isHeading line
      then (line, leading rest) :: chunks rest
      else chunks rest
  end.

(** The metric of a metric line: its first two pieces at colons. *)
Definition metricOf (line : str) : sectionMetric :=
  {| mLabel := trim (nth 0 (split ":" line) []);
     mValue := trim (nth 1 (split ":" line) []) |}.

(** The body the lines give: the lines that are no metric lines, each
    followed by a line break. *)
Definition bodyOf (lines : list str) : str :=
  List.concat (map (fun line => line ++ "<br>")
                   (filter (fun line => negb (Document.isMetricLine line)) lines)).

(** The metrics the lines give. *)
Definition metricsOf (lines : list str) : list sectionMetric :=
  map metricOf (filter Document.isMetricLine lines).

(** The section of a heading line and the lines that follow it. *)
Definition build (chunk : str * list str) : section :=
  {| title := trimStart (skipn 2 (fst chunk));
     content := bodyOf (snd chunk);
     metrics := metricsOf (snd chunk) |}.

(** A section with more lines after it. *)
Definition extend (current : section) (lines : list str) : section :=
  {| title := title current;
     content := content current ++ bodyOf lines;
     metrics := metrics current ++ metricsOf lines |}.

End Outline.

(** Closes an equation between two bracketings of one concatenation. *)
Ltac same_text :=
  cbn [list_ascii_of_string app];
  repeat (rewrite <- app_assoc; cbn [app]);
  reflexivity.

#[local] Arguments Ascii.eqb : simpl never.

(** * Properties *)

(** ** Strings *)

Section StringFacts.
Import JsString.

Lemma startsWith_app (p rest : str) : startsWith (p ++ rest) p = true.
Proof.
  induction p as [|c p IH]; simpl; [reflexivity|].
  now rewrite Ascii.eqb_refl, IH.
Qed.

Lemma startsWith_inv (s p : str) :
  startsWith s p = true -> exists rest, s = p ++ rest.
Proof.
  revert s; induction p as [|c p IH]; intros s H.
  - now exists s.
  - destruct s as [|d s]; simpl in H; [discriminate|].
    apply andb_true_iff in H as [Hc Hp].
    apply Ascii.eqb_eq in Hc; subst d.
    destruct (IH _ Hp) as [rest ->].
    now exists rest.
Qed.

Lemma includes_here (s p : str) :
  startsWith s p = true -> includes s p = true.
Proof. intros H. destruct s; simpl; now rewrite H. Qed.

Lemma includes_app (pre p post : str) : includes (pre ++ p ++ post) p = true.
Proof.
  induction pre as [|c pre IH]; simpl.
  - apply includes_here, startsWith_app.
  - rewrite IH. apply orb_true_r.
Qed.

Lemma includes_inv (s p : str) :
  includes s p = true -> exists pre post, s = pre ++ p ++ post.
Proof.
  induction s as [|c s IH]; simpl; intros H.
  - rewrite orb_false_r in H.
    apply startsWith_inv in H as [rest ->]. now exists [], rest.
  - apply orb_true_iff in H as [H|H].
    + apply startsWith_inv in H as [rest ->]. now exists [], rest.
    + destruct (IH H) as (pre & post & ->). now exists (c :: pre), post.
Qed.

End StringFacts.

(** ** The regular expressions *)


Section RegexFacts.
Import Regex Pattern.

Variable p : ascii -> bool.

Lemma takeWhile_dropWhile (s : str) : s = takeWhile p s ++ dropWhile p s.
Proof.
  induction s as [|c s IH]; simpl; [reflexivity|].
  destruct (p c); simpl; [now f_equal|reflexivity].
Qed.

Lemma takeWhile_all (s : str) : forallb p (takeWhile p s) = true.
Proof.
  induction s as [|c s IH]; simpl; [reflexivity|].
  destruct (p c) eqn:E; simpl; [now rewrite E|reflexivity].
Qed.

Lemma takeWhile_app (a rest : str) :
  forallb p a = true -> takeWhile p (a ++ rest) = a ++ takeWhile p rest.
Proof.
  induction a as [|c a IH]; simpl; intros H; [reflexivity|].
  apply andb_true_iff in H as [-> Ha]. now rewrite IH.
Qed.

Lemma dropWhile_app (a rest : str) :
  forallb p a = true -> dropWhile p (a ++ rest) = dropWhile p rest.
Proof.
  induction a as [|c a IH]; simpl; intros H; [reflexivity|].
  apply andb_true_iff in H as [-> Ha]. now apply IH.
Qed.

End RegexFacts.

Section SearchFacts.
Import Regex.

Context {A : Type} (at_ : str -> option A).

(** A successful search stops at a suffix where the expression matches,
    and it matches at no earlier position. *)
Lemma search_first (text : str) (m : A) :
  search at_ text = Some m ->
  exists pre s,
    text = pre ++ s /\ at_ s = Some m /\
    forall pre' s', text = pre' ++ s' ->
                    List.length pre' < List.length pre -> at_ s' = None.
Proof.
  induction text as [|c text IH]; simpl.
  - destruct (at_ []) eqn:E; [|discriminate].
    intros H; injection H as ->.
    exists [], []; repeat split; auto.
    simpl; intros; lia.
  - destruct (at_ (c :: text)) eqn:E.
    + intros H; injection H as ->.
      exists [], (c :: text); repeat split; auto.
      simpl; intros; lia.
    + intros H. destruct (IH H) as (pre & s & -> & Hs & Hmin).
      exists (c :: pre), s; repeat split; auto.
      intros [|d pre'] s' Heq Hlen.
      * simpl in Heq; now subst s'.
      * simpl in Heq, Hlen; injection Heq as -> Heq.
        apply (Hmin pre'); [exact Heq|lia].
Qed.

(** A match anywhere makes the search succeed. *)
Lemma search_complete (pre s : str) (m : A) :
  at_ s = Some m -> exists m', search at_ (pre ++ s) = Some m'.
Proof.
  intros Hs. induction pre as [|c pre IH]; simpl.
  - destruct s; simpl; rewrite Hs; eauto.
  - destruct (at_ (c :: pre ++ s)); eauto.
Qed.

Lemma search_none (text : str) :
  search at_ text = None ->
  forall pre s, text = pre ++ s -> at_ s = None.
Proof.
  intros H pre s ->.
  destruct (at_ s) eqn:E; [|reflexivity].
  destruct (search_complete pre s a E) as [m' Hm']. congruence.
Qed.

End SearchFacts.

Section PriceFacts.
Import Regex Pattern.

Lemma isDigit_isDigitOrComma (s : str) :
  forallb isDigit s = true -> forallb isDigitOrComma s = true.
Proof.
  induction s as [|c s IH]; cbn [forallb]; [reflexivity|].
  intros H; apply andb_true_iff in H as [Hc Hs].
  apply andb_true_iff; split; [|now apply IH].
  unfold isDigitOrComma; now rewrite Hc.
Qed.

Lemma optional_app (p : ascii -> bool) (s m r : str) :
  optional p s = (m, r) ->
  s = m ++ r /\ (m = [] \/ exists c, m = [c] /\ p c = true).
Proof.
  unfold optional. destruct s as [|c s]; [|destruct (p c) eqn:E];
    intros H; injection H as <- <-; split; eauto.
Qed.

Lemma optional_dot (s m r : str) :
  optional (Ascii.eqb ".") s = (m, r) ->
  s = m ++ r /\ (m = [] \/ m = ["."%char]).
Proof.
  intros H. apply optional_app in H as [-> [->|(c & -> & Hc)]]; auto.
  apply Ascii.eqb_eq in Hc; subst c; auto.
Qed.

(** What [priceAt] returns is a word of the expression at the head. *)
Lemma priceAt_sound (s g : str) :
  priceAt s = Some g -> exists post, s = "$" ++ g ++ post /\ priceBody g.
Proof.
  unfold priceAt. destruct s as [|c r]; [discriminate|].
  destruct (Ascii.eqb c "$") eqn:Ec; [|discriminate].
  apply Ascii.eqb_eq in Ec; subst c.
  pose proof (takeWhile_dropWhile isDigitOrComma r) as Hr.
  pose proof (takeWhile_all isDigitOrComma r) as Hall.
  destruct (takeWhile isDigitOrComma r) as [|w0 w] eqn:Ew; [discriminate|].
  destruct (optional (Ascii.eqb ".") (dropWhile isDigitOrComma r))
    as [dot r'] eqn:Eo.
  apply optional_dot in Eo as [Er1 Hdot].
  intros H; injection H as <-.
  exists (dropWhile isDigit r'). split.
  - rewrite Hr, Er1, (takeWhile_dropWhile isDigit r') at 1.
    same_text.
  - exists (w0 :: w), dot, (takeWhile isDigit r').
    repeat split; auto; [discriminate|apply takeWhile_all].
Qed.

Lemma priceAt_eq (r : str) :
  takeWhile isDigitOrComma r <> [] ->
  priceAt ("$" ++ r) =
  let o := optional (Ascii.eqb ".") (dropWhile isDigitOrComma r) in
  Some (takeWhile isDigitOrComma r ++ fst o ++ takeWhile isDigit (snd o)).
Proof.
  intros Hw. cbn [list_ascii_of_string app priceAt].
  rewrite Ascii.eqb_refl.
  destruct (takeWhile isDigitOrComma r); [contradiction|].
  now destruct (optional _ _).
Qed.

Lemma priceBody_head (b q : str) :
  priceBody b -> takeWhile isDigitOrComma (b ++ q) <> [].
Proof.
  intros (w & d & f & -> & Hw & Hall & _ & _).
  rewrite <- app_assoc, takeWhile_app by exact Hall.
  destruct w; [contradiction|discriminate].
Qed.

(** Where a word of the expression starts, [priceAt] finds a match. *)
Lemma priceAt_complete (b q : str) :
  priceBody b -> exists g, priceAt ("$" ++ b ++ q) = Some g.
Proof.
  intros Hb. rewrite priceAt_eq by now apply priceBody_head. eauto.
Qed.

(** The match [priceAt] returns is the longest at its place. *)
Lemma priceAt_longest (b q g : str) :
  priceBody b -> priceAt ("$" ++ b ++ q) = Some g ->
  List.length b <= List.length g.
Proof.
  intros Hb. rewrite priceAt_eq by now apply priceBody_head.
  destruct Hb as (w & d & f & -> & Hw & Hall & Hd & Hf).
  cbv zeta. intros H; injection H as <-.
  rewrite !length_app.
  destruct Hd as [->| ->].
  - cbn [app].
    rewrite takeWhile_app
      by (rewrite forallb_app, Hall; now apply isDigit_isDigitOrComma).
    rewrite !length_app. cbn [List.length]. lia.
  - rewrite <- !app_assoc. cbn [app].
    rewrite takeWhile_app, dropWhile_app by exact Hall.
    cbn [takeWhile dropWhile].
    replace (isDigitOrComma ".") with false by reflexivity.
    unfold optional. rewrite Ascii.eqb_refl. cbn [fst snd].
    rewrite takeWhile_app by exact Hf.
    rewrite !length_app. cbn [List.length]. lia.
Qed.

End PriceFacts.

Section ChangeFacts.
Import Regex Pattern.

Lemma digit_not_sign (c : ascii) : isDigit c = true -> isSign c = false.
Proof.
  destruct c as [[] [] [] [] [] [] [] []]; intros H;
    solve [reflexivity | discriminate H].
Qed.

Lemma optional_sign (s m r : str) :
  optional isSign s = (m, r) ->
  s = m ++ r /\ (m = [] \/ m = ["+"%char] \/ m = ["-"%char]).
Proof.
  intros H. apply optional_app in H as [-> [->|(c & -> & Hc)]]; auto.
  split; [reflexivity|]. right.
  unfold isSign in Hc. apply orb_true_iff in Hc as [Hc|Hc];
    apply Ascii.eqb_eq in Hc; subst c; auto.
Qed.

(** What [changeAt] returns is a word of the expression at the head,
    followed by the percent sign. *)
Lemma changeAt_sound (s g : str) :
  changeAt s = Some g -> exists post, s = g ++ "%" ++ post /\ changeBody g.
Proof.
  unfold changeAt.
  destruct (optional isSign s) as [sign r] eqn:Es.
  apply optional_sign in Es as [-> Hsign].
  pose proof (takeWhile_dropWhile isDigit r) as Hr.
  pose proof (takeWhile_all isDigit r) as Hall.
  destruct (takeWhile isDigit r) as [|w0 w] eqn:Ew; [discriminate|].
  destruct (optional (Ascii.eqb ".") (dropWhile isDigit r))
    as [dot r'] eqn:Eo.
  apply optional_dot in Eo as [Er1 Hdot].
  pose proof (takeWhile_dropWhile isDigit r') as Hr'.
  destruct (dropWhile isDigit r') as [|c post]; [discriminate|].
  destruct (Ascii.eqb c "%") eqn:Ec; [|discriminate].
  apply Ascii.eqb_eq in Ec; subst c.
  intros H; injection H as <-.
  exists post. split.
  - rewrite Hr, Er1, Hr' at 1.
    same_text.
  - exists sign, (w0 :: w), dot, (takeWhile isDigit r').
    repeat split; auto; [discriminate|apply takeWhile_all].
Qed.

Lemma changeAt_digits (sign r : str) :
  (sign = [] \/ sign = ["+"%char] \/ sign = ["-"%char]) ->
  (exists c r', r = c :: r' /\ isDigit c = true) ->
  changeAt (sign ++ r) =
  let o := optional (Ascii.eqb ".") (dropWhile isDigit r) in
  match dropWhile isDigit (snd o) with
  | c :: _ =>
      if Ascii.eqb c "%"
      then Some (sign ++ takeWhile isDigit r ++ fst o
                      ++ takeWhile isDigit (snd o))
      else None
  | [] => None
  end.
Proof.
  intros Hsign (c & r' & -> & Hc).
  assert (Ho : optional isSign (sign ++ c :: r') = (sign, c :: r')).
  { destruct Hsign as [->|[->| ->]]; try reflexivity.
    cbn [app optional]. now rewrite (digit_not_sign _ Hc). }
  unfold changeAt. rewrite Ho.
  cbn [takeWhile]. rewrite Hc.
  now destruct (optional (Ascii.eqb ".") _).
Qed.

(** Where a word of the expression is followed by the percent sign,
    [changeAt] finds a match. *)
Lemma changeAt_complete (b q : str) :
  changeBody b -> exists g, changeAt (b ++ "%" ++ q) = Some g.
Proof.
  intros (sign & w & d & f & -> & Hsign & Hw & Hall & Hd & Hf).
  rewrite <- !app_assoc. rewrite changeAt_digits; auto.
  2:{ destruct w as [|c w]; [contradiction|]. cbn [forallb] in Hall.
      apply andb_true_iff in Hall as [Hc _]. cbn [app]; eauto. }
  cbv zeta. destruct Hd as [->| ->]; cbn [app list_ascii_of_string].
  - rewrite app_assoc.
    rewrite !dropWhile_app by (now rewrite forallb_app, Hall, Hf).
    cbn [dropWhile]. replace (isDigit "%") with false by reflexivity.
    unfold optional. replace (Ascii.eqb "." "%") with false by reflexivity.
    cbn [fst snd dropWhile].
    replace (isDigit "%") with false by reflexivity.
    rewrite Ascii.eqb_refl. eauto.
  - rewrite dropWhile_app by exact Hall.
    cbn [dropWhile]. replace (isDigit ".") with false by reflexivity.
    unfold optional. rewrite Ascii.eqb_refl. cbn [fst snd].
    rewrite dropWhile_app by exact Hf.
    cbn [dropWhile]. replace (isDigit "%") with false by reflexivity.
    rewrite Ascii.eqb_refl. eauto.
Qed.

End ChangeFacts.

(** ** MetricExtractor: [parseAnalysisMetrics] *)

Section MetricExtractor.
Import JsString Regex Pattern.
Context {host : Host}.

Lemma includes_iff (text p : str) : includes text p = true <-> occursIn p text.
Proof.
  split.
  - apply includes_inv.
  - intros (pre & post & ->). apply includes_app.
Qed.

(** The price search succeeds exactly on the texts that hold a
    [$]-prefixed number, and returns the first and longest one. *)
Lemma search_price_first (text : str) :
  hasPrice text ->
  exists pre0 body0 post0,
    search priceAt text = Some body0 /\
    priceMatch text pre0 body0 post0 /\
    (forall pre body post, priceMatch text pre body post ->
                           List.length pre0 <= List.length pre) /\
    (forall body post, priceMatch text pre0 body post ->
                       List.length body <= List.length body0).
Proof.
  intros (pre & body & post & Htext0 & Hbody).
  destruct (priceAt_complete body post Hbody) as [g Hg].
  destruct (search_complete priceAt pre _ _ Hg) as [body0 Hsearch].
  rewrite <- Htext0 in Hsearch.
  destruct (search_first _ _ _ Hsearch) as (pre0 & s0 & Htext & Hat & Hmin).
  destruct (priceAt_sound _ _ Hat) as (post0 & Hs0 & Hbody0).
  exists pre0, body0, post0.
  split; [exact Hsearch|].
  split; [split; [now rewrite Htext, Hs0|exact Hbody0]|].
  split.
  - intros p b q [Hpbq Hb].
    destruct (Nat.le_gt_cases (List.length pre0) (List.length p)) as [|Hlt];
      [assumption|exfalso].
    specialize (Hmin p _ Hpbq Hlt).
    destruct (priceAt_complete b q Hb) as [g' Hg']. congruence.
  - intros b q [Hpbq Hb].
    rewrite Htext in Hpbq. apply app_inv_head in Hpbq.
    rewrite Hpbq in Hat.
    exact (priceAt_longest _ _ _ Hb Hat).
Qed.

Lemma search_price_none (text : str) :
  search priceAt text = None -> ~ hasPrice text.
Proof.
  intros Hnone (pre & body & post & Htext & Hbody).
  pose proof (search_none _ _ Hnone _ _ Htext) as Hat.
  destruct (priceAt_complete body post Hbody) as [g Hg]. congruence.
Qed.

Lemma search_price_some (text g : str) :
  search priceAt text = Some g -> hasPrice text.
Proof.
  intros H. destruct (search_first _ _ _ H) as (pre & s & -> & Hat & _).
  destruct (priceAt_sound _ _ Hat) as (post & -> & Hb).
  now exists pre, g, post.
Qed.

Lemma search_change_none (text : str) :
  search changeAt text = None -> ~ hasChange text.
Proof.
  intros Hnone (pre & body & post & Htext & Hbody).
  pose proof (search_none _ _ Hnone _ _ Htext) as Hat.
  destruct (changeAt_complete body post Hbody) as [g Hg]. congruence.
Qed.

Lemma search_change_some (text g : str) :
  search changeAt text = Some g -> hasChange text.
Proof.
  intros H. destruct (search_first _ _ _ H) as (pre & s & -> & Hat & _).
  destruct (changeAt_sound _ _ Hat) as (post & -> & Hb).
  now exists pre, g, post.
Qed.

(** With a price found, the price metric heads the list, in both
    extractors. *)
Lemma price_metric_heads (text g : str) :
  search priceAt text = Some g ->
  (exists rest, CryptoDashboard.parseAnalysisMetrics text =
     {| label := "現在価格"; value := "$" ++ g; class := "" |} :: rest) /\
  (exists rest, MobileCryptoApp.parseAnalysisMetrics text =
     {| label := "現在価格"; value := "$" ++ g; class := "" |} :: rest).
Proof.
  intros H.
  unfold CryptoDashboard.parseAnalysisMetrics,
    MobileCryptoApp.parseAnalysisMetrics.
  rewrite H. cbv zeta. cbn [app].
  split; repeat match goal with
    | |- context [match ?x with _ => _ end] => destruct x
    end; cbn [app]; eauto.
Qed.

End MetricExtractor.

Section MetricClaims.
Import JsString Regex Pattern.
Context {host : Host}.

Lemma scan_includes {A : Type} (text a1 a2 b1 b2 : str) (x y z : A) :
  scan text [a1; a2] [b1; b2] x y z
    (if includes text a1 || includes text a2 then x
     else if includes text b1 || includes text b2 then y
     else z).
Proof.
  assert (Hex : forall k1 k2,
    Exists (fun k => occursIn k text) [k1; k2] <->
    includes text k1 || includes text k2 = true).
  { intros k1 k2. rewrite orb_true_iff, !includes_iff. split.
    - intros H. inversion H as [? ? H1|? ? H1]; subst; auto.
      inversion H1 as [? ? H2|? ? H2]; subst; auto. inversion H2.
    - intros [H|H]; [left|right; left]; exact H. }
  unfold scan. rewrite !Hex.
  destruct (includes text a1 || includes text a2);
    destruct (includes text b1 || includes text b2);
    repeat split; intros; congruence.
Qed.

(** The four parts of the dashboard's metric list. *)
Lemma dashboard_metrics_parts (text : str) :
  CryptoDashboard.parseAnalysisMetrics text =
    match search priceAt text with
    | Some g => [ {| label := "現在価格"; value := "$" ++ g; class := "" |} ]
    | None => []
    end
    ++ match search changeAt text with
       | Some g =>
           [ {| label := "24h変動";
                value := toFixed 2 (parseFloat g) ++ "%";
                class := if JsNumber.geZero (parseFloat g)
                         then "price-up" else "price-down" |} ]
       | None => []
       end
    ++ [ if includes text "POSITIVE" || includes text "ポジティブ"
         then {| label := "センチメント"; value := "ポジティブ";
                 class := "sentiment-positive" |}
         else if includes text "NEGATIVE" || includes text "ネガティブ"
         then {| label := "センチメント"; value := "ネガティブ";
                 class := "sentiment-negative" |}
         else {| label := "センチメント"; value := "ニュートラル";
                 class := "sentiment-neutral" |};
         if includes text "BUY" || includes text "買い"
         then {| label := "推奨"; value := "BUY";
                 class := "sentiment-positive" |}
         else if includes text "SELL" || includes text "売り"
         then {| label := "推奨"; value := "SELL";
                 class := "sentiment-negative" |}
         else {| label := "推奨"; value := "HOLD";
                 class := "sentiment-neutral" |} ].
Proof.
  unfold CryptoDashboard.parseAnalysisMetrics. cbv zeta.
  destruct (search priceAt text), (search changeAt text);
    destruct (includes text "POSITIVE" || includes text "ポジティブ"),
             (includes text "NEGATIVE" || includes text "ネガティブ"),
             (includes text "BUY" || includes text "買い"),
             (includes text "SELL" || includes text "売り");
    reflexivity.
Qed.

End MetricClaims.

(** What the extractors do on every text with a match: whenever the text
    holds [$] followed by a word of the expression (digits and separators
    in any mix, at least one; an optional point; optional digits), both
    put first a metric labelled "現在価格" (current price) whose value is the
    leftmost such word, the longest at its place.  A word of the
    expression need not be a number. *)
Theorem price_metric_is_first_dollar_number {host : Host} (text : str) :
  Pattern.hasPrice text ->
  exists pre0 body0 post0,
    Pattern.firstPrice text pre0 body0 post0 /\
    (exists rest, CryptoDashboard.parseAnalysisMetrics text =
       {| label := "現在価格"; value := "$" ++ body0; class := "" |} :: rest) /\
    (exists rest, MobileCryptoApp.parseAnalysisMetrics text =
       {| label := "現在価格"; value := "$" ++ body0; class := "" |} :: rest).
Proof.
  intros Hprice.
  destruct (search_price_first _ Hprice)
    as (pre0 & body0 & post0 & Hsearch & Hmatch & Hfirst & Hlongest).
  exists pre0, body0, post0. split.
  - repeat split; try apply Hmatch; assumption.
  - now apply price_metric_heads.
Qed.

Lemma price_metric_is_first_dollar_number_witness :
  Pattern.hasPrice "BTC is at $45,230.50 today" /\
  exists pre0 body0 post0,
    Pattern.firstPrice "BTC is at $45,230.50 today" pre0 body0 post0 /\
    (exists rest,
       CryptoDashboard.parseAnalysisMetrics (host := exampleHost)
         "BTC is at $45,230.50 today" =
       {| label := "現在価格"; value := "$" ++ body0; class := "" |} :: rest) /\
    (exists rest,
       MobileCryptoApp.parseAnalysisMetrics (host := exampleHost)
         "BTC is at $45,230.50 today" =
       {| label := "現在価格"; value := "$" ++ body0; class := "" |} :: rest).
Proof.
  assert (H : Pattern.hasPrice "BTC is at $45,230.50 today").
  { exists ("BTC is at " : str), ("45,230.50" : str), (" today" : str).
    split; [reflexivity|].
    exists ("45,230" : str), ("." : str), ("50" : str).
    repeat split; [discriminate|right; reflexivity]. }
  split; [exact H|].
  exact (price_metric_is_first_dollar_number (host := exampleHost) _ H).
Defined.

(** C2.  The price metric is not always the first [$]-prefixed number of
    the text.  The expression takes separators and a point wherever they
    stand: on "BTC is at $45,230, up" both extractors give "$45,230," with
    the comma of the sentence, on "BTC closed at $45,230." they give
    "$45,230." with its full stop, and on "fee $, now $5" they give "$,",
    which is no number, and pass over "$5".  On the spec's own example
    they give "$45,230.50". *)
Example price_metric_takes_stray_separators :
  let prices (text : str) :=
    (hd_error (map value
                 (CryptoDashboard.parseAnalysisMetrics (host := exampleHost)
                    text)),
     hd_error (map value
                 (MobileCryptoApp.parseAnalysisMetrics (host := exampleHost)
                    text))) in
  prices "BTC is at $45,230, up"
    = (Some ("$45,230," : str), Some ("$45,230," : str)) /\
  prices "BTC closed at $45,230."
    = (Some ("$45,230." : str), Some ("$45,230." : str)) /\
  prices "fee $, now $5" = (Some ("$," : str), Some ("$," : str)) /\
  prices "BTC is at $45,230.50 today"
    = (Some ("$45,230.50" : str), Some ("$45,230.50" : str)).
Proof.
  cbv zeta. vm_compute.
  split; [reflexivity |]. split; [reflexivity |].
  split; reflexivity.
Qed.

(** The spec's example in full: the text "BTC is at $45,230.50 today" gives
    the price metric "$45,230.50", then the two defaults. *)
Example price_metric_example :
  CryptoDashboard.parseAnalysisMetrics (host := exampleHost)
    "BTC is at $45,230.50 today" =
  [ {| label := "現在価格"; value := "$45,230.50"; class := "" |};
    {| label := "センチメント"; value := "ニュートラル";
       class := "sentiment-neutral" |};
    {| label := "推奨"; value := "HOLD"; class := "sentiment-neutral" |} ].
Proof. vm_compute. reflexivity. Qed.

(** C3.  For every analysis text the dashboard's metric list is
    [price ++ change ++ [sentiment; recommendation]]: the price metric is
    there exactly when the text holds a [$]-prefixed number and the change
    metric exactly when it holds a percentage; the sentiment metric comes
    from the scan positive, then negative, else neutral, and the
    recommendation from the scan buy, then sell, else hold; the list has
    exactly one metric labelled "センチメント" (sentiment) and exactly one
    labelled "推奨" (recommendation). *)
Theorem metrics_order_and_defaults {host : Host} (text : str) :
  exists price change sentiment recommendation,
    CryptoDashboard.parseAnalysisMetrics text =
      price ++ change ++ [sentiment; recommendation] /\
    ((~ Pattern.hasPrice text /\ price = []) \/
     (Pattern.hasPrice text /\
      exists v, price = [ {| label := "現在価格"; value := v; class := "" |} ])) /\
    ((~ Pattern.hasChange text /\ change = []) \/
     (Pattern.hasChange text /\
      exists v c, change = [ {| label := "24h変動"; value := v; class := c |} ])) /\
    Pattern.scan text
      [ "POSITIVE" : str; "ポジティブ" : str ]
      [ "NEGATIVE" : str; "ネガティブ" : str ]
      {| label := "センチメント"; value := "ポジティブ";
         class := "sentiment-positive" |}
      {| label := "センチメント"; value := "ネガティブ";
         class := "sentiment-negative" |}
      {| label := "センチメント"; value := "ニュートラル";
         class := "sentiment-neutral" |}
      sentiment /\
    Pattern.scan text
      [ "BUY" : str; "買い" : str ]
      [ "SELL" : str; "売り" : str ]
      {| label := "推奨"; value := "BUY"; class := "sentiment-positive" |}
      {| label := "推奨"; value := "SELL"; class := "sentiment-negative" |}
      {| label := "推奨"; value := "HOLD"; class := "sentiment-neutral" |}
      recommendation /\
    Pattern.labelled "センチメント" (CryptoDashboard.parseAnalysisMetrics text) = 1 /\
    Pattern.labelled "推奨" (CryptoDashboard.parseAnalysisMetrics text) = 1.
Proof.
  rewrite dashboard_metrics_parts.
  do 4 eexists. split; [reflexivity|].
  split.
  { destruct (Regex.search Regex.priceAt text) eqn:E.
    - right. split; [exact (search_price_some _ _ E)|eauto].
    - left. split; [exact (search_price_none _ E)|reflexivity]. }
  split.
  { destruct (Regex.search Regex.changeAt text) eqn:E.
    - right. split; [exact (search_change_some _ _ E)|eauto].
    - left. split; [exact (search_change_none _ E)|reflexivity]. }
  split; [apply scan_includes|].
  split; [apply scan_includes|].
  unfold Pattern.labelled.
  destruct (Regex.search Regex.priceAt text), (Regex.search Regex.changeAt text);
    destruct (JsString.includes text "POSITIVE" || JsString.includes text "ポジティブ"),
             (JsString.includes text "NEGATIVE" || JsString.includes text "ネガティブ"),
             (JsString.includes text "BUY" || JsString.includes text "買い"),
             (JsString.includes text "SELL" || JsString.includes text "売り");
    split; reflexivity.
Qed.

(** ** SectionSplitter: [parseAnalysisSections] *)

Section SplitFacts.
Import JsString.

Variable sep : ascii.

Lemma split_not_nil (s : str) : split sep s <> [].
Proof.
  destruct s as [|c s]; cbn [split]; [discriminate|].
  destruct (Ascii.eqb c sep); [discriminate|].
  destruct (split sep s); discriminate.
Qed.

(** Splitting a text at a separator splits both sides. *)
Lemma split_app (a b : str) :
  split sep (a ++ sep :: b) = split sep a ++ split sep b.
Proof.
  induction a as [|c a IH]; cbn [app split].
  - now rewrite Ascii.eqb_refl.
  - destruct (Ascii.eqb c sep); [now rewrite IH|].
    rewrite IH.
    destruct (split sep a) as [|piece pieces] eqn:E; [|reflexivity].
    now destruct (split_not_nil a).
Qed.

(** The pieces, joined by the separator, are the text. *)
Lemma join_split (s : str) : join [sep] (split sep s) = s.
Proof.
  induction s as [|c s IH]; cbn [split]; [reflexivity|].
  destruct (Ascii.eqb c sep) eqn:Ec.
  - apply Ascii.eqb_eq in Ec; subst c.
    cbn [join]. destruct (split sep s) as [|piece pieces] eqn:E.
    + now destruct (split_not_nil s).
    + cbn [app]. now rewrite IH.
  - destruct (split sep s) as [|piece pieces] eqn:E.
    + now destruct (split_not_nil s).
    + rewrite <- IH. cbn [join]. now destruct pieces.
Qed.

(** Replacing every separator is joining the pieces with the
    replacement. *)
Lemma replaceAll_join (by_ s : str) :
  replaceAll sep by_ s = join by_ (split sep s).
Proof.
  induction s as [|c s IH]; cbn [split replaceAll]; [reflexivity|].
  destruct (Ascii.eqb c sep) eqn:Ec.
  - cbn [join]. destruct (split sep s) as [|piece pieces] eqn:E.
    + now destruct (split_not_nil s).
    + cbn [app]. now rewrite IH.
  - destruct (split sep s) as [|piece pieces] eqn:E.
    + now destruct (split_not_nil s).
    + rewrite IH. cbn [join]. now destruct pieces.
Qed.

(** A text with the separator has at least two pieces. *)
Lemma split_two (s : str) :
  includes s [sep] = true ->
  exists first second rest, split sep s = first :: second :: rest.
Proof.
  intros H. apply includes_inv in H as (pre & post & ->).
  cbn [app]. rewrite split_app.
  destruct (split sep pre) as [|p ps] eqn:Ep;
    [now destruct (split_not_nil pre)|].
  destruct (split sep post) as [|q qs] eqn:Eq;
    [now destruct (split_not_nil post)|].
  destruct ps as [|p' ps]; cbn [app]; eauto.
Qed.

End SplitFacts.

Section SplitterFacts.
Import JsString Document CryptoDashboard.

(** Outside a section, lines without the marker change nothing. *)
Lemma splitLine_preamble (sections : list section) (lines : list str) :
  forallb (fun line => negb (isHeading line)) lines = true ->
  fold_left splitLine lines (sections, None) = (sections, None).
Proof.
  induction lines as [|line lines IH]; cbn [forallb fold_left];
    [reflexivity|].
  intros H. apply andb_true_iff in H as [Hline Hlines].
  unfold splitLine at 2. unfold isHeading in Hline.
  destruct (startsWith line "##"); [discriminate|]. now apply IH.
Qed.

(** Once a section is open, one stays open. *)
Lemma splitLine_open (lines : list str) (sections : list section)
    (current : section) :
  exists sections' current',
    fold_left splitLine lines (sections, Some current)
    = (sections', Some current').
Proof.
  revert sections current.
  induction lines as [|line lines IH]; intros sections current;
    cbn [fold_left]; [eauto|].
  unfold splitLine at 2.
  destruct (startsWith line "##"); [apply IH|].
  destruct (includes line "$" && includes line ":"); [|apply IH].
  destruct (split ":" line) as [|label [|value rest]]; apply IH.
Qed.

Lemma pushCurrent_open (sections : list section) (current : section) :
  exists first rest, pushCurrent sections (Some current) = first :: rest.
Proof.
  unfold pushCurrent. destruct sections; cbn [app]; eauto.
Qed.

End SplitterFacts.

Section LineFacts.
Import JsString.

Variable sep : ascii.

(** No piece of a split holds the separator. *)
Lemma split_free (s : str) : Forall (Document.free sep) (split sep s).
Proof.
  induction s as [|c s IH]; cbn [split].
  - now repeat constructor.
  - destruct (Ascii.eqb c sep) eqn:Ec.
    + constructor; [reflexivity|exact IH].
    + destruct (split sep s) as [|piece pieces].
      * repeat constructor. unfold Document.free.
        cbn [forallb]. now rewrite Ec.
      * inversion IH; subst. constructor; [|assumption].
        unfold Document.free in *. cbn [forallb]. now rewrite Ec.
Qed.

Lemma split_free_piece (piece : str) : Document.free sep piece -> split sep piece = [piece].
Proof.
  induction piece as [|c piece IH]; cbn [split]; [reflexivity|].
  unfold Document.free; cbn [forallb]. intros H.
  apply andb_true_iff in H as [Hc Hp].
  apply negb_true_iff in Hc. rewrite Hc. now rewrite (IH Hp).
Qed.

(** Pieces free of the separator are recovered from their join. *)
Lemma split_join (piece : str) (pieces : list str) :
  Forall (Document.free sep) (piece :: pieces) ->
  split sep (join [sep] (piece :: pieces)) = piece :: pieces.
Proof.
  revert piece. induction pieces as [|next pieces IH]; intros piece H.
  - inversion H; subst. now apply split_free_piece.
  - inversion H as [|? ? Hpiece Hrest]; subst.
    change (join [sep] (piece :: next :: pieces))
      with (piece ++ sep :: join [sep] (next :: pieces)).
    rewrite split_app, (IH next Hrest). now rewrite split_free_piece.
Qed.

Lemma Forall_free_suffix (before after : list str) :
  Forall (Document.free sep) (before ++ after) -> Forall (Document.free sep) after.
Proof.
  induction before as [|b before IH]; cbn [app]; [auto|].
  intros H; inversion H; auto.
Qed.

End LineFacts.

Section SplitterClaims.
Import JsString Document CryptoDashboard.

(** A document with a heading line is split from that line on. *)
Lemma parse_from_first_heading (text : str) (before : list str)
    (heading : str) (after : list str) :
  split newline text = before ++ heading :: after ->
  forallb (fun line => negb (isHeading line)) before = true ->
  isHeading heading = true ->
  parseAnalysisSections text =
  pushCurrent (fst (fold_left splitLine (heading :: after) ([], None)))
              (snd (fold_left splitLine (heading :: after) ([], None))).
Proof.
  intros Hlines Hbefore Hheading.
  unfold parseAnalysisSections. fold newline. rewrite Hlines.
  rewrite fold_left_app, (splitLine_preamble _ _ Hbefore).
  cbn [fold_left]. unfold splitLine at 2 4 6.
  unfold isHeading in Hheading. rewrite Hheading. cbn [pushCurrent].
  destruct (splitLine_open after []
              {| title := trimStart (skipn 2 heading);
                 content := ""; metrics := [] |})
    as (sections' & current' & ->).
  cbn [fst snd].
  now destruct (pushCurrent_open sections' current') as (? & ? & ->).
Qed.

(** Inside a section, a line with the heading marker closes the section
    and opens the next one. *)
Lemma splitLine_heading (sections : list section) (current : section)
    (line : str) :
  isHeading line = true ->
  splitLine (sections, Some current) line =
  (sections ++ [current],
   Some {| title := trimStart (skipn 2 line); content := "";
           metrics := [] |}).
Proof. unfold splitLine, isHeading. now intros ->. Qed.

(** Inside a section, a metric line adds a metric made of its first two
    pieces and leaves the body alone. *)
Lemma splitLine_metric (sections : list section) (current : section)
    (line : str) :
  isHeading line = false -> isMetricLine line = true ->
  exists label value rest,
    split ":" line = label :: value :: rest /\
    splitLine (sections, Some current) line =
    (sections,
     Some {| title := title current; content := content current;
             metrics := metrics current
                        ++ [ {| mLabel := trim label;
                                mValue := trim value |} ] |}).
Proof.
  unfold splitLine, isHeading, isMetricLine. intros -> Hm. rewrite Hm.
  apply andb_true_iff in Hm as [_ Hcolon].
  destruct (split_two ":" line Hcolon) as (label & value & rest & ->).
  now exists label, value, rest.
Qed.

(** Inside a section, any other line goes to the body, followed by a
    line break. *)
Lemma splitLine_body (sections : list section) (current : section)
    (line : str) :
  isHeading line = false -> isMetricLine line = false ->
  splitLine (sections, Some current) line =
  (sections,
   Some {| title := title current;
           content := content current ++ line ++ "<br>";
           metrics := metrics current |}).
Proof. unfold splitLine, isHeading, isMetricLine. now intros -> ->. Qed.

End SplitterClaims.

(** C4.  A document without a heading line is split into exactly one
    section: its title is the fixed fallback label "分析結果" (analysis
    result), it has no metrics, and its body is the whole document, every
    line in order, with the line breaks written [<br>]. *)
Theorem sections_fallback_without_heading (text : str) :
  Document.noHeading text = true ->
  CryptoDashboard.parseAnalysisSections text =
    [ {| title := "分析結果";
         content := JsString.replaceAll Document.newline "<br>" text;
         metrics := [] |} ] /\
  JsString.replaceAll Document.newline "<br>" text =
    JsString.join "<br>" (JsString.split Document.newline text) /\
  JsString.join [Document.newline] (JsString.split Document.newline text) = text.
Proof.
  intros H. split; [|split].
  - unfold CryptoDashboard.parseAnalysisSections. fold Document.newline.
    now rewrite (splitLine_preamble _ _ H).
  - apply replaceAll_join.
  - apply join_split.
Qed.

Lemma sections_fallback_without_heading_witness :
  let text : str := "BTC holds $45,230" ++ [Document.newline] ++ "# no section" in
  Document.noHeading text = true /\
  CryptoDashboard.parseAnalysisSections text =
    [ {| title := "分析結果";
         content := "BTC holds $45,230<br># no section";
         metrics := [] |} ].
Proof.
  split; [reflexivity|].
  exact (proj1 (sections_fallback_without_heading
                  ("BTC holds $45,230" ++ [Document.newline] ++ "# no section")
                  eq_refl)).
Defined.

(** A document that is not without a heading line has a first one. *)
Lemma first_heading_line (text : str) :
  Document.noHeading text = false ->
  exists before heading after,
    JsString.split Document.newline text = before ++ heading :: after /\
    forallb (fun line => negb (Document.isHeading line)) before = true /\
    Document.isHeading heading = true.
Proof.
  unfold Document.noHeading.
  induction (JsString.split Document.newline text) as [|line lines IH];
    cbn [forallb]; [discriminate|].
  destruct (Document.isHeading line) eqn:E; cbn [negb andb].
  - intros _. now exists [], line, lines.
  - intros H. destruct (IH H) as (before & heading & after & -> & Hb & Hh).
    exists (line :: before), heading, after. cbn [forallb app].
    now rewrite E, Hb.
Qed.

(** C10.  In a document with a heading line, the lines before the first
    heading line are dropped: the sections are those of the document that
    starts at that line, so they are the same whatever the lines before it
    say. *)
Theorem sections_drop_preamble (text : str) (before : list str)
    (heading : str) (after : list str) :
  JsString.split Document.newline text = before ++ heading :: after ->
  forallb (fun line => negb (Document.isHeading line)) before = true ->
  Document.isHeading heading = true ->
  CryptoDashboard.parseAnalysisSections text =
    CryptoDashboard.parseAnalysisSections
      (JsString.join [Document.newline] (heading :: after)) /\
  forall text', 
    (exists before',
       JsString.split Document.newline text' = before' ++ heading :: after /\
       forallb (fun line => negb (Document.isHeading line)) before' = true) ->
    CryptoDashboard.parseAnalysisSections text' =
    CryptoDashboard.parseAnalysisSections text.
Proof.
  intros Hlines Hbefore Hheading.
  pose proof (split_free Document.newline text) as Hfree.
  rewrite Hlines in Hfree. apply Forall_free_suffix in Hfree.
  rewrite (parse_from_first_heading _ _ _ _ Hlines Hbefore Hheading).
  split.
  - symmetry. apply (parse_from_first_heading _ []); auto.
    cbn [app]. now apply split_join.
  - intros text' (before' & Hlines' & Hbefore').
    exact (parse_from_first_heading _ _ _ _ Hlines' Hbefore' Hheading).
Qed.

Lemma sections_drop_preamble_witness :
  let text : str :=
    "intro line" ++ [Document.newline] ++ "## Price"
    ++ [Document.newline] ++ "plain body" in
  JsString.split Document.newline text
    = [ "intro line" : str ] ++ ("## Price" : str) :: [ "plain body" : str ] /\
  CryptoDashboard.parseAnalysisSections text =
    CryptoDashboard.parseAnalysisSections
      (JsString.join [Document.newline]
         (("## Price" : str) :: [ "plain body" : str ])) /\
  CryptoDashboard.parseAnalysisSections text =
    [ {| title := "Price"; content := "plain body<br>"; metrics := [] |} ].
Proof.
  split; [reflexivity|]. split; [|reflexivity].
  exact (proj1 (sections_drop_preamble
                  ("intro line" ++ [Document.newline] ++ "## Price"
                   ++ [Document.newline] ++ "plain body")
                  [ "intro line" : str ] "## Price" [ "plain body" : str ]
                  eq_refl eq_refl eq_refl)).
Defined.

(** On a metric line with a single colon, the metric is the trimmed text
    left of it and the trimmed text right of it. *)
Lemma splitLine_metric_one_colon (sections : list section) (current : section)
    (left right : str) :
  Document.free ":" left -> Document.free ":" right ->
  Document.isHeading (left ++ ":" ++ right) = false ->
  Document.isMetricLine (left ++ ":" ++ right) = true ->
  CryptoDashboard.splitLine (sections, Some current) (left ++ ":" ++ right) =
  (sections,
   Some {| title := title current; content := content current;
           metrics := metrics current
                      ++ [ {| mLabel := JsString.trim left;
                              mValue := JsString.trim right |} ] |}).
Proof.
  intros Hl Hr Hh Hm.
  destruct (splitLine_metric sections current _ Hh Hm)
    as (label & value & rest & Hsplit & ->).
  cbn [list_ascii_of_string app] in Hsplit.
  rewrite split_app, (split_free_piece _ _ Hl), (split_free_piece _ _ Hr) in Hsplit.
  now injection Hsplit as <- <- _.
Qed.

(** C5, at a metric line with a second colon: the value stops at that
    colon, and the rest of the line is in neither the metric nor the
    body. *)
Example section_metric_value_cut_at_second_colon :
  CryptoDashboard.parseAnalysisSections
    ("## Targets" ++ [Document.newline] ++ "Entry: $45,000 at 12:30") =
  [ {| title := "Targets"; content := "";
       metrics := [ {| mLabel := "Entry"; mValue := "$45,000 at 12" |} ] |} ].
Proof. vm_compute. reflexivity. Qed.

(** ** NewsClassifier: [categorizeNews] and [analyzeSentiment] *)

Section FindFacts.
Context {A : Type} (p : A -> bool).

(** [find] returns the first element that passes the test. *)
Lemma find_first (l : list A) (x : A) :
  find p l = Some x <->
  exists earlier later,
    l = earlier ++ x :: later /\ p x = true /\
    forallb (fun y => negb (p y)) earlier = true.
Proof.
  induction l as [|y l IH]; cbn [find].
  - split; [discriminate|].
    intros (earlier & later & H & _). now destruct earlier.
  - destruct (p y) eqn:Ey.
    + split.
      * intros H; injection H as <-. now exists [], l.
      * intros ([|e earlier] & later & H & Hx & He).
        -- now injection H as <- _.
        -- injection H as <- _. cbn [forallb] in He.
           rewrite Ey in He. discriminate.
    + rewrite IH. split.
      * intros (earlier & later & -> & Hx & He).
        exists (y :: earlier), later. cbn [forallb app].
        now rewrite Ey, He.
      * intros ([|e earlier] & later & H & Hx & He).
        -- injection H as <- _. congruence.
        -- injection H as <- ->. cbn [forallb] in He.
           apply andb_true_iff in He as [_ He]. eauto.
Qed.

Lemma find_none_all (l : list A) :
  find p l = None <-> forallb (fun y => negb (p y)) l = true.
Proof.
  induction l as [|y l IH]; cbn [find forallb]; [tauto|].
  destruct (p y); cbn [negb andb]; [split; discriminate|exact IH].
Qed.

End FindFacts.

Section NewsFacts.
Import JsString CryptoNewsApp.
Context {host : Host}.

Lemma categorizeNews_firstMatch (title summary : str) :
  categorizeNews title summary =
  Topics.firstMatch (toLowerCase (title ++ " " ++ summary)).
Proof.
  unfold categorizeNews, Topics.firstMatch, Topics.priority, Topics.matches.
  cbv zeta. set (text := toLowerCase (title ++ " " ++ summary)).
  cbn [find existsb Topics.keywords]. rewrite !orb_false_r, ?orb_assoc.
  destruct (includes text "bitcoin" || includes text "btc"); [reflexivity|].
  destruct (includes text "ethereum" || includes text "eth"); [reflexivity|].
  destruct (includes text "defi" || includes text "decentralized");
    [reflexivity|].
  destruct (includes text "regulation" || includes text "regulatory"
            || includes text "規制"); [reflexivity|].
  now destruct (includes text "blockchain" || includes text "technology"
                || includes text "tech").
Qed.

Lemma present_spec (words : list str) (text word : str) :
  In word (Topics.present words text) <->
  In word words /\ Pattern.occursIn word text.
Proof.
  unfold Topics.present. now rewrite filter_In, includes_iff.
Qed.

Lemma present_length (words : list str) (text : str) :
  List.length (Topics.present words text) <= List.length words.
Proof. apply filter_length_le. Qed.

Lemma analyzeSentiment_counts (title summary : str) :
  analyzeSentiment title summary =
  let text := toLowerCase (title ++ " " ++ summary) in
  let pos := List.length (Topics.present positiveWords text) in
  let neg := List.length (Topics.present negativeWords text) in
  if (neg <? pos)%nat then positive
  else if (pos <? neg)%nat then negative
  else neutral.
Proof. unfold analyzeSentiment, Topics.present. reflexivity. Qed.

End NewsFacts.

Section TopicFacts.
Import JsString.

(** A keyword occurs in the text with its capital letters made small
    exactly when it occurs in the text in some letter case. *)
Lemma occursIn_any_case (k text : str) :
  Pattern.occursIn k (map asciiLower text) <-> Pattern.occursAnyCase k text.
Proof.
  split.
  - intros (pre & post & H).
    apply map_eq_app in H as (pre' & rest & -> & <- & H).
    apply map_eq_app in H as (w & post' & -> & <- & <-).
    exists pre', w, post'. split; reflexivity.
  - intros (pre & w & post & -> & <-).
    exists (map asciiLower pre), (map asciiLower post).
    now rewrite !map_app.
Qed.

Lemma matches_mentions (text : str) (c : category) :
  Topics.matches (map asciiLower text) c = true <-> Topics.mentions text c.
Proof.
  unfold Topics.matches, Topics.mentions.
  rewrite existsb_exists, Exists_exists.
  split; intros (k & Hin & H); exists k; (split; [exact Hin |]).
  - apply occursIn_any_case, includes_iff, H.
  - apply includes_iff, occursIn_any_case, H.
Qed.

Lemma matches_named (lowered : str) (c : category) :
  Topics.matches lowered c = true <-> Topics.named lowered c.
Proof.
  unfold Topics.matches, Topics.named.
  rewrite existsb_exists, Exists_exists.
  split; intros (k & Hin & H); exists k; (split; [exact Hin |]);
    apply includes_iff, H.
Qed.

(** The first match of the table is the first topic mentioned, for
    every reading of "mentioned" that the table decides. *)
Lemma firstMatch_first (lowered : str) (mentioned : category -> Prop) :
  (forall c, Topics.matches lowered c = true <-> mentioned c) ->
  Topics.first mentioned (Topics.firstMatch lowered).
Proof.
  intros Hdecides.
  assert (Hgeneral : ~ mentioned general).
  { intros H. apply Hdecides in H. discriminate H. }
  unfold Topics.firstMatch, Topics.priority. cbn [find].
  destruct (Topics.matches lowered bitcoin) eqn:H0;
    [| destruct (Topics.matches lowered ethereum) eqn:H1;
       [| destruct (Topics.matches lowered defi) eqn:H2;
          [| destruct (Topics.matches lowered regulation) eqn:H3;
             [| destruct (Topics.matches lowered technology) eqn:H4]]]];
    (split;
     [ first [ left; apply Hdecides; assumption | right; reflexivity ]
     | intros c' Hlt Hm; apply Hdecides in Hm;
       destruct c'; cbn [Topics.rank] in Hlt;
       first [ lia | congruence ] ]).
Qed.

(** One topic at most is the first mentioned. *)
Lemma first_unique (mentioned : category -> Prop) (c1 c2 : category) :
  Topics.first mentioned c1 -> Topics.first mentioned c2 -> c1 = c2.
Proof.
  intros [H1 L1] [H2 L2].
  destruct (Nat.lt_trichotomy (Topics.rank c1) (Topics.rank c2))
    as [Hlt | [Heq | Hgt]].
  - destruct H1 as [H1 | ->]; [exfalso; exact (L2 _ Hlt H1) |].
    destruct c2; cbn [Topics.rank] in Hlt; lia.
  - destruct c1, c2; cbn [Topics.rank] in Heq;
      first [reflexivity | discriminate Heq].
  - destruct H2 as [H2 | ->]; [exfalso; exact (L1 _ Hgt H2) |].
    destruct c1; cbn [Topics.rank] in Hgt; lia.
Qed.

Lemma firstMatch_iff (lowered : str) (mentioned : category -> Prop)
    (c : category) :
  (forall c', Topics.matches lowered c' = true <-> mentioned c') ->
  Topics.firstMatch lowered = c <-> Topics.first mentioned c.
Proof.
  intros Hdecides. split.
  - intros <-. apply firstMatch_first, Hdecides.
  - intros H.
    exact (first_unique _ _ _ (firstMatch_first _ _ Hdecides) H).
Qed.

End TopicFacts.

(** C6.  The category of a news item is the first topic, in the order
    bitcoin, ethereum, defi, regulation, technology, one of whose keywords
    is a substring of the lower-cased [title + ' ' + summary], and
    [general] when no keyword of any topic is; it is no other category.
    For a title and a summary whose letters with two cases are ASCII
    letters, the match is case-insensitive on the text as written: the
    category is the first topic one of whose keywords occurs in
    [title + ' ' + summary] in some letter case. *)
Theorem categorizeNews_first_matching_topic {host : Host} (title summary : str) :
  (forall c,
     CryptoNewsApp.categorizeNews title summary = c <->
     Topics.first (Topics.named (toLowerCase (title ++ " " ++ summary))) c)
  /\ (Letters.plain host (title ++ " " ++ summary) ->
      forall c,
        CryptoNewsApp.categorizeNews title summary = c <->
        Topics.first (Topics.mentions (title ++ " " ++ summary)) c).
Proof.
  rewrite categorizeNews_firstMatch. split.
  - intros c. apply firstMatch_iff. intros c'. apply matches_named.
  - intros Hplain c. unfold Letters.plain in Hplain. rewrite Hplain.
    apply firstMatch_iff. intros c'. apply matches_mentions.
Qed.

(** Capital letters in the text do not hide a keyword: "BITCOIN hits
    record" is news of bitcoin. *)
Lemma categorizeNews_first_matching_topic_witness :
  Letters.plain exampleHost ("BITCOIN hits record" ++ " " ++ "")
  /\ CryptoNewsApp.categorizeNews (host := exampleHost)
       "BITCOIN hits record" "" = bitcoin
  /\ (CryptoNewsApp.categorizeNews (host := exampleHost)
        "BITCOIN hits record" "" = bitcoin <->
      Topics.first (Topics.mentions ("BITCOIN hits record" ++ " " ++ ""))
                   bitcoin).
Proof.
  split; [reflexivity |].
  split; [vm_compute; reflexivity |].
  apply (proj2 (categorizeNews_first_matching_topic (host := exampleHost)
                  "BITCOIN hits record" "")).
  reflexivity.
Defined.

(** The order of the topics decides, and letter case does not. *)
Example categorizeNews_examples :
  CryptoNewsApp.categorizeNews (host := exampleHost)
    "Ethereum gains on BITCOIN" "DeFi regulation" = bitcoin /\
  CryptoNewsApp.categorizeNews (host := exampleHost)
    "New Regulatory framework" "for blockchain firms" = regulation /\
  CryptoNewsApp.categorizeNews (host := exampleHost)
    "Markets calm" "nothing new" = general.
Proof. vm_compute. repeat split. Qed.

(** C7 as stated fails: with the word "rally" three times against "crash"
    and "dump" once each, the occurrences are 3 to 2 for the positive
    list, yet the code counts one positive word against two negative ones
    and answers [negative]. *)
Lemma sentiment_counts_words_not_occurrences :
  let text := toLowerCase (Host := exampleHost)
                ("rally rally rally" ++ " " ++ "crash dump") in
  OccurrenceCount.occurrencesOf CryptoNewsApp.positiveWords text = 3 /\
  OccurrenceCount.occurrencesOf CryptoNewsApp.negativeWords text = 2 /\
  OccurrenceCount.sentimentByOccurrences text = positive /\
  CryptoNewsApp.analyzeSentiment (host := exampleHost)
    "rally rally rally" "crash dump" = negative.
Proof. vm_compute. repeat split. Qed.

(** C7, amended.  The sentiment of a news item compares how many words of
    the positive list and how many words of the negative list are
    substrings of the lower-cased [title + ' ' + summary], each listed word
    counting once however often it occurs: [positive] when more positive
    words are present, [negative] when more negative words are present,
    [neutral] on a tie, the tie of none included.  The result depends on
    the lower-cased text only, so the same pair always gets the same
    result. *)
Theorem analyzeSentiment_by_words_present {host : Host} (title summary : str) :
  let text := toLowerCase (title ++ " " ++ summary) in
  let pos := List.length (Topics.present CryptoNewsApp.positiveWords text) in
  let neg := List.length (Topics.present CryptoNewsApp.negativeWords text) in
  (CryptoNewsApp.analyzeSentiment title summary = positive <-> neg < pos) /\
  (CryptoNewsApp.analyzeSentiment title summary = negative <-> pos < neg) /\
  (CryptoNewsApp.analyzeSentiment title summary = neutral <-> pos = neg) /\
  (forall word,
     In word (Topics.present CryptoNewsApp.positiveWords text) <->
     In word CryptoNewsApp.positiveWords /\ Pattern.occursIn word text) /\
  (forall word,
     In word (Topics.present CryptoNewsApp.negativeWords text) <->
     In word CryptoNewsApp.negativeWords /\ Pattern.occursIn word text) /\
  pos <= List.length CryptoNewsApp.positiveWords /\
  neg <= List.length CryptoNewsApp.negativeWords /\
  (forall title' summary',
     toLowerCase (title' ++ " " ++ summary') = text ->
     CryptoNewsApp.analyzeSentiment title' summary'
       = CryptoNewsApp.analyzeSentiment title summary).
Proof.
  cbv zeta.
  split; [|split; [|split; [|split; [|split; [|split; [|split]]]]]];
    try (intros word; apply present_spec);
    try apply present_length.
  - rewrite analyzeSentiment_counts. cbv zeta.
    destruct (Nat.ltb_spec
                (List.length (Topics.present CryptoNewsApp.negativeWords
                                (toLowerCase (title ++ " " ++ summary))))
                (List.length (Topics.present CryptoNewsApp.positiveWords
                                (toLowerCase (title ++ " " ++ summary)))))
      as [Hlt|Hge]; [tauto|].
    split; [|intros H; exfalso; exact (proj1 (Nat.lt_nge _ _) H Hge)].
    destruct (Nat.ltb _ _); discriminate.
  - rewrite analyzeSentiment_counts. cbv zeta.
    destruct (Nat.ltb_spec
                (List.length (Topics.present CryptoNewsApp.negativeWords
                                (toLowerCase (title ++ " " ++ summary))))
                (List.length (Topics.present CryptoNewsApp.positiveWords
                                (toLowerCase (title ++ " " ++ summary)))))
      as [Hlt|Hge].
    + split; [discriminate|].
      intros H. exfalso. exact (Nat.lt_asymm _ _ Hlt H).
    + destruct (Nat.ltb_spec
                  (List.length (Topics.present CryptoNewsApp.positiveWords
                                  (toLowerCase (title ++ " " ++ summary))))
                  (List.length (Topics.present CryptoNewsApp.negativeWords
                                  (toLowerCase (title ++ " " ++ summary)))))
        as [Hlt'|Hge']; [tauto|].
      split; [discriminate|].
      intros H. exfalso. exact (proj1 (Nat.lt_nge _ _) H Hge').
  - rewrite analyzeSentiment_counts. cbv zeta.
    destruct (Nat.ltb_spec
                (List.length (Topics.present CryptoNewsApp.negativeWords
                                (toLowerCase (title ++ " " ++ summary))))
                (List.length (Topics.present CryptoNewsApp.positiveWords
                                (toLowerCase (title ++ " " ++ summary)))))
      as [Hlt|Hge].
    + split; [discriminate|].
      intros H. rewrite H in Hlt. exfalso. exact (Nat.lt_irrefl _ Hlt).
    + destruct (Nat.ltb_spec
                  (List.length (Topics.present CryptoNewsApp.positiveWords
                                  (toLowerCase (title ++ " " ++ summary))))
                  (List.length (Topics.present CryptoNewsApp.negativeWords
                                  (toLowerCase (title ++ " " ++ summary)))))
        as [Hlt'|Hge'].
      * split; [discriminate|].
        intros H. rewrite H in Hlt'. exfalso. exact (Nat.lt_irrefl _ Hlt').
      * split; [|reflexivity]. intros _. now apply Nat.le_antisymm.
  - intros title' summary' H.
    now rewrite (analyzeSentiment_counts title' summary'),
      (analyzeSentiment_counts title summary), H.
Qed.

(** A tie of none is [neutral]; one word on one side decides. *)
Example analyzeSentiment_examples :
  CryptoNewsApp.analyzeSentiment (host := exampleHost)
    "Markets calm" "as traders wait" = neutral /\
  CryptoNewsApp.analyzeSentiment (host := exampleHost)
    "Bitcoin RALLY" "continues" = positive /\
  CryptoNewsApp.analyzeSentiment (host := exampleHost)
    "Prices plunge" "again" = negative.
Proof. vm_compute. repeat split. Qed.

(** ** DataAcquirer: the two-tier price fetch *)

Section FetchFacts.
Import Eff.

(** [MobileCryptoApp.fetchCryptoPrice] never throws.  It asks the primary
    endpoint first and returns its body when the response is a success
    with a readable body; in every other case (a transport failure, a
    non-success response, an unreadable body) it asks the fallback
    endpoint once, for the same id, and returns the normalised quote, or
    [null] when the fallback fails too. *)
Lemma fetchCryptoPrice_two_tiers (net : network) (cryptoId : str) :
  exists log v,
    run (MobileCryptoApp.fetchCryptoPrice net cryptoId) = (log, Returned v) /\
    match primary net cryptoId with
    | Response true (Some data) =>
        Trace.requests log = [RequestPrimary cryptoId] /\ v = data
    | _ =>
        Trace.requests log
          = [RequestPrimary cryptoId; RequestFallback cryptoId] /\
        match fallback net cryptoId with
        | Response true (Some data) =>
            match JsValue.get data cryptoId with
            | Some entry => v = Trace.normalised entry
            | None => v = VNull
            end
        | _ => v = VNull
        end
    end.
Proof.
  unfold run, MobileCryptoApp.fetchCryptoPrice, tryCatch, bind, fetch, emit,
    ret, throw.
  destruct (primary net cryptoId) as [|[|] [data|]];
    cbn; try (do 2 eexists; split; [reflexivity|now split]);
    destruct (fallback net cryptoId) as [|[|] [data'|]];
    cbn; try (do 2 eexists; split; [reflexivity|now split]);
    destruct (JsValue.get data' cryptoId) as [entry|];
    cbn; do 2 eexists; (split; [reflexivity|now split]).
Qed.

(** [CryptoDashboard.loadMarketOverview] asks the fallback endpoint when
    the primary response is not a success: whatever the run comes to,
    its requests are the primary one and the fallback one ... *)
Lemma loadMarketOverviewOf_not_ok (net : network) (crypto : str)
    (body : option jsval) :
  primary net crypto = Response false body ->
  Trace.requests (fst (run (CryptoDashboard.loadMarketOverviewOf net crypto)))
  = [RequestPrimary crypto; RequestFallback crypto].
Proof.
  intros Hp.
  unfold run, CryptoDashboard.loadMarketOverviewOf,
    CryptoDashboard.fetchFromCoinGecko, tryCatch, bind, fetch, emit, ret,
    throw.
  rewrite Hp. cbn.
  destruct (fallback net crypto) as [|[|] [data'|]]; cbn;
    try reflexivity.
  destruct (JsValue.get data' crypto) as [entry|]; cbn;
    [destruct (JsValue.truthy entry)|]; reflexivity.
Qed.

(** ... and does not when the primary request fails in transport: the
    catch block logs the error and its call of the missing method
    throws. *)
Lemma loadMarketOverviewOf_network_error (net : network) (crypto : str) :
  primary net crypto = NetworkError ->
  run (CryptoDashboard.loadMarketOverviewOf net crypto)
    = ([RequestPrimary crypto; ConsoleError], Thrown).
Proof.
  intros Hp.
  unfold run, CryptoDashboard.loadMarketOverviewOf, tryCatch, bind, fetch,
    emit, ret, notAFunction, throw.
  now rewrite Hp.
Qed.

End FetchFacts.

(** The example of C1 on [MobileCryptoApp.fetchCryptoPrice]: a primary
    HTTP 500 and the fallback body [{bitcoin: {usd: 50000,
    usd_24h_change: 2.5}}] give the quote 50000 and 2.5. *)
Example fetchCryptoPrice_fallback_example :
  Eff.run (MobileCryptoApp.fetchCryptoPrice
             {| primary := fun _ => Response false None;
                fallback := fun _ => Response true (Some Trace.exampleBody) |}
             "bitcoin") =
  ([RequestPrimary "bitcoin"; RequestFallback "bitcoin"],
   Eff.Returned (VObj [ ("price_usd" : str, VNum (Num 50000));
                        ("price_change_24h" : str, VNum (Num 2.5)) ])).
Proof. vm_compute. reflexivity. Qed.

(** C1, where the code leaves it: when the primary request of the
    dashboard's [loadMarketOverview] fails in transport, the fallback
    endpoint is never asked, although it would answer, and the catch block
    throws, which ends the whole load; the mobile app's [fetchCryptoPrice]
    asks the fallback in the same situation and returns the quote. *)
Example loadMarketOverview_no_fallback_on_transport_failure :
  let net := {| primary := fun _ => NetworkError;
                fallback := fun _ => Response true (Some Trace.exampleBody) |} in
  Eff.run (CryptoDashboard.loadMarketOverviewOf net "bitcoin") =
    ([RequestPrimary "bitcoin"; ConsoleError], Eff.Thrown) /\
  Eff.run (CryptoDashboard.loadMarketOverview net) =
    ([RequestPrimary "bitcoin"; ConsoleError], Eff.Thrown) /\
  Eff.run (MobileCryptoApp.fetchCryptoPrice net "bitcoin") =
    ([RequestPrimary "bitcoin"; ConsoleError; RequestFallback "bitcoin"],
     Eff.Returned (VObj [ ("price_usd" : str, VNum (Num 50000));
                          ("price_change_24h" : str, VNum (Num 2.5)) ])).
Proof. vm_compute. repeat split. Qed.

(** ** AlertStore: [saveAlert] *)

Section AlertFacts.
Import MobileCryptoApp.

Lemma saveAlert_rejected (crypto condition : str) (price : number) (now : Z)
    (a : app) :
  nonEmpty crypto && nonEmpty condition && JsNumber.truthy price = false ->
  saveAlert crypto condition price now a
  = showToast "すべての項目を入力してください" "warning" a.
Proof.
  unfold saveAlert.
  destruct (nonEmpty crypto), (nonEmpty condition), (JsNumber.truthy price);
    cbn; congruence.
Qed.

Lemma saveAlert_accepted (crypto condition : str) (price : number) (now : Z)
    (a : app) :
  nonEmpty crypto && nonEmpty condition && JsNumber.truthy price = true ->
  saveAlert crypto condition price now a
  = showToast "アラートを設定しました" "success"
      (saveAlerts
         {| alerts := alerts a
                      ++ [ {| id := now; crypto := crypto;
                              condition := condition; price := price;
                              created := now; active := true |} ];
            stored := stored a;
            storageThrows := storageThrows a;
            toasts := toasts a |}).
Proof.
  unfold saveAlert.
  destruct (nonEmpty crypto), (nonEmpty condition), (JsNumber.truthy price);
    cbn; congruence.
Qed.

(** A positive number is truthy. *)
Lemma positive_truthy (n : number) :
  JsNumber.positive n = true -> JsNumber.truthy n = true.
Proof.
  destruct n as [| | |q]; cbn; try congruence.
  intros H. apply negb_true_iff in H. apply negb_true_iff.
  destruct (Qeq_bool q 0) eqn:E; [|reflexivity].
  apply Qeq_bool_iff in E.
  assert (Hle : Qle_bool q 0 = true)
    by (apply Qle_bool_iff; rewrite E; apply Qle_refl).
  congruence.
Qed.

End AlertFacts.

(** C8 as stated fails: the threshold -5 is not a positive number, and the
    alert is stored. *)
Lemma saveAlert_accepts_negative_threshold :
  let a := MobileCryptoApp.saveAlert "bitcoin" "above" (Num (-5)) 1700000000000
             MobileCryptoApp.initial in
  let alert := {| MobileCryptoApp.id := 1700000000000;
                  MobileCryptoApp.crypto := "bitcoin";
                  MobileCryptoApp.condition := "above";
                  MobileCryptoApp.price := Num (-5);
                  MobileCryptoApp.created := 1700000000000;
                  MobileCryptoApp.active := true |} in
  JsNumber.positive (Num (-5)) = false /\
  MobileCryptoApp.alerts a = [alert] /\
  MobileCryptoApp.stored a = Some [alert] /\
  MobileCryptoApp.toasts a = [ ("アラートを設定しました" : str, "success" : str) ].
Proof. vm_compute. repeat split. Qed.

(** C8, amended.  [saveAlert] turns down, with a warning toast and nothing
    thrown, every alert whose symbol is empty, whose condition is empty or
    whose parsed threshold is NaN or zero, and then neither the alert list
    nor the stored list changes.  Every other alert is accepted, a negative
    threshold included: it is appended to the alert list, so [list()] shows
    it, and the list is stored unless the storage throws.  A positive
    threshold is never turned down for its value. *)
Theorem saveAlert_checks_presence (crypto condition : str) (price : number)
    (now : Z) (a : MobileCryptoApp.app) :
  let a' := MobileCryptoApp.saveAlert crypto condition price now a in
  let alert := {| MobileCryptoApp.id := now;
                  MobileCryptoApp.crypto := crypto;
                  MobileCryptoApp.condition := condition;
                  MobileCryptoApp.price := price;
                  MobileCryptoApp.created := now;
                  MobileCryptoApp.active := true |} in
  ((crypto = [] \/ condition = [] \/ JsNumber.truthy price = false) ->
   MobileCryptoApp.alerts a' = MobileCryptoApp.alerts a /\
   MobileCryptoApp.stored a' = MobileCryptoApp.stored a /\
   MobileCryptoApp.toasts a' =
     MobileCryptoApp.toasts a
     ++ [ ("すべての項目を入力してください" : str, "warning" : str) ]) /\
  ((crypto <> [] /\ condition <> [] /\ JsNumber.truthy price = true) ->
   MobileCryptoApp.alerts a' = MobileCryptoApp.alerts a ++ [alert] /\
   MobileCryptoApp.stored a' =
     (if MobileCryptoApp.storageThrows a then MobileCryptoApp.stored a
      else Some (MobileCryptoApp.alerts a ++ [alert])) /\
   MobileCryptoApp.toasts a' =
     MobileCryptoApp.toasts a
     ++ [ ("アラートを設定しました" : str, "success" : str) ]) /\
  (JsNumber.truthy price = false <->
   price = NaN \/ exists q, price = Num q /\ Qeq q 0) /\
  (JsNumber.positive price = true -> JsNumber.truthy price = true).
Proof.
  intros a' alert. subst a'.
  split; [|split; [|split]].
  - intros H. rewrite saveAlert_rejected; [now cbn|].
    destruct H as [->|[->|H]].
    + reflexivity.
    + now rewrite andb_false_r.
    + rewrite H. apply andb_false_r.
  - intros (Hc & Hd & Hp). rewrite saveAlert_accepted.
    + unfold MobileCryptoApp.saveAlerts. cbn.
      now destruct (MobileCryptoApp.storageThrows a).
    + rewrite Hp. destruct crypto, condition; try contradiction; reflexivity.
  - destruct price as [| | |q]; cbn; split; try discriminate; auto.
    + intros [H|(q & H & _)]; discriminate.
    + intros [H|(q & H & _)]; discriminate.
    + intros H. right. exists q. split; [reflexivity|].
      apply negb_false_iff in H. now apply Qeq_bool_iff.
    + intros [H|(q' & H & Hq)]; [discriminate|].
      injection H as <-. apply negb_false_iff. now apply Qeq_bool_iff.
  - apply positive_truthy.
Qed.

(** The two alerts of the specification: the threshold 50000 is stored and
    listed, the threshold 0 is turned down and leaves the list as it was. *)
Example saveAlert_examples :
  let a1 := MobileCryptoApp.saveAlert "bitcoin" "above" (Num 50000) 1
              MobileCryptoApp.initial in
  let a2 := MobileCryptoApp.saveAlert "bitcoin" "above" (Num 0) 2 a1 in
  MobileCryptoApp.alerts a1 =
    [ {| MobileCryptoApp.id := 1; MobileCryptoApp.crypto := "bitcoin";
         MobileCryptoApp.condition := "above";
         MobileCryptoApp.price := Num 50000;
         MobileCryptoApp.created := 1; MobileCryptoApp.active := true |} ] /\
  MobileCryptoApp.loadAlerts a1 = MobileCryptoApp.alerts a1 /\
  MobileCryptoApp.alerts a2 = MobileCryptoApp.alerts a1 /\
  MobileCryptoApp.stored a2 = MobileCryptoApp.stored a1 /\
  MobileCryptoApp.toasts a2 =
    [ ("アラートを設定しました" : str, "success" : str);
      ("すべての項目を入力してください" : str, "warning" : str) ].
Proof. vm_compute. repeat split. Qed.

(** ** UpdateScheduler: the dashboard's refresh intervals *)

Section TimerFacts.
Import CryptoDashboard.

(** [saveSettings] registers two intervals and clears none. *)
Lemma saveSettings_intervals (form : settingsForm) (now : Z) (d : dashboard) :
  intervals (saveSettings form now d) =
  intervals d
  ++ [ {| callback := LoadMarketOverview;
          delay := updateFreq form * 1000; since := now |};
       {| callback := LoadCryptoNews;
          delay := updateFreq form * 1000 * 2; since := now |} ].
Proof.
  unfold saveSettings, startRealTimeUpdates, setInterval. cbn.
  now rewrite <- app_assoc.
Qed.

(** Whatever ran at a time before the settings were saved runs at that
    time after. *)
Lemma saveSettings_keeps_refreshes (form : settingsForm) (now : Z)
    (d : dashboard) (t : Z) :
  exists more,
    refreshesAt (saveSettings form now d) t = refreshesAt d t ++ more.
Proof.
  unfold refreshesAt. rewrite saveSettings_intervals, filter_app, map_app.
  eauto.
Qed.

End TimerFacts.

(** C9, where the code leaves it: the dashboard starts at 0 ms with the
    default of 30 s, and at 45 000 ms the settings are saved with 120 s.
    The two intervals of the old cadence are still registered next to the
    two new ones, and they run at 60 000 ms and 90 000 ms, long before the
    first run of the new cadence at 165 000 ms. *)
Example saveSettings_keeps_old_intervals :
  let d0 := CryptoDashboard.startRealTimeUpdates 0 CryptoDashboard.initial in
  let d1 := CryptoDashboard.saveSettings
              {| CryptoDashboard.updateFreq := 120;
                 CryptoDashboard.priceAlerts := true;
                 CryptoDashboard.newsAlerts := true |} 45000 d0 in
  CryptoDashboard.updateInterval d1 = 120000%Z /\
  CryptoDashboard.intervals d1 =
    [ {| CryptoDashboard.callback := CryptoDashboard.LoadMarketOverview;
         CryptoDashboard.delay := 30000; CryptoDashboard.since := 0 |};
      {| CryptoDashboard.callback := CryptoDashboard.LoadCryptoNews;
         CryptoDashboard.delay := 60000; CryptoDashboard.since := 0 |};
      {| CryptoDashboard.callback := CryptoDashboard.LoadMarketOverview;
         CryptoDashboard.delay := 120000; CryptoDashboard.since := 45000 |};
      {| CryptoDashboard.callback := CryptoDashboard.LoadCryptoNews;
         CryptoDashboard.delay := 240000; CryptoDashboard.since := 45000 |} ] /\
  CryptoDashboard.refreshesAt d1 60000 =
    [ CryptoDashboard.LoadMarketOverview; CryptoDashboard.LoadCryptoNews ] /\
  CryptoDashboard.refreshesAt d1 90000 = [ CryptoDashboard.LoadMarketOverview ] /\
  CryptoDashboard.refreshesAt d1 165000 = [ CryptoDashboard.LoadMarketOverview ].
Proof. vm_compute. repeat split. Qed.

(** * Further properties *)

(** ** Sections, heading by heading *)

Section OutlineFacts.
Import JsString Document CryptoDashboard Outline.

Lemma section_eq (a b : section) :
  title a = title b -> content a = content b -> metrics a = metrics b ->
  a = b.
Proof. destruct a, b; cbn; now intros -> -> ->. Qed.

Lemma extend_nil (current : section) : extend current [] = current.
Proof.
  apply section_eq; cbn; [reflexivity|apply app_nil_r|apply app_nil_r].
Qed.

(** One more line in the open section. *)
Lemma splitLine_extend (sections : list section) (current : section)
    (line : str) (lines : list str) :
  isHeading line = false ->
  exists current',
    splitLine (sections, Some current) line = (sections, Some current') /\
    extend current' lines = extend current (line :: lines).
Proof.
  intros Hh. destruct (isMetricLine line) eqn:Hm.
  - destruct (splitLine_metric sections current line Hh Hm)
      as (label & value & rest & Hsplit & ->).
    eexists; split; [reflexivity|].
    apply section_eq; cbn [extend title content metrics].
    + reflexivity.
    + unfold bodyOf. cbn [filter]. now rewrite Hm.
    + unfold metricsOf. cbn [filter]. rewrite Hm. cbn [map].
      unfold metricOf at 2. rewrite Hsplit. cbn [nth].
      now rewrite <- app_assoc.
  - rewrite (splitLine_body sections current line Hh Hm).
    eexists; split; [reflexivity|].
    apply section_eq; cbn [extend title content metrics].
    + reflexivity.
    + unfold bodyOf. cbn [filter]. rewrite Hm. cbn [negb map List.concat].
      now rewrite <- !app_assoc.
    + unfold metricsOf. cbn [filter]. now rewrite Hm.
Qed.

(** What the loop leaves, told by the outline of the lines. *)
Lemma fold_outline (lines : list str) :
  forall (sections : list section) (current : section),
    pushCurrent (fst (fold_left splitLine lines (sections, Some current)))
                (snd (fold_left splitLine lines (sections, Some current)))
    = sections ++ extend current (leading lines) :: map build (chunks lines).
Proof.
  induction lines as [|line lines IH]; intros sections current.
  - cbn. now rewrite extend_nil.
  - cbn [fold_left leading chunks].
    destruct (isHeading line) eqn:Hh.
    + rewrite (splitLine_heading sections current line Hh), IH.
      rewrite extend_nil, <- app_assoc. reflexivity.
    + destruct (splitLine_extend sections current line (leading lines) Hh)
        as (current' & -> & <-).
      apply IH.
Qed.

(** Before the first heading line nothing is collected. *)
Lemma parse_outline (text : str) :
  noHeading text = false ->
  parseAnalysisSections text = map build (chunks (split newline text)).
Proof.
  intros H.
  destruct (first_heading_line text H)
    as (before & heading & after & Hlines & Hbefore & Hheading).
  rewrite (parse_from_first_heading text before heading after
             Hlines Hbefore Hheading).
  rewrite Hlines. clear Hlines H.
  assert (Hchunks : chunks (before ++ heading :: after)
                    = chunks (heading :: after)).
  { induction before as [|b before IH]; [reflexivity|].
    cbn [forallb] in Hbefore. apply andb_true_iff in Hbefore as [Hb Hrest].
    apply negb_true_iff in Hb. cbn [app chunks]. rewrite Hb. now apply IH. }
  rewrite Hchunks. cbn [fold_left chunks]. rewrite Hheading.
  unfold splitLine at 2 4. unfold isHeading in Hheading. rewrite Hheading.
  cbn [pushCurrent]. rewrite fold_outline. reflexivity.
Qed.

(** Without a heading line the result is the fallback section. *)
Lemma parse_without_heading (text : str) :
  noHeading text = true ->
  parseAnalysisSections text =
    [ {| title := "分析結果";
         content := replaceAll newline "<br>" text;
         metrics := [] |} ].
Proof.
  intros H. unfold parseAnalysisSections. fold newline.
  now rewrite (splitLine_preamble _ _ H).
Qed.

Lemma chunks_headings (lines : list str) :
  map fst (chunks lines) = filter isHeading lines.
Proof.
  induction lines as [|line lines IH]; cbn [chunks filter]; [reflexivity|].
  destruct (isHeading line); cbn [map fst]; now rewrite IH.
Qed.

End OutlineFacts.

(** X1.  In a document with a heading line, [parseAnalysisSections] gives
    one section for every heading line, in order: its title is the heading
    line without the marker and the white space after it; its body is made
    of the lines up to the next heading line that are no metric lines, each
    followed by [<br>]; its metrics are the metric lines among them, each
    cut at its first two colons. *)
Theorem sections_follow_outline (text : str) :
  Document.noHeading text = false ->
  CryptoDashboard.parseAnalysisSections text =
  map Outline.build (Outline.chunks (JsString.split Document.newline text)).
Proof. apply parse_outline. Qed.

Lemma sections_follow_outline_witness :
  let text : str :=
    "intro" ++ [Document.newline] ++ "## Price" ++ [Document.newline]
    ++ "Now: $5" ++ [Document.newline] ++ "steady" ++ [Document.newline]
    ++ "##Risk" in
  Document.noHeading text = false /\
  CryptoDashboard.parseAnalysisSections text =
    map Outline.build (Outline.chunks (JsString.split Document.newline text)) /\
  CryptoDashboard.parseAnalysisSections text =
    [ {| title := "Price"; content := "steady<br>";
         metrics := [ {| mLabel := "Now"; mValue := "$5" |} ] |};
      {| title := "Risk"; content := ""; metrics := [] |} ].
Proof.
  split; [vm_compute; reflexivity|]. split; [|vm_compute; reflexivity].
  exact (sections_follow_outline
           ("intro" ++ [Document.newline] ++ "## Price" ++ [Document.newline]
            ++ "Now: $5" ++ [Document.newline] ++ "steady"
            ++ [Document.newline] ++ "##Risk")
           eq_refl).
Defined.

(** X2.  [parseAnalysisSections] never returns an empty list: it gives as
    many sections as the document has heading lines, and one when it has
    none; with a heading line, the titles are the heading lines in their
    order, without the marker and the white space after it, none merged
    and none dropped. *)
Theorem sections_count_and_titles (text : str) :
  List.length (CryptoDashboard.parseAnalysisSections text) =
    Nat.max 1 (List.length (filter Document.isHeading
                              (JsString.split Document.newline text))) /\
  (Document.noHeading text = false ->
   map title (CryptoDashboard.parseAnalysisSections text) =
   map (fun heading => JsString.trimStart (skipn 2 heading))
       (filter Document.isHeading (JsString.split Document.newline text))).
Proof.
  destruct (Document.noHeading text) eqn:H.
  - split; [|discriminate].
    rewrite (parse_without_heading text H).
    unfold Document.noHeading in H.
    induction (JsString.split Document.newline text) as [|line lines IH];
      [reflexivity|].
    cbn [forallb] in H. apply andb_true_iff in H as [Hl Hr].
    apply negb_true_iff in Hl. cbn [filter]. rewrite Hl. now apply IH.
  - rewrite (parse_outline text H). split.
    + rewrite length_map, <- (chunks_headings (JsString.split _ text)),
        length_map.
      destruct (first_heading_line text H)
        as (before & heading & after & Hlines & _ & Hheading).
      assert (Hpos : 0 < List.length (filter Document.isHeading
                                        (JsString.split Document.newline text))).
      { rewrite Hlines, filter_app, length_app. cbn [filter].
        rewrite Hheading. cbn [List.length]. lia. }
      rewrite <- (chunks_headings (JsString.split _ text)), length_map in Hpos.
      lia.
    + intros _. rewrite <- chunks_headings, !map_map. reflexivity.
Qed.

(** ** Relative times *)

Section TimeFacts.

Lemma formatTime_same (now : Z) (d : date) :
  MobileCryptoApp.formatTime now d = CryptoDashboard.formatTime now d.
Proof. reflexivity. Qed.

Lemma formatTime_of_age (now ms : Z) :
  CryptoDashboard.formatTime now (DateAt ms) =
  let age := (now - ms)%Z in
  if (age <? 60000)%Z then "たった今"
  else if (age <? 3600000)%Z
  then JsInt.toString (Some (age / 60000)%Z) ++ "分前"
  else if (age <? 86400000)%Z
  then JsInt.toString (Some (age / 3600000)%Z) ++ "時間前"
  else JsInt.toString (Some (age / 86400000)%Z) ++ "日前".
Proof.
  unfold CryptoDashboard.formatTime, JsInt.sub, JsInt.floorDiv, JsInt.lt.
  cbv zeta. set (age := (now - ms)%Z).
  assert (H60 : ((age / 60000) / 60 = age / 3600000)%Z)
    by (rewrite Z.div_div by lia; reflexivity).
  assert (H1440 : ((age / 60000) / 1440 = age / 86400000)%Z)
    by (rewrite Z.div_div by lia; reflexivity).
  rewrite H60, H1440.
  destruct (Z.ltb_spec (age / 60000) 1), (Z.ltb_spec age 60000);
    try reflexivity; try (exfalso; Z.div_mod_to_equations; lia).
  destruct (Z.ltb_spec (age / 60000) 60), (Z.ltb_spec age 3600000);
    try reflexivity; try (exfalso; Z.div_mod_to_equations; lia).
  destruct (Z.ltb_spec (age / 60000) 1440), (Z.ltb_spec age 86400000);
    try reflexivity; exfalso; Z.div_mod_to_equations; lia.
Qed.

End TimeFacts.

(** X3.  [formatTime] (the same function in [CryptoDashboard] and
    [MobileCryptoApp]) goes by the age of the date in milliseconds: under
    one minute, future dates included, it answers "たった今" (just now);
    under one hour the whole minutes, 1 to 59; under one day the whole
    hours, 1 to 23; from one day on the whole days, at least 1; and for a
    date that cannot be read it answers "NaN日前". *)
Theorem formatTime_buckets (now ms : Z) :
  let age := (now - ms)%Z in
  let shown := CryptoDashboard.formatTime now (DateAt ms) in
  ((age < 60000)%Z -> shown = "たった今") /\
  ((60000 <= age < 3600000)%Z ->
   shown = JsInt.toString (Some (age / 60000)%Z) ++ "分前" /\
   (1 <= age / 60000 <= 59)%Z) /\
  ((3600000 <= age < 86400000)%Z ->
   shown = JsInt.toString (Some (age / 3600000)%Z) ++ "時間前" /\
   (1 <= age / 3600000 <= 23)%Z) /\
  ((86400000 <= age)%Z ->
   shown = JsInt.toString (Some (age / 86400000)%Z) ++ "日前" /\
   (1 <= age / 86400000)%Z) /\
  CryptoDashboard.formatTime now InvalidDate = "NaN日前" /\
  (forall d, MobileCryptoApp.formatTime now d = CryptoDashboard.formatTime now d).
Proof.
  cbv zeta. rewrite formatTime_of_age. cbv zeta.
  set (age := (now - ms)%Z).
  split; [|split; [|split; [|split; [|split]]]];
    try reflexivity; intros H.
  - destruct (Z.ltb_spec age 60000); [reflexivity|lia].
  - split; [|Z.div_mod_to_equations; lia].
    destruct (Z.ltb_spec age 60000); [lia|].
    destruct (Z.ltb_spec age 3600000); [reflexivity|lia].
  - split; [|Z.div_mod_to_equations; lia].
    destruct (Z.ltb_spec age 60000); [lia|].
    destruct (Z.ltb_spec age 3600000); [lia|].
    destruct (Z.ltb_spec age 86400000); [reflexivity|lia].
  - split; [|Z.div_mod_to_equations; lia].
    destruct (Z.ltb_spec age 60000); [lia|].
    destruct (Z.ltb_spec age 3600000); [lia|].
    destruct (Z.ltb_spec age 86400000); [lia|reflexivity].
Qed.

(** The buckets at work, 90 minutes and 3 days back. *)
Example formatTime_examples :
  CryptoDashboard.formatTime 1700000000000 (DateAt (1700000000000 - 5400000))
    = "1時間前" /\
  CryptoDashboard.formatTime 1700000000000 (DateAt (1700000000000 - 259200000))
    = "3日前" /\
  CryptoDashboard.formatTime 1700000000000 (DateAt (1700000000000 + 5000))
    = "たった今".
Proof. vm_compute. repeat split. Qed.

(** X4.  The news page's [formatTimeAgo] and the dashboard's [formatTime]
    show the same text for every date less than seven days old; from seven
    days on, and for a date that cannot be read, [formatTimeAgo] shows the
    host's local date instead. *)
Theorem formatTimeAgo_agrees_with_formatTime
    (toLocaleDateString : date -> str) (now ms : Z) :
  ((now - ms < 604800000)%Z ->
   CryptoNewsApp.formatTimeAgo toLocaleDateString now (DateAt ms)
   = CryptoDashboard.formatTime now (DateAt ms)) /\
  ((604800000 <= now - ms)%Z ->
   CryptoNewsApp.formatTimeAgo toLocaleDateString now (DateAt ms)
   = toLocaleDateString (DateAt ms)) /\
  CryptoNewsApp.formatTimeAgo toLocaleDateString now InvalidDate
  = toLocaleDateString InvalidDate.
Proof.
  rewrite formatTime_of_age. cbv zeta.
  unfold CryptoNewsApp.formatTimeAgo, JsInt.sub, JsInt.floorDiv, JsInt.lt.
  cbv zeta. set (age := (now - ms)%Z).
  assert (H60 : ((age / 60000) / 60 = age / 3600000)%Z)
    by (rewrite Z.div_div by lia; reflexivity).
  assert (H24 : ((age / 3600000) / 24 = age / 86400000)%Z)
    by (rewrite Z.div_div by lia; reflexivity).
  rewrite H60, H24.
  split; [|split; [|reflexivity]]; intros H.
  - destruct (Z.ltb_spec (age / 60000) 1), (Z.ltb_spec age 60000);
      try reflexivity; try (exfalso; Z.div_mod_to_equations; lia).
    destruct (Z.ltb_spec (age / 60000) 60), (Z.ltb_spec age 3600000);
      try reflexivity; try (exfalso; Z.div_mod_to_equations; lia).
    destruct (Z.ltb_spec (age / 3600000) 24), (Z.ltb_spec age 86400000);
      try reflexivity; try (exfalso; Z.div_mod_to_equations; lia).
    destruct (Z.ltb_spec (age / 86400000) 7);
      [reflexivity|exfalso; Z.div_mod_to_equations; lia].
  - destruct (Z.ltb_spec (age / 60000) 1);
      [exfalso; Z.div_mod_to_equations; lia|].
    destruct (Z.ltb_spec (age / 60000) 60);
      [exfalso; Z.div_mod_to_equations; lia|].
    destruct (Z.ltb_spec (age / 3600000) 24);
      [exfalso; Z.div_mod_to_equations; lia|].
    destruct (Z.ltb_spec (age / 86400000) 7);
      [exfalso; Z.div_mod_to_equations; lia|reflexivity].
Qed.

(** ** Theme *)

(** X5.  [toggleTheme] with a working local storage: reading the stored
    item back, as the constructor does, gives the state the toggle left;
    the theme is dark after the toggle exactly when it was light before,
    and light otherwise, also from a stored theme that is neither; two
    toggles give back a light or a dark theme. *)
Theorem toggleTheme_survives_reload (t : CryptoDashboard.themed) :
  let t' := CryptoDashboard.toggleTheme false t in
  CryptoDashboard.loadTheme (CryptoDashboard.storedTheme t') = t'
  /\ (CryptoDashboard.theme t = "light" ->
      CryptoDashboard.theme t' = "dark")
  /\ (CryptoDashboard.theme t <> "light" ->
      CryptoDashboard.theme t' = "light")
  /\ (CryptoDashboard.theme t = "light" \/ CryptoDashboard.theme t = "dark" ->
      CryptoDashboard.theme (CryptoDashboard.toggleTheme false t')
      = CryptoDashboard.theme t).
Proof.
  unfold CryptoDashboard.toggleTheme, CryptoDashboard.loadTheme,
    JsValue.eqStr.
  cbn [CryptoDashboard.theme CryptoDashboard.storedTheme].
  destruct (list_eq_dec ascii_dec (CryptoDashboard.theme t) "light")
    as [E | E].
  - split; [reflexivity |].
    split; [reflexivity |].
    split; [intros H; contradiction |].
    intros _. rewrite E. reflexivity.
  - split; [reflexivity |].
    split; [intros H; contradiction |].
    split; [reflexivity |].
    intros [H | H]; [contradiction |]. rewrite H. reflexivity.
Qed.

(** ** News filters *)

Section FilterFacts.
Context {host : Host}.

Import CryptoNewsApp.

Lemma filter_both {A} (f g h : A -> bool) (l : list A) :
  (forall x, f x = g x && h x) ->
  filter f l = filter g (filter h l).
Proof.
  intros H. induction l as [| x l IH]; [reflexivity |].
  cbn [filter]. rewrite H.
  destruct (h x); cbn [filter].
  - destruct (g x); cbn [andb]; rewrite IH; reflexivity.
  - rewrite andb_false_r. exact IH.
Qed.

Lemma before_mono (d : date) (a b : Z) :
  (a <= b)%Z -> JsInt.before d a = true -> JsInt.before d b = true.
Proof.
  destruct d as [| ms]; cbn [JsInt.before]; [discriminate |].
  intros Hab H. apply Z.ltb_lt in H. apply Z.ltb_lt. lia.
Qed.

(** A narrower window keeps what the wider window keeps and is not
    older than the narrower threshold. *)
Lemma passes_narrow (c s narrow wide : str) (now : Z) (item : Item.t) :
  (timeThreshold wide now <= timeThreshold narrow now)%Z ->
  passes c s narrow now item =
  negb (JsInt.before (Item.published item) (timeThreshold narrow now))
  && passes c s wide now item.
Proof.
  intros Hle. unfold passes.
  destruct (negb (JsValue.eqStr c "all")
            && negb (JsValue.eqStr (Item.category item) c));
    [rewrite andb_false_r; reflexivity |].
  destruct (negb (JsValue.eqStr s "all")
            && negb (JsString.includes (toLowerCase (Item.source item)) s));
    [rewrite andb_false_r; reflexivity |].
  destruct (JsInt.before (Item.published item) (timeThreshold wide now))
    eqn:Hw.
  - rewrite (before_mono _ _ _ Hle Hw). reflexivity.
  - destruct (JsInt.before (Item.published item)
                           (timeThreshold narrow now)); reflexivity.
Qed.

Lemma applyFilters_narrow (c s : option str) (narrow wide : str) (now : Z)
    (data : list Item.t) :
  narrow <> [] -> wide <> [] ->
  (timeThreshold wide now <= timeThreshold narrow now)%Z ->
  applyFilters c s (Some narrow) now data =
  filter (fun item =>
            negb (JsInt.before (Item.published item)
                               (timeThreshold narrow now)))
         (applyFilters c s (Some wide) now data).
Proof.
  intros Hn Hw Hle. unfold applyFilters.
  destruct narrow as [| n0 narrow]; [contradiction |].
  destruct wide as [| w0 wide]; [contradiction |].
  cbn [formValue].
  apply filter_both. intros item. apply passes_narrow. exact Hle.
Qed.

Lemma passes_undated (c s tm tm' : str) (now : Z) (item : Item.t) :
  Item.published item = InvalidDate ->
  passes c s tm now item = passes c s tm' now item.
Proof. intros H. unfold passes. rewrite H. reflexivity. Qed.

Lemma categoryName_same (a b : category) :
  JsValue.eqStr (categoryName a) (categoryName b) = Topics.same a b.
Proof. destruct a, b; vm_compute; reflexivity. Qed.

Lemma categoryName_formValue (c : category) (fallback : str) :
  formValue (Some (categoryName c)) fallback = categoryName c.
Proof. destruct c; reflexivity. Qed.

Lemma categoryName_not_all (c : category) :
  JsValue.eqStr (categoryName c) "all" = false.
Proof. destruct c; vm_compute; reflexivity. Qed.

End FilterFacts.

(** X6.  The time windows of [applyFilters] nest: with the same category
    and source filters, the 24-hour list is the 7-day list without the
    items older than 24 hours, in the same order, and the 7-day list is
    the 30-day list without the items older than 7 days; a missing or
    empty time control counts as 24 hours; and once the clock is 30 days
    past the epoch, the 30-day list is the unbounded one without the items
    older than 30 days. *)
Theorem applyFilters_windows_nest {host : Host} (c s : option str) (now : Z)
    (data : list CryptoNewsApp.Item.t) :
  let fresh (age : Z) :=
    filter (fun item =>
              negb (JsInt.before (CryptoNewsApp.Item.published item)
                                 (now - age))) in
  CryptoNewsApp.applyFilters c s (Some ("24h" : str)) now data =
  fresh 86400000%Z (CryptoNewsApp.applyFilters c s (Some ("7d" : str)) now data)
  /\ CryptoNewsApp.applyFilters c s (Some ("7d" : str)) now data =
     fresh 604800000%Z
           (CryptoNewsApp.applyFilters c s (Some ("30d" : str)) now data)
  /\ CryptoNewsApp.applyFilters c s None now data =
     CryptoNewsApp.applyFilters c s (Some ("24h" : str)) now data
  /\ CryptoNewsApp.applyFilters c s (Some []) now data =
     CryptoNewsApp.applyFilters c s (Some ("24h" : str)) now data
  /\ ((2592000000 <= now)%Z ->
      CryptoNewsApp.applyFilters c s (Some ("30d" : str)) now data =
      fresh 2592000000%Z
            (CryptoNewsApp.applyFilters c s (Some ("all" : str)) now data)).
Proof.
  cbv zeta.
  split.
  { rewrite (applyFilters_narrow c s "24h" "7d" now data);
      [reflexivity | discriminate | discriminate |].
    change (now - 604800000 <= now - 86400000)%Z. lia. }
  split.
  { rewrite (applyFilters_narrow c s "7d" "30d" now data);
      [reflexivity | discriminate | discriminate |].
    change (now - 2592000000 <= now - 604800000)%Z. lia. }
  split; [reflexivity |].
  split; [reflexivity |].
  intros Hnow.
  rewrite (applyFilters_narrow c s "30d" "all" now data);
    [reflexivity | discriminate | discriminate |].
  change (0 <= now - 2592000000)%Z. lia.
Qed.

(** X7.  An item whose date does not parse is never removed by the time
    filter of [applyFilters]: whatever the time controls, it is in both
    filtered lists or in neither. *)
Theorem applyFilters_keeps_undated {host : Host} (c s tm tm' : option str)
    (now : Z) (data : list CryptoNewsApp.Item.t) (item : CryptoNewsApp.Item.t) :
  CryptoNewsApp.Item.published item = InvalidDate ->
  In item (CryptoNewsApp.applyFilters c s tm now data) <->
  In item (CryptoNewsApp.applyFilters c s tm' now data).
Proof.
  intros H. unfold CryptoNewsApp.applyFilters. cbv zeta.
  rewrite !filter_In.
  rewrite (passes_undated _ _ (CryptoNewsApp.formValue tm "24h")
                          (CryptoNewsApp.formValue tm' "24h") now item H).
  reflexivity.
Qed.

Lemma applyFilters_keeps_undated_witness :
  let item :=
    {| CryptoNewsApp.Item.title := "Bitcoin rallies" : str;
       CryptoNewsApp.Item.summary := "" : str;
       CryptoNewsApp.Item.source := "CoinDesk" : str;
       CryptoNewsApp.Item.published := InvalidDate;
       CryptoNewsApp.Item.category := "bitcoin" : str;
       CryptoNewsApp.Item.sentiment := "neutral" : str |} in
  CryptoNewsApp.Item.published item = InvalidDate
  /\ (In item (CryptoNewsApp.applyFilters (host := exampleHost)
                 None None (Some ("24h" : str)) 1700000000000 [item]) <->
      In item (CryptoNewsApp.applyFilters (host := exampleHost)
                 None None (Some ("all" : str)) 1700000000000 [item])).
Proof.
  cbv zeta. split; [reflexivity |].
  apply (applyFilters_keeps_undated (host := exampleHost)). reflexivity.
Defined.

(** X8.  Filtering freshly enhanced news by a topic gives the items the
    classifier puts under that topic: for news dated at or after the
    epoch, with no source filter and an unbounded time window,
    [applyFilters] after [enhanceNewsData] is [enhanceNewsData] after
    selecting the raw items that [categorizeNews] maps to the topic. *)
Theorem category_filter_follows_classifier {host : Host} (c : category)
    (now : Z) (raw : list CryptoNewsApp.Raw.t) :
  Forall (fun r => JsInt.before (CryptoNewsApp.Raw.published r) 0 = false)
         raw ->
  CryptoNewsApp.applyFilters (Some (CryptoNewsApp.categoryName c)) None
    (Some ("all" : str)) now (CryptoNewsApp.enhanceNewsData raw) =
  CryptoNewsApp.enhanceNewsData
    (filter (fun r =>
               Topics.same
                 (CryptoNewsApp.categorizeNews (CryptoNewsApp.Raw.title r)
                                               (CryptoNewsApp.Raw.summary r))
                 c)
            raw).
Proof.
  intros Hdated. unfold CryptoNewsApp.applyFilters. cbv zeta.
  rewrite categoryName_formValue.
  change (CryptoNewsApp.formValue None "all") with ("all" : str).
  change (CryptoNewsApp.formValue (Some ("all" : str)) "24h")
    with ("all" : str).
  induction Hdated as [| r raw Hr _ IH]; [reflexivity |].
  cbn [CryptoNewsApp.enhanceNewsData map filter].
  fold (CryptoNewsApp.enhanceNewsData raw).
  unfold CryptoNewsApp.passes at 1.
  cbn [CryptoNewsApp.Item.category CryptoNewsApp.Item.source
       CryptoNewsApp.Item.published].
  rewrite categoryName_not_all, categoryName_same.
  change (JsValue.eqStr "all" "all") with true.
  change (CryptoNewsApp.timeThreshold "all" now) with 0%Z.
  rewrite Hr. cbn [negb andb].
  destruct (Topics.same _ c); cbn [negb].
  - cbn [CryptoNewsApp.enhanceNewsData map]. f_equal. exact IH.
  - exact IH.
Qed.

Lemma category_filter_follows_classifier_witness :
  let raw :=
    [ {| CryptoNewsApp.Raw.title := "Bitcoin rallies" : str;
         CryptoNewsApp.Raw.summary := "BTC up" : str;
         CryptoNewsApp.Raw.source := "CoinDesk" : str;
         CryptoNewsApp.Raw.published := DateAt 1699999000000 |};
      {| CryptoNewsApp.Raw.title := "New rules" : str;
         CryptoNewsApp.Raw.summary := "regulation ahead" : str;
         CryptoNewsApp.Raw.source := "Reuters" : str;
         CryptoNewsApp.Raw.published := InvalidDate |} ] in
  Forall (fun r => JsInt.before (CryptoNewsApp.Raw.published r) 0 = false)
         raw
  /\ CryptoNewsApp.applyFilters (host := exampleHost)
       (Some (CryptoNewsApp.categoryName regulation)) None
       (Some ("all" : str)) 1700000000000
       (CryptoNewsApp.enhanceNewsData (host := exampleHost) raw) =
     CryptoNewsApp.enhanceNewsData (host := exampleHost)
       (filter (fun r =>
                  Topics.same
                    (CryptoNewsApp.categorizeNews (host := exampleHost)
                       (CryptoNewsApp.Raw.title r)
                       (CryptoNewsApp.Raw.summary r))
                    regulation)
               raw).
Proof.
  cbv zeta. split.
  - repeat constructor.
  - apply (category_filter_follows_classifier (host := exampleHost)).
    repeat constructor.
Defined.

(** ** The two metric extractors *)

Section MetricAgreement.
Context {host : Host}.






End MetricAgreement.


(** ** The refresh schedule *)

Section ScheduleFacts.
Import CryptoDashboard Schedule.

Lemma startRealTimeUpdates_intervals (now : Z) (d : dashboard) :
  intervals (startRealTimeUpdates now d) =
  intervals d
  ++ [ {| callback := LoadMarketOverview;
          delay := updateInterval d; since := now |};
       {| callback := LoadCryptoNews;
          delay := updateInterval d * 2; since := now |} ].
Proof.
  unfold startRealTimeUpdates, setInterval. cbn.
  now rewrite <- app_assoc.
Qed.

(** An interval of twice the delay runs only when the interval of the
    single delay, registered at the same time, runs. *)
Lemma fires_double (cb cb' : refresh) (u now t : Z) :
  fires {| callback := cb; delay := u * 2; since := now |} t = true ->
  fires {| callback := cb'; delay := u; since := now |} t = true.
Proof.
  unfold fires. cbn [delay since].
  rewrite !andb_true_iff, !Z.ltb_lt, !Z.eqb_eq.
  intros [[Hpos Hsince] Hmod].
  assert (Hu : (0 < u)%Z) by lia.
  split; [split; [exact Hu | exact Hsince] |].
  apply Z.mod_divide in Hmod; [| lia].
  apply Z.mod_divide; [lia |].
  apply Z.divide_trans with (m := (u * 2)%Z); [| exact Hmod].
  exists 2%Z. lia.
Qed.

(** A pair of intervals registered together adds a news refresh only
    where it adds a market refresh. *)
Lemma runs_pair (d d' : dashboard) (u now t : Z) :
  intervals d' =
  intervals d
  ++ [ {| callback := LoadMarketOverview; delay := u; since := now |};
       {| callback := LoadCryptoNews; delay := u * 2; since := now |} ] ->
  (runs LoadCryptoNews d t <= runs LoadMarketOverview d t)%nat ->
  (runs LoadCryptoNews d' t <= runs LoadMarketOverview d' t)%nat.
Proof.
  intros H Hle. unfold runs, refreshesAt in *.
  rewrite H, filter_app, map_app, !filter_app, !length_app.
  pose proof (fires_double LoadCryptoNews LoadMarketOverview u now t) as Hd.
  cbn [filter].
  destruct (fires {| callback := LoadCryptoNews; delay := u * 2;
                     since := now |} t).
  - rewrite (Hd eq_refl). cbn. lia.
  - destruct (fires {| callback := LoadMarketOverview; delay := u;
                       since := now |} t); cbn; lia.
Qed.

(** The intervals of a reachable state have delays the timer model
    covers, and so has its current update interval. *)
Lemma reachable_inRange (d : dashboard) :
  reachable d ->
  inRange (updateInterval d)
  /\ Forall (fun i => (0 < delay i <= 2147483647)%Z) (intervals d).
Proof.
  assert (Hpair : forall (d d' : dashboard) (u now : Z),
    inRange u ->
    intervals d' =
    intervals d
    ++ [ {| callback := LoadMarketOverview; delay := u; since := now |};
         {| callback := LoadCryptoNews; delay := u * 2; since := now |} ] ->
    Forall (fun i => (0 < delay i <= 2147483647)%Z) (intervals d) ->
    Forall (fun i => (0 < delay i <= 2147483647)%Z) (intervals d')).
  { intros d0 d' u now [Hpos Hmax] -> Hall.
    apply Forall_app. split; [exact Hall |].
    repeat constructor; cbn [delay]; lia. }
  intros H.
  induction H as [| now d _ [IHu IHall] | form now d _ [_ IHall] Hform].
  - split; [unfold inRange; cbn; lia | constructor].
  - split; [exact IHu |].
    exact (Hpair d _ _ now IHu (startRealTimeUpdates_intervals now d) IHall).
  - split; [exact Hform |].
    exact (Hpair d _ _ now Hform (saveSettings_intervals form now d) IHall).
Qed.

End ScheduleFacts.

(** X10.  However often and whenever the dashboard starts its updates and
    saves its settings, with update frequencies of at least one second
    whose doubled delay is within 2^31 - 1 milliseconds: every interval
    registered has a delay from 1 to 2^31 - 1, and at every time at least
    as many market refreshes run as news refreshes, so that a news refresh
    never runs alone. *)
Theorem news_refresh_never_runs_alone (d : CryptoDashboard.dashboard) (t : Z) :
  Schedule.reachable d ->
  Forall (fun i => (0 < CryptoDashboard.delay i <= 2147483647)%Z)
         (CryptoDashboard.intervals d)
  /\ (Schedule.runs CryptoDashboard.LoadCryptoNews d t
      <= Schedule.runs CryptoDashboard.LoadMarketOverview d t)%nat.
Proof.
  intros H. split; [exact (proj2 (reachable_inRange d H)) |].
  induction H as [| now d _ IH | form now d _ IH _].
  - apply Nat.le_refl.
  - exact (runs_pair d _ _ now t (startRealTimeUpdates_intervals now d) IH).
  - exact (runs_pair d _ _ now t (saveSettings_intervals form now d) IH).
Qed.

Lemma news_refresh_never_runs_alone_witness :
  let d := CryptoDashboard.saveSettings
             {| CryptoDashboard.updateFreq := 120;
                CryptoDashboard.priceAlerts := true;
                CryptoDashboard.newsAlerts := true |} 45000
             (CryptoDashboard.startRealTimeUpdates 0 CryptoDashboard.initial) in
  Schedule.reachable d
  /\ Schedule.runs CryptoDashboard.LoadCryptoNews d 60000 = 1%nat
  /\ Forall (fun i => (0 < CryptoDashboard.delay i <= 2147483647)%Z)
            (CryptoDashboard.intervals d)
  /\ (Schedule.runs CryptoDashboard.LoadCryptoNews d 60000
      <= Schedule.runs CryptoDashboard.LoadMarketOverview d 60000)%nat.
Proof.
  cbv zeta.
  assert (H : Schedule.reachable
    (CryptoDashboard.saveSettings
       {| CryptoDashboard.updateFreq := 120;
          CryptoDashboard.priceAlerts := true;
          CryptoDashboard.newsAlerts := true |} 45000
       (CryptoDashboard.startRealTimeUpdates 0 CryptoDashboard.initial))).
  { apply Schedule.reach_save;
      [apply Schedule.reach_start, Schedule.reach_initial |].
    unfold Schedule.inRange. cbn. lia. }
  split; [exact H |].
  split; [vm_compute; reflexivity |].
  exact (news_refresh_never_runs_alone _ 60000 H).
Defined.

(** ** Pausing the price updates *)

Section PagerFacts.
Import MobileCryptoApp Visibility.

Lemma tidy_step (shown : bool) (p : pager) :
  tidy shown p -> tidy (negb shown) (visibilitychange shown p).
Proof.
  destruct shown; cbn [tidy negb visibilitychange].
  - intros [handle [Hp Hl]]. rewrite Hp. cbn [clearInterval live].
    rewrite Hl. cbn [filter]. rewrite Pos.eqb_refl. reflexivity.
  - intros Hl. exists (next p). cbn [startPriceUpdates priceUpdateInterval live].
    rewrite Hl. split; reflexivity.
Qed.

Lemma tidy_after (events : list bool) (shown : bool) (p : pager) :
  alternates shown events = true ->
  tidy shown p ->
  tidy (if Nat.even (List.length events) then shown else negb shown)
       (after events p).
Proof.
  revert shown p. induction events as [| hidden events IH]; intros shown p.
  - intros _ H. exact H.
  - cbn [alternates]. rewrite andb_true_iff. intros [Hfirst Halt] H.
    apply Bool.eqb_prop in Hfirst. subst hidden.
    unfold after. cbn [fold_left]. fold (after events (visibilitychange shown p)).
    specialize (IH (negb shown) _ Halt (tidy_step shown p H)).
    change (List.length (shown :: events)) with (S (List.length events)).
    rewrite Nat.even_succ, <- Nat.negb_even.
    destruct (Nat.even (List.length events)); cbn [negb] in *.
    + exact IH.
    + rewrite negb_involutive in IH. exact IH.
Qed.

Lemma leaking_step (hidden : bool) (p : pager) :
  leaking p -> leaking (visibilitychange hidden p).
Proof.
  intros [Hin [Hnext [handle [Hp Hlt]]]].
  destruct hidden; cbn [visibilitychange].
  - rewrite Hp. unfold leaking. cbn [clearInterval live next priceUpdateInterval].
    split; [| split; [exact Hnext | exists handle; split; [exact Hp | exact Hlt]]].
    apply filter_In. split; [exact Hin |].
    apply negb_true_iff, Pos.eqb_neq. lia.
  - unfold leaking. cbn [startPriceUpdates live next priceUpdateInterval].
    split; [apply in_or_app; left; exact Hin |].
    split; [lia |]. exists (next p). split; [reflexivity | exact Hnext].
Qed.

Lemma leaking_after (events : list bool) (p : pager) :
  leaking p -> leaking (after events p).
Proof.
  revert p. induction events as [| hidden events IH]; intros p H.
  - exact H.
  - unfold after. cbn [fold_left]. apply IH, leaking_step, H.
Qed.

End PagerFacts.

(** X11.  A page that is loaded while shown, whose visibility then changes
    back and forth, never has more than one price interval: none while it
    is hidden, and while it is shown the one whose handle the app holds. *)
Theorem one_price_interval_while_shown (events : list bool) :
  Visibility.alternates true events = true ->
  let p := Visibility.after events MobileCryptoApp.loaded in
  if Nat.even (List.length events)
  then exists handle,
         MobileCryptoApp.priceUpdateInterval p = Some handle
         /\ MobileCryptoApp.live p = [handle]
  else MobileCryptoApp.live p = [].
Proof.
  intros H. cbv zeta.
  assert (H0 : Visibility.tidy true MobileCryptoApp.loaded)
    by (exists 1%positive; split; reflexivity).
  pose proof (tidy_after events true MobileCryptoApp.loaded H H0) as Ht.
  destruct (Nat.even (List.length events)); exact Ht.
Qed.

Lemma one_price_interval_while_shown_witness :
  Visibility.alternates true [true; false; true; false] = true
  /\ exists handle,
       MobileCryptoApp.priceUpdateInterval
         (Visibility.after [true; false; true; false] MobileCryptoApp.loaded)
       = Some handle
       /\ MobileCryptoApp.live
            (Visibility.after [true; false; true; false]
                              MobileCryptoApp.loaded)
          = [handle].
Proof.
  split; [reflexivity |].
  apply (one_price_interval_while_shown [true; false; true; false]).
  reflexivity.
Defined.

(** X12.  A page that is loaded while hidden and then shown keeps its
    first price interval for good: whatever visibility changes follow and
    whether or not the app is destroyed in the end, that interval stays
    registered, since the app holds the handle of a later one. *)
Theorem first_interval_leaks_when_loaded_hidden (events : list bool) :
  let p := Visibility.after (false :: events) MobileCryptoApp.loaded in
  In 1%positive (MobileCryptoApp.live p)
  /\ In 1%positive (MobileCryptoApp.live (MobileCryptoApp.destroy p))
  /\ (events = [] -> MobileCryptoApp.live p = [1; 2]%positive).
Proof.
  cbv zeta.
  assert (H0 : Visibility.leaking
                 (MobileCryptoApp.visibilitychange false MobileCryptoApp.loaded)).
  { split; [left; reflexivity |].
    split; [reflexivity |]. exists 2%positive. split; reflexivity. }
  pose proof (leaking_after events _ H0) as H.
  change (Visibility.after (false :: events) MobileCryptoApp.loaded)
    with (Visibility.after events
            (MobileCryptoApp.visibilitychange false MobileCryptoApp.loaded)).
  split; [exact (proj1 H) |].
  split.
  - exact (proj1 (leaking_step true _ H)).
  - intros E. rewrite E. reflexivity.
Qed.

(** ** The analysis form *)

Section FormFacts.
Import CryptoTradingApp.

Lemma getFormData_symbol (f : form) :
  symbol (getFormData f) =
  match customSymbol f with [] => cryptoSymbol f | _ => customSymbol f end.
Proof. unfold getFormData. cbn [symbol]. destruct (customSymbol f); reflexivity. Qed.

Lemma handleAnalysisSubmit_cases (f : form) :
  handleAnalysisSubmit f =
  match symbol (getFormData f) with
  | [] => ([ "仮想通貨銘柄を選択または入力してください。" : str ], None)
  | _ =>
      if technicalAgent f || sentimentAgent f || riskAgent f
      then ([], Some (getFormData f))
      else ([ "少なくとも1つの分析エージェントを選択してください。" : str ],
            None)
  end.
Proof.
  unfold handleAnalysisSubmit, validateFormData. cbv zeta.
  destruct (symbol (getFormData f)); [reflexivity |].
  unfold getFormData. cbn [agents technical sentiment risk].
  destruct (technicalAgent f), (sentimentAgent f), (riskAgent f);
    reflexivity.
Qed.

End FormFacts.

(** X13.  Submitting the analysis form calls [runAnalysis] exactly when a
    symbol is given, typed or selected, and some agent is ticked.  It then
    shows no error and sends the typed symbol if there is one, else the
    selected one, with the depth and the three ticks as the form has them.
    Otherwise it shows one error, the one about the symbol when the symbol
    is missing. *)
Theorem submit_needs_symbol_and_agent (f : CryptoTradingApp.form) :
  let errors := fst (CryptoTradingApp.handleAnalysisSubmit f) in
  let request := snd (CryptoTradingApp.handleAnalysisSubmit f) in
  let ready :=
    negb (JsValue.eqStr (CryptoTradingApp.customSymbol f) []
          && JsValue.eqStr (CryptoTradingApp.cryptoSymbol f) [])
    && (CryptoTradingApp.technicalAgent f
        || CryptoTradingApp.sentimentAgent f
        || CryptoTradingApp.riskAgent f) in
  (if ready
   then errors = []
        /\ request =
           Some {| CryptoTradingApp.symbol :=
                     if JsValue.eqStr (CryptoTradingApp.customSymbol f) []
                     then CryptoTradingApp.cryptoSymbol f
                     else CryptoTradingApp.customSymbol f;
                   CryptoTradingApp.depth := CryptoTradingApp.analysisDepth f;
                   CryptoTradingApp.agents :=
                     {| CryptoTradingApp.technical :=
                          CryptoTradingApp.technicalAgent f;
                        CryptoTradingApp.sentiment :=
                          CryptoTradingApp.sentimentAgent f;
                        CryptoTradingApp.risk :=
                          CryptoTradingApp.riskAgent f |} |}
   else request = None /\ List.length errors = 1%nat)
  /\ (CryptoTradingApp.customSymbol f = [] ->
      CryptoTradingApp.cryptoSymbol f = [] ->
      errors = [ "仮想通貨銘柄を選択または入力してください。" : str ]).
Proof.
  cbv zeta. rewrite handleAnalysisSubmit_cases, getFormData_symbol.
  unfold CryptoTradingApp.getFormData.
  destruct (CryptoTradingApp.customSymbol f) as [| c custom];
    [destruct (CryptoTradingApp.cryptoSymbol f) as [| c symbol] |].
  - split; [split; reflexivity | reflexivity].
  - change (JsValue.eqStr [] []) with true.
    replace (JsValue.eqStr (c :: symbol) []) with false
      by (unfold JsValue.eqStr;
          destruct (list_eq_dec ascii_dec (c :: symbol) []);
          [discriminate | reflexivity]).
    cbn [andb negb].
    split; [| intros _ H; discriminate H].
    destruct (CryptoTradingApp.technicalAgent f
              || CryptoTradingApp.sentimentAgent f
              || CryptoTradingApp.riskAgent f);
      split; reflexivity.
  - replace (JsValue.eqStr (c :: custom) []) with false
      by (unfold JsValue.eqStr;
          destruct (list_eq_dec ascii_dec (c :: custom) []);
          [discriminate | reflexivity]).
    cbn [andb negb].
    split; [| intros H; discriminate H].
    destruct (CryptoTradingApp.technicalAgent f
              || CryptoTradingApp.sentimentAgent f
              || CryptoTradingApp.riskAgent f);
      split; reflexivity.
Qed.

(** ** Alerts that are not persisted *)

(** X14.  When local storage refuses the write, [saveAlert] on complete
    input still adds the alert to the list in memory and still shows the
    toast of success, while the stored alerts, and with them what
    [loadAlerts] gives on the next visit, are as before. *)
Theorem saveAlert_succeeds_without_storage (crypto condition : str)
    (price : number) (now : Z) (a : MobileCryptoApp.app) :
  MobileCryptoApp.storageThrows a = true ->
  MobileCryptoApp.nonEmpty crypto && MobileCryptoApp.nonEmpty condition
  && JsNumber.truthy price = true ->
  let a' := MobileCryptoApp.saveAlert crypto condition price now a in
  MobileCryptoApp.stored a' = MobileCryptoApp.stored a
  /\ MobileCryptoApp.loadAlerts a' = MobileCryptoApp.loadAlerts a
  /\ List.length (MobileCryptoApp.alerts a')
     = S (List.length (MobileCryptoApp.alerts a))
  /\ MobileCryptoApp.toasts a'
     = MobileCryptoApp.toasts a
       ++ [ ("アラートを設定しました" : str, "success" : str) ].
Proof.
  intros Hthrows Hvalid. cbv zeta.
  rewrite (saveAlert_accepted _ _ _ _ _ Hvalid).
  unfold MobileCryptoApp.saveAlerts, MobileCryptoApp.showToast,
    MobileCryptoApp.loadAlerts.
  cbn [MobileCryptoApp.storageThrows]. rewrite Hthrows.
  cbn [MobileCryptoApp.stored MobileCryptoApp.alerts MobileCryptoApp.toasts].
  split; [reflexivity |]. split; [reflexivity |].
  split; [| reflexivity].
  rewrite length_app. cbn [List.length]. lia.
Qed.

Lemma saveAlert_succeeds_without_storage_witness :
  let a := {| MobileCryptoApp.alerts := [];
              MobileCryptoApp.stored := None;
              MobileCryptoApp.storageThrows := true;
              MobileCryptoApp.toasts := [] |} in
  let a' := MobileCryptoApp.saveAlert "bitcoin" "above" (Num 50000)
              1700000000000 a in
  MobileCryptoApp.stored a' = MobileCryptoApp.stored a
  /\ MobileCryptoApp.loadAlerts a' = MobileCryptoApp.loadAlerts a
  /\ List.length (MobileCryptoApp.alerts a')
     = S (List.length (MobileCryptoApp.alerts a))
  /\ MobileCryptoApp.toasts a'
     = MobileCryptoApp.toasts a
       ++ [ ("アラートを設定しました" : str, "success" : str) ].
Proof.
  cbv zeta.
  apply (saveAlert_succeeds_without_storage "bitcoin" "above" (Num 50000));
    reflexivity.
Defined.

(** ** Clearing the news filters *)

(** X15.  [clearFilters] does not bring back all the news: it keeps
    the items that are not older than 24 hours, of every topic and source
    and in their order, and the items whose date does not parse. *)
Theorem clearFilters_keeps_last_day {host : Host} (now : Z)
    (data : list CryptoNewsApp.Item.t) :
  CryptoNewsApp.clearFilters now data =
  filter (fun item =>
            match CryptoNewsApp.Item.published item with
            | DateAt ms => (now - 86400000 <=? ms)%Z
            | InvalidDate => true
            end)
         data.
Proof.
  unfold CryptoNewsApp.clearFilters, CryptoNewsApp.applyFilters. cbv zeta.
  apply filter_ext. intros item.
  unfold CryptoNewsApp.passes.
  change (CryptoNewsApp.formValue (Some ("all" : str)) "all")
    with ("all" : str).
  change (CryptoNewsApp.formValue (Some ("24h" : str)) "24h")
    with ("24h" : str).
  change (JsValue.eqStr "all" "all") with true.
  change (CryptoNewsApp.timeThreshold "24h" now) with (now - 86400000)%Z.
  cbn [negb andb].
  destruct (CryptoNewsApp.Item.published item) as [| ms];
    cbn [JsInt.before]; [reflexivity |].
  destruct (Z.ltb_spec ms (now - 86400000)), (Z.leb_spec (now - 86400000) ms);
    try reflexivity; lia.
Qed.

(** ** Computations that add to the log *)

Section AppendingFacts.
Context {E : Type}.

Lemma appending_ret {A} (a : A) : Js.appending (E := E) (Js.ret a).
Proof. intros log. unfold Js.run, Js.ret. cbn. now rewrite app_nil_r. Qed.

Lemma appending_throw {A} : Js.appending (E := E) (A := A) Js.throw.
Proof. intros log. unfold Js.run, Js.throw. cbn. now rewrite app_nil_r. Qed.

Lemma appending_emit (e : E) : Js.appending (Js.emit e).
Proof. intros log. reflexivity. Qed.

Lemma appending_orThrow {A} (x : option A) :
  Js.appending (E := E) (Js.orThrow x).
Proof. destruct x; [apply appending_ret | apply appending_throw]. Qed.

Lemma appending_bind {A B} (m : Js.M E A) (k : A -> Js.M E B) :
  Js.appending m -> (forall a, Js.appending (k a)) ->
  Js.appending (Js.bind m k).
Proof.
  intros Hm Hk log. unfold Js.run, Js.bind.
  rewrite (Hm log). unfold Js.run.
  destruct (m []) as [l0 [a |]]; cbn [fst snd].
  - rewrite (Hk a (log ++ l0)), (Hk a l0). cbn [fst snd].
    now rewrite app_assoc.
  - reflexivity.
Qed.

Lemma appending_tryCatch {A} (body handler : Js.M E A) :
  Js.appending body -> Js.appending handler ->
  Js.appending (Js.tryCatch body handler).
Proof.
  intros Hb Hh log. unfold Js.run, Js.tryCatch.
  rewrite (Hb log). unfold Js.run.
  destruct (body []) as [l0 [a |]]; cbn [fst snd].
  - reflexivity.
  - rewrite (Hh (log ++ l0)), (Hh l0). cbn [fst snd].
    now rewrite app_assoc.
Qed.

Lemma appending_finally {A} (body : Js.M E A) (cleanup : Js.M E unit) :
  Js.appending body -> Js.appending cleanup ->
  Js.appending (Js.finally body cleanup).
Proof.
  intros Hb Hc log. unfold Js.run, Js.finally.
  rewrite (Hb log). unfold Js.run.
  destruct (body []) as [l0 result]; cbn [fst snd].
  rewrite (Hc (log ++ l0)), (Hc l0). unfold Js.run.
  destruct (cleanup []) as [l1 [u |]]; cbn [fst snd];
    now rewrite app_assoc.
Qed.

Lemma appending_lift {A} (inj : event -> E) (m : Eff.M A) :
  Js.appending (Js.lift inj m).
Proof.
  intros log. unfold Js.run, Js.lift.
  destruct (Eff.run m) as [events result]. reflexivity.
Qed.

(** The events and the result of a sequence. *)
Lemma run_bind {A B} (m : Js.M E A) (k : A -> Js.M E B) :
  (forall a, Js.appending (k a)) ->
  Js.run (Js.bind m k) =
  match Js.run m with
  | (l, Eff.Returned a) => (l ++ fst (Js.run (k a)), snd (Js.run (k a)))
  | (l, Eff.Thrown) => (l, Eff.Thrown)
  end.
Proof.
  intros Hk. unfold Js.run, Js.bind.
  destruct (m []) as [l [a |]]; [| reflexivity].
  apply (Hk a l).
Qed.

Lemma run_tryCatch {A} (body handler : Js.M E A) :
  Js.appending handler ->
  Js.run (Js.tryCatch body handler) =
  match Js.run body with
  | (l, Eff.Returned a) => (l, Eff.Returned a)
  | (l, Eff.Thrown) =>
      (l ++ fst (Js.run handler), snd (Js.run handler))
  end.
Proof.
  intros Hh. unfold Js.run, Js.tryCatch.
  destruct (body []) as [l [a |]]; [reflexivity |].
  apply (Hh l).
Qed.

End AppendingFacts.

Ltac appending :=
  repeat first
    [ apply appending_bind; [| intros ?]
    | apply appending_tryCatch
    | apply appending_finally
    | apply appending_ret
    | apply appending_throw
    | apply appending_emit
    | apply appending_orThrow
    | apply appending_lift
    | match goal with
      | |- Js.appending (if ?b then _ else _) => destruct b
      | |- Js.appending (match ?x with _ => _ end) => destruct x
      end ].

(** ** Price cards of the mobile app *)

Section MobileCardFacts.
Context {host : Host}.
Variable present : str -> bool.
Variable toLocaleString : jsval -> option str.

Import MobileCryptoApp.

Lemma updatePriceCard_appending (crypto : str) (data : jsval) :
  Js.appending (updatePriceCard present toLocaleString crypto data).
Proof. unfold updatePriceCard. cbv zeta. appending. Qed.

Lemma showSkeletonPrice_appending (crypto : str) :
  Js.appending (showSkeletonPrice present crypto).
Proof. unfold showSkeletonPrice. cbv zeta. appending. Qed.

Lemma loadPriceDataOf_appending (net : network) (crypto : str) :
  Js.appending (loadPriceDataOf present toLocaleString net crypto).
Proof.
  unfold loadPriceDataOf.
  apply appending_tryCatch.
  - apply appending_bind; [apply appending_lift |].
    intros data. destruct (JsValue.truthy data);
      [apply updatePriceCard_appending | apply appending_ret].
  - apply appending_bind; [apply appending_emit |].
    intros _. apply showSkeletonPrice_appending.
Qed.

Lemma primaryIds_app (a b : list domEvent) :
  Page.primaryIds (a ++ b) = Page.primaryIds a ++ Page.primaryIds b.
Proof.
  induction a as [| e a IH]; [reflexivity |].
  destruct e as [[] | | |]; cbn; rewrite IH; reflexivity.
Qed.

Lemma writes_app (a b : list domEvent) :
  Page.writes (a ++ b) = Page.writes a ++ Page.writes b.
Proof. apply filter_app. Qed.

Lemma primaryIds_writes (l : list domEvent) :
  Page.writes l = l -> Page.primaryIds l = [].
Proof.
  unfold Page.writes.
  induction l as [| e l IH]; [reflexivity |].
  destruct e as [e | | |]; cbn [filter Page.primaryIds].
  - intros H.
    pose proof (filter_length_le
                  (fun e => match e with Fetching _ => false | _ => true end)
                  l) as Hlen.
    rewrite H in Hlen. cbn in Hlen. lia.
  - intros H. injection H as H. exact (IH H).
  - intros H. injection H as H. exact (IH H).
  - intros H. injection H as H. exact (IH H).
Qed.

Lemma primaryIds_fetching (l : list event) :
  Page.primaryIds (map Fetching l)
  = Page.primaryIds (map Fetching (Trace.requests l)).
Proof.
  induction l as [| e l IH]; [reflexivity |].
  destruct e; cbn; rewrite ?IH; reflexivity.
Qed.

Lemma writes_fetching (l : list event) : Page.writes (map Fetching l) = [].
Proof. induction l as [| e l IH]; [reflexivity | exact IH]. Qed.

(** The card update writes to the page and asks nothing. *)
Lemma updatePriceCard_writes (crypto : str) (data : jsval) :
  let l := fst (Js.run (updatePriceCard present toLocaleString crypto data)) in
  Page.writes l = l.
Proof.
  cbv zeta.
  unfold updatePriceCard, Js.run, Js.bind, Js.orThrow, Js.emit, Js.ret,
    Js.throw.
  cbv zeta.
  destruct (present ("mobile-" ++ shortName crypto ++ "-price"));
    destruct (present ("mobile-" ++ shortName crypto ++ "-change"));
    destruct (JsValue.get data "price_usd") as [price_usd |];
    try reflexivity;
    try (destruct (JsValue.truthy price_usd);
         [destruct (toLocaleString price_usd) |]);
    try reflexivity;
    destruct (JsValue.get data "price_change_24h") as [[] |];
    reflexivity.
Qed.

(** The skeleton returns, writes to the page and asks nothing. *)
Lemma showSkeletonPrice_run (crypto : str) :
  Js.run (showSkeletonPrice present crypto) =
  ((if present ("mobile-" ++ shortName crypto ++ "-price")
    then [ InnerHTML ("mobile-" ++ shortName crypto ++ "-price")
                     (Html.skeleton "80px" "20px") ]
    else [])
   ++ (if present ("mobile-" ++ shortName crypto ++ "-change")
       then [ InnerHTML ("mobile-" ++ shortName crypto ++ "-change")
                        (Html.skeleton "60px" "16px") ]
       else []),
   Eff.Returned tt).
Proof.
  unfold showSkeletonPrice, Js.run, Js.bind, Js.emit, Js.ret. cbv zeta.
  destruct (present ("mobile-" ++ shortName crypto ++ "-price"));
    destruct (present ("mobile-" ++ shortName crypto ++ "-change"));
    reflexivity.
Qed.

(** One turn of the loop returns and asks the primary endpoint once. *)
Lemma loadPriceDataOf_run (net : network) (crypto : str) :
  exists l,
    Js.run (loadPriceDataOf present toLocaleString net crypto)
    = (l, Eff.Returned tt)
    /\ Page.primaryIds l = [crypto].
Proof.
  unfold loadPriceDataOf.
  rewrite run_tryCatch
    by (apply appending_bind; [apply appending_emit |];
        intros _; apply showSkeletonPrice_appending).
  rewrite run_bind
    by (intros data; destruct (JsValue.truthy data);
        [apply updatePriceCard_appending | apply appending_ret]).
  destruct (fetchCryptoPrice_two_tiers net crypto) as [l [v [Hrun Hreq]]].
  unfold Js.run at 1. unfold Js.lift. rewrite Hrun. cbn [List.app].
  assert (Hids : Page.primaryIds (map Fetching l) = [crypto]).
  { rewrite primaryIds_fetching.
    destruct (primary net crypto) as [| [|] [data |]];
      destruct Hreq as [Hreq _]; rewrite Hreq; reflexivity. }
  assert (Hhandler :
    Js.run (Js.bind (Js.emit (Fetching ConsoleError))
                    (fun _ => showSkeletonPrice present crypto))
    = (Fetching ConsoleError
         :: fst (Js.run (showSkeletonPrice present crypto)),
       Eff.Returned tt)).
  { rewrite run_bind by (intros _; apply showSkeletonPrice_appending).
    rewrite showSkeletonPrice_run. reflexivity. }
  assert (Hskel : Page.primaryIds
                    (fst (Js.run (showSkeletonPrice present crypto))) = []).
  { rewrite showSkeletonPrice_run. cbn [fst].
    destruct (present ("mobile-" ++ shortName crypto ++ "-price"));
      destruct (present ("mobile-" ++ shortName crypto ++ "-change"));
      reflexivity. }
  destruct (JsValue.truthy v).
  - pose proof (updatePriceCard_writes crypto v) as Hw. cbv zeta in Hw.
    apply primaryIds_writes in Hw.
    destruct (Js.run (updatePriceCard present toLocaleString crypto v))
      as [lu [[] |]]; cbn [fst snd] in *.
    + eexists. split; [reflexivity |].
      rewrite primaryIds_app, Hids, Hw. reflexivity.
    + rewrite Hhandler. cbn [fst snd].
      eexists. split; [reflexivity |].
      rewrite !primaryIds_app, Hids, Hw. cbn. rewrite Hskel. reflexivity.
  - unfold Js.run at 1. unfold Js.ret. cbn [fst snd].
    eexists. split; [reflexivity |].
    rewrite primaryIds_app, Hids. reflexivity.
Qed.

End MobileCardFacts.

(** X16.  [loadPriceData] of the mobile app never throws, whatever the two
    endpoints answer and whatever the page holds, and it asks the primary
    endpoint for bitcoin, ethereum and cardano, once each and in this
    order: a failure on one card does not stop the next. *)
Theorem loadPriceData_asks_for_every_card {host : Host}
    (present : str -> bool) (toLocaleString : jsval -> option str)
    (net : network) (log : list domEvent) :
  exists l,
    MobileCryptoApp.loadPriceData present toLocaleString net log
    = (log ++ l, Eff.Returned tt)
    /\ Page.primaryIds l
       = [ "bitcoin" : str; "ethereum" : str; "cardano" : str ].
Proof.
  unfold MobileCryptoApp.loadPriceData.
  assert (Happ : Js.appending
    (Js.bind (MobileCryptoApp.loadPriceDataOf present toLocaleString net "bitcoin")
       (fun _ =>
          Js.bind (MobileCryptoApp.loadPriceDataOf present toLocaleString net
                     "ethereum")
            (fun _ => MobileCryptoApp.loadPriceDataOf present toLocaleString
                        net "cardano")))).
  { repeat (apply appending_bind; [| intros _]);
      apply loadPriceDataOf_appending. }
  rewrite (Happ log).
  rewrite !run_bind
    by (intros _; repeat (apply appending_bind; [| intros _]);
        apply loadPriceDataOf_appending).
  destruct (loadPriceDataOf_run present toLocaleString net "bitcoin")
    as [l1 [H1 I1]].
  destruct (loadPriceDataOf_run present toLocaleString net "ethereum")
    as [l2 [H2 I2]].
  destruct (loadPriceDataOf_run present toLocaleString net "cardano")
    as [l3 [H3 I3]].
  rewrite H1, H2, H3. cbn [fst snd].
  eexists. split; [reflexivity |].
  rewrite !primaryIds_app, I1, I2, I3. reflexivity.
Qed.

Section MobileLoadFacts.
Context {host : Host}.
Variable present : str -> bool.
Variable toLocaleString : jsval -> option str.

Import MobileCryptoApp.

(** The events and the result of one turn of the loop, from what the
    price fetch gives. *)
Lemma loadPriceDataOf_cases (net : network) (crypto : str)
    (l : list event) (v : jsval) :
  Eff.run (fetchCryptoPrice net crypto) = (l, Eff.Returned v) ->
  Js.run (loadPriceDataOf present toLocaleString net crypto) =
  if JsValue.truthy v then
    match Js.run (updatePriceCard present toLocaleString crypto v) with
    | (lu, Eff.Returned u) => (map Fetching l ++ lu, Eff.Returned u)
    | (lu, Eff.Thrown) =>
        ((map Fetching l ++ lu)
         ++ Fetching ConsoleError
            :: fst (Js.run (showSkeletonPrice present crypto)),
         Eff.Returned tt)
    end
  else (map Fetching l, Eff.Returned tt).
Proof.
  intros Hrun. unfold loadPriceDataOf.
  rewrite run_tryCatch
    by (apply appending_bind; [apply appending_emit |];
        intros _; apply showSkeletonPrice_appending).
  rewrite run_bind
    by (intros data; destruct (JsValue.truthy data);
        [apply updatePriceCard_appending | apply appending_ret]).
  unfold Js.run at 1. unfold Js.lift. rewrite Hrun. cbn [List.app].
  destruct (JsValue.truthy v).
  - destruct (Js.run (updatePriceCard present toLocaleString crypto v))
      as [lu [u |]]; cbn [fst snd]; [reflexivity |].
    rewrite run_bind by (intros _; apply showSkeletonPrice_appending).
    rewrite showSkeletonPrice_run. reflexivity.
  - unfold Js.run, Js.ret. cbn [fst snd]. rewrite app_nil_r. reflexivity.
Qed.

Lemma fetchCryptoPrice_nothing (net : network) (crypto : str) :
  Page.fails (primary net crypto) = true ->
  Page.fails (fallback net crypto) = true ->
  exists l, Eff.run (fetchCryptoPrice net crypto) = (l, Eff.Returned VNull).
Proof.
  intros Hp Hf.
  destruct (fetchCryptoPrice_two_tiers net crypto) as [l [v [Hrun H]]].
  exists l. rewrite Hrun.
  destruct (primary net crypto) as [| [|] [data |]]; try discriminate Hp;
    destruct H as [_ H];
    destruct (fallback net crypto) as [| [|] [data' |]];
    try discriminate Hf; subst v; reflexivity.
Qed.

(** A change that is neither a number nor missing makes the card update
    throw, after the price if it wrote one. *)
Lemma updatePriceCard_throws (crypto : str) (data change : jsval) :
  JsValue.get data "price_change_24h" = Some change ->
  change <> VUndefined ->
  (forall n, change <> VNum n) ->
  present ("mobile-" ++ shortName crypto ++ "-change") = true ->
  exists lu,
    Js.run (updatePriceCard present toLocaleString crypto data)
    = (lu, Eff.Thrown).
Proof.
  intros Hget Hu Hn Hpresent.
  unfold updatePriceCard, Js.run, Js.bind, Js.orThrow, Js.emit, Js.ret,
    Js.throw.
  cbv zeta. rewrite Hpresent, Hget.
  destruct (present ("mobile-" ++ shortName crypto ++ "-price"));
    [destruct (JsValue.get data "price_usd") as [price_usd |];
     [destruct (JsValue.truthy price_usd);
      [destruct (toLocaleString price_usd) |] |] |];
    try (eexists; reflexivity);
    destruct change; try (eexists; reflexivity);
    first [ contradiction Hu; reflexivity
          | exfalso; eapply Hn; reflexivity ].
Qed.

End MobileLoadFacts.

(** X17.  When neither endpoint gives the mobile app a price for a card
    (each fails in transport, answers without success or with a body that
    does not parse), the turn of [loadPriceData] for that card returns and
    writes nothing to the page: the card keeps what it showed, and no
    skeleton replaces it. *)
Theorem dead_endpoints_leave_card_untouched {host : Host}
    (present : str -> bool) (toLocaleString : jsval -> option str)
    (net : network) (crypto : str) (log : list domEvent) :
  Page.fails (primary net crypto) = true ->
  Page.fails (fallback net crypto) = true ->
  exists l,
    MobileCryptoApp.loadPriceDataOf present toLocaleString net crypto log
    = (log ++ l, Eff.Returned tt)
    /\ Page.writes l = [].
Proof.
  intros Hp Hf.
  rewrite (loadPriceDataOf_appending present toLocaleString net crypto log).
  destruct (fetchCryptoPrice_nothing net crypto Hp Hf) as [l Hrun].
  rewrite (loadPriceDataOf_cases present toLocaleString net crypto l VNull Hrun).
  cbn [JsValue.truthy fst snd].
  exists (map Fetching l). split; [reflexivity | apply writes_fetching].
Qed.

Lemma dead_endpoints_leave_card_untouched_witness :
  let net := {| primary := fun _ => NetworkError;
                fallback := fun _ => Response false None |} in
  Page.fails (primary net "bitcoin") = true
  /\ Page.fails (fallback net "bitcoin") = true
  /\ exists l,
       MobileCryptoApp.loadPriceDataOf (host := exampleHost)
         (fun _ => true) (fun _ => None) net "bitcoin" []
       = ([] ++ l, Eff.Returned tt)
       /\ Page.writes l = [].
Proof.
  cbv zeta. split; [reflexivity |]. split; [reflexivity |].
  apply (dead_endpoints_leave_card_untouched (host := exampleHost));
    reflexivity.
Defined.

(** X18.  When the price fetch gives the mobile app a quote whose
    [price_change_24h] is there and is not a number ([null], say), from
    either endpoint, the card update throws, and the turn of
    [loadPriceData] for that card returns all the same and ends by writing
    the skeletons: over the price, if the page has the price element, and
    over the change. *)
Theorem unusable_change_gives_skeleton {host : Host}
    (present : str -> bool) (toLocaleString : jsval -> option str)
    (net : network) (crypto : str) (events : list event)
    (data change : jsval) (log : list domEvent) :
  Eff.run (MobileCryptoApp.fetchCryptoPrice net crypto)
  = (events, Eff.Returned data) ->
  JsValue.truthy data = true ->
  JsValue.get data "price_change_24h" = Some change ->
  change <> VUndefined ->
  (forall n, change <> VNum n) ->
  present ("mobile-" ++ MobileCryptoApp.shortName crypto ++ "-change") = true ->
  exists l before,
    MobileCryptoApp.loadPriceDataOf present toLocaleString net crypto log
    = (log ++ l, Eff.Returned tt)
    /\ Page.writes l =
       before
       ++ (if present ("mobile-" ++ MobileCryptoApp.shortName crypto
                       ++ "-price")
           then [ InnerHTML ("mobile-" ++ MobileCryptoApp.shortName crypto
                             ++ "-price")
                            (Html.skeleton "80px" "20px") ]
           else [])
       ++ [ InnerHTML ("mobile-" ++ MobileCryptoApp.shortName crypto
                       ++ "-change")
                      (Html.skeleton "60px" "16px") ].
Proof.
  intros Hrun Htruthy Hget Hu Hn Hpresent.
  rewrite (loadPriceDataOf_appending present toLocaleString net crypto log).
  rewrite (loadPriceDataOf_cases present toLocaleString net crypto events data
             Hrun).
  rewrite Htruthy.
  destruct (updatePriceCard_throws present toLocaleString crypto data change
              Hget Hu Hn Hpresent) as [lu Hlu].
  rewrite Hlu, showSkeletonPrice_run, Hpresent. cbn [fst snd].
  exists ((map Fetching events ++ lu)
          ++ Fetching ConsoleError
             :: (if present ("mobile-" ++ MobileCryptoApp.shortName crypto
                             ++ "-price")
                 then [ InnerHTML ("mobile-" ++ MobileCryptoApp.shortName crypto
                                   ++ "-price")
                                  (Html.skeleton "80px" "20px") ]
                 else [])
             ++ [ InnerHTML ("mobile-" ++ MobileCryptoApp.shortName crypto
                             ++ "-change")
                            (Html.skeleton "60px" "16px") ]).
  exists (Page.writes lu).
  split; [reflexivity |].
  rewrite !writes_app, writes_fetching. cbn [List.app].
  f_equal.
  destruct (present ("mobile-" ++ MobileCryptoApp.shortName crypto
                     ++ "-price")); reflexivity.
Qed.

(** The quote of the witness comes from the fallback endpoint: CoinGecko
    answers with a price and the change [null]. *)
Lemma unusable_change_gives_skeleton_witness :
  let entry := VObj [ ("usd" : str, VNum (Num 50000));
                      ("usd_24h_change" : str, VNull) ] in
  let net := {| primary := fun _ => NetworkError;
                fallback := fun _ =>
                  Response true (Some (VObj [ ("bitcoin" : str, entry) ])) |} in
  exists l before,
    MobileCryptoApp.loadPriceDataOf (host := exampleHost)
      (fun _ => true) (fun _ => Some ("50,000" : str)) net "bitcoin" []
    = ([] ++ l, Eff.Returned tt)
    /\ Page.writes l =
       before
       ++ [ InnerHTML ("mobile-" ++ MobileCryptoApp.shortName "bitcoin"
                       ++ "-price")
                      (Html.skeleton "80px" "20px") ]
       ++ [ InnerHTML ("mobile-" ++ MobileCryptoApp.shortName "bitcoin"
                       ++ "-change")
                      (Html.skeleton "60px" "16px") ].
Proof.
  cbv zeta.
  apply (unusable_change_gives_skeleton (host := exampleHost)
           (fun _ => true) (fun _ => Some ("50,000" : str))
           {| primary := fun _ => NetworkError;
              fallback := fun _ =>
                Response true
                  (Some (VObj [ ("bitcoin" : str,
                                 VObj [ ("usd" : str, VNum (Num 50000));
                                        ("usd_24h_change" : str, VNull) ]) ])) |}
           "bitcoin"
           [ RequestPrimary "bitcoin"; ConsoleError; RequestFallback "bitcoin" ]
           (VObj [ ("price_usd" : str, VNum (Num 50000));
                   ("price_change_24h" : str, VNull) ])
           VNull []).
  - vm_compute. reflexivity.
  - reflexivity.
  - vm_compute. reflexivity.
  - discriminate.
  - intros n. discriminate.
  - reflexivity.
Defined.

(** ** Price cards of the dashboard *)

Section DashboardCardFacts.
Context {host : Host}.
Variable present : str -> bool.
Variable toLocaleString : jsval -> option str.

Import CryptoDashboard.

(** The card update on an object, from the price and the change it
    picks. *)
Lemma updatePriceCard_object (crypto : str) (fields : list (str * jsval))
    (log : list domEvent) :
  let card := cardName crypto in
  let price := orElse (JsValue.lookup "usd" fields)
                      (JsValue.lookup "price_usd" fields) in
  let change := orElse (JsValue.lookup "usd_24h_change" fields)
                       (JsValue.lookup "price_change_24h" fields) in
  present (card ++ "-price") = true ->
  updatePriceCard present toLocaleString crypto (VObj fields) log =
  match match price with
        | VUndefined | VNull => Some []
        | _ => toLocaleString price
        end with
  | None => (log, Eff.Thrown)
  | Some text =>
      let shown :=
        InnerHTML (card ++ "-price")
                  ("$" ++ match text with [] => "N/A" | _ => text end) in
      if present (card ++ "-change") then
        match change with
        | VUndefined => (log ++ [shown], Eff.Returned tt)
        | VNum n =>
            (log ++ [ shown;
                      InnerHTML (card ++ "-change")
                        (Html.span (if JsNumber.geZero n
                                    then "price-up" else "price-down")
                                   (toFixed 2 n ++ "%")) ],
             Eff.Returned tt)
        | _ => (log ++ [shown], Eff.Thrown)
        end
      else (log ++ [shown], Eff.Returned tt)
  end.
Proof.
  cbv zeta. intros Hprice.
  unfold updatePriceCard. cbv zeta. rewrite Hprice.
  cbn [JsValue.truthy andb JsValue.get].
  unfold Js.bind, Js.orThrow, Js.ret, Js.emit, Js.throw.
  destruct (orElse (JsValue.lookup "usd" fields)
                   (JsValue.lookup "price_usd" fields)) eqn:Eprice;
    try (destruct (toLocaleString _) as [text |]; [| reflexivity]);
    destruct (present (cardName crypto ++ "-change"));
    try reflexivity;
    destruct (orElse (JsValue.lookup "usd_24h_change" fields)
                     (JsValue.lookup "price_change_24h" fields));
    try reflexivity;
    rewrite <- ?app_assoc; reflexivity.
Qed.

End DashboardCardFacts.

(** X19.  The dashboard's [updatePriceCard] shows a quote of the server's
    shape ([price_usd], [price_change_24h]) with its price and its change,
    whatever the change; it shows a quote of CoinGecko's shape ([usd],
    [usd_24h_change]) the same way when the change is not zero, and leaves
    the change element as it was when the change is zero. *)
Theorem zero_change_depends_on_shape {host : Host}
    (present : str -> bool) (toLocaleString : jsval -> option str)
    (crypto : str) (p c : number) (text : str) (log : list domEvent) :
  present (CryptoDashboard.cardName crypto ++ "-price") = true ->
  present (CryptoDashboard.cardName crypto ++ "-change") = true ->
  toLocaleString (VNum p) = Some text ->
  JsNumber.truthy p = true ->
  let server := VObj [ ("price_usd" : str, VNum p);
                       ("price_change_24h" : str, VNum c) ] in
  let gecko := VObj [ ("usd" : str, VNum p);
                      ("usd_24h_change" : str, VNum c) ] in
  let price :=
    InnerHTML (CryptoDashboard.cardName crypto ++ "-price")
              ("$" ++ match text with [] => "N/A" | _ => text end) in
  let change :=
    InnerHTML (CryptoDashboard.cardName crypto ++ "-change")
              (Html.span (if JsNumber.geZero c
                          then "price-up" else "price-down")
                         (toFixed 2 c ++ "%")) in
  CryptoDashboard.updatePriceCard present toLocaleString crypto server log
  = (log ++ [price; change], Eff.Returned tt)
  /\ CryptoDashboard.updatePriceCard present toLocaleString crypto gecko log
     = (log ++ (if JsNumber.truthy c then [price; change] else [price]),
        Eff.Returned tt).
Proof.
  intros Hprice Hchange Htext Hp. cbv zeta.
  rewrite !updatePriceCard_object by exact Hprice.
  rewrite Hchange.
  change (JsValue.lookup "usd"
            [ ("price_usd" : str, VNum p);
              ("price_change_24h" : str, VNum c) ]) with VUndefined.
  change (JsValue.lookup "price_usd"
            [ ("price_usd" : str, VNum p);
              ("price_change_24h" : str, VNum c) ]) with (VNum p).
  change (JsValue.lookup "usd_24h_change"
            [ ("price_usd" : str, VNum p);
              ("price_change_24h" : str, VNum c) ]) with VUndefined.
  change (JsValue.lookup "price_change_24h"
            [ ("price_usd" : str, VNum p);
              ("price_change_24h" : str, VNum c) ]) with (VNum c).
  change (JsValue.lookup "usd"
            [ ("usd" : str, VNum p);
              ("usd_24h_change" : str, VNum c) ]) with (VNum p).
  change (JsValue.lookup "price_usd"
            [ ("usd" : str, VNum p);
              ("usd_24h_change" : str, VNum c) ]) with VUndefined.
  change (JsValue.lookup "usd_24h_change"
            [ ("usd" : str, VNum p);
              ("usd_24h_change" : str, VNum c) ]) with (VNum c).
  change (JsValue.lookup "price_change_24h"
            [ ("usd" : str, VNum p);
              ("usd_24h_change" : str, VNum c) ]) with VUndefined.
  unfold CryptoDashboard.orElse. cbn [JsValue.truthy]. rewrite Hp, Htext.
  split; [reflexivity |].
  destruct (JsNumber.truthy c); reflexivity.
Qed.

Lemma zero_change_depends_on_shape_witness :
  let present := fun _ : str => true in
  let toLocaleString := fun _ : jsval => Some ("50,000" : str) in
  let server := VObj [ ("price_usd" : str, VNum (Num 50000));
                       ("price_change_24h" : str, VNum (Num 0)) ] in
  let gecko := VObj [ ("usd" : str, VNum (Num 50000));
                      ("usd_24h_change" : str, VNum (Num 0)) ] in
  let price :=
    InnerHTML (CryptoDashboard.cardName "bitcoin" ++ "-price")
              ("$" ++ "50,000") in
  let change :=
    InnerHTML (CryptoDashboard.cardName "bitcoin" ++ "-change")
              (Html.span (if JsNumber.geZero (Num 0)
                          then "price-up" else "price-down")
                         (toFixed (Host := exampleHost) 2 (Num 0) ++ "%")) in
  CryptoDashboard.updatePriceCard (host := exampleHost) present toLocaleString
    "bitcoin" server []
  = ([] ++ [price; change], Eff.Returned tt)
  /\ CryptoDashboard.updatePriceCard (host := exampleHost) present
       toLocaleString "bitcoin" gecko []
     = ([] ++ (if JsNumber.truthy (Num 0) then [price; change] else [price]),
        Eff.Returned tt).
Proof.
  cbv zeta.
  apply (zero_change_depends_on_shape (host := exampleHost)
           (fun _ => true) (fun _ => Some ("50,000" : str))
           "bitcoin" (Num 50000) (Num 0) "50,000" []);
    reflexivity.
Defined.

(** X20.  A socket price update that carries a symbol and a price and
    none of the four quote fields never shows its price: [handlePriceUpdate]
    writes "$N/A" to the price element of a card, and nothing else; the
    card is bitcoin's when the symbol in lower case is "bitcoin", and
    ethereum's for every other symbol. *)
Theorem socket_price_is_not_shown {host : Host}
    (present : str -> bool) (toLocaleString : jsval -> option str)
    (fields : list (str * jsval)) (symbol : str) (log : list domEvent) :
  JsValue.lookup "symbol" fields = VStr symbol ->
  symbol <> [] ->
  JsValue.truthy (JsValue.lookup "price" fields) = true ->
  JsValue.lookup "usd" fields = VUndefined ->
  JsValue.lookup "price_usd" fields = VUndefined ->
  JsValue.lookup "usd_24h_change" fields = VUndefined ->
  JsValue.lookup "price_change_24h" fields = VUndefined ->
  let card : str :=
    if JsValue.eqStr (toLowerCase symbol) "bitcoin" then "btc" else "eth" in
  CryptoDashboard.handlePriceUpdate present toLocaleString (VObj fields) log
  = (log ++ (if present (card ++ "-price")
             then [ InnerHTML (card ++ "-price") "$N/A" ]
             else []),
     Eff.Returned tt).
Proof.
  intros Hsymbol Hne Hprice Husd Hprice_usd Hchange Hchange24. cbv zeta.
  unfold CryptoDashboard.handlePriceUpdate.
  cbn [JsValue.get]. unfold Js.bind at 1. unfold Js.orThrow at 1.
  unfold Js.ret at 1. rewrite Hsymbol.
  replace (JsValue.truthy (VStr symbol)) with true
    by (destruct symbol; [contradiction Hne; reflexivity | reflexivity]).
  unfold Js.bind at 1. unfold Js.orThrow at 1. unfold Js.ret at 1.
  rewrite Hprice.
  fold (CryptoDashboard.cardName (toLowerCase symbol)).
  destruct (present (CryptoDashboard.cardName (toLowerCase symbol)
                     ++ "-price")) eqn:Hpresent.
  - rewrite updatePriceCard_object by exact Hpresent.
    rewrite Husd, Hprice_usd, Hchange, Hchange24.
    unfold CryptoDashboard.orElse. cbn [JsValue.truthy].
    destruct (present (CryptoDashboard.cardName (toLowerCase symbol)
                       ++ "-change")); reflexivity.
  - unfold CryptoDashboard.updatePriceCard. cbv zeta. rewrite Hpresent.
    cbn [andb]. unfold Js.ret. rewrite app_nil_r. reflexivity.
Qed.

Lemma socket_price_is_not_shown_witness :
  CryptoDashboard.handlePriceUpdate (host := exampleHost)
    (fun _ => true) (fun _ => None)
    (VObj [ ("symbol" : str, VStr "BTC");
            ("price" : str, VNum (Num 50000)) ]) []
  = ([] ++ [ InnerHTML ("eth" ++ "-price") "$N/A" ], Eff.Returned tt).
Proof.
  apply (socket_price_is_not_shown (host := exampleHost)
           (fun _ => true) (fun _ => None)
           [ ("symbol" : str, VStr "BTC");
             ("price" : str, VNum (Num 50000)) ] "BTC" []);
    first [ reflexivity | discriminate ].
Defined.

(** ** Running the analysis *)

Section AnalysisFacts.
Variable displays : jsval -> bool.
Variable templateString : jsval -> option str.

Import CryptoTradingApp.

Lemma runAnalysis_appending (data : formData) (r : reply) :
  Js.appending (runAnalysis displays templateString data r).
Proof. unfold runAnalysis. appending. Qed.

End AnalysisFacts.

Ltac run_analysis_step :=
  cbv beta iota zeta
      delta [CryptoTradingApp.runAnalysis Js.run Js.finally Js.tryCatch
             Js.bind Js.emit Js.ret Js.throw Js.orThrow fst snd].

Ltac run_analysis :=
  run_analysis_step;
  repeat match goal with
         | H : ?x = _ |- context [?x] => rewrite H; run_analysis_step
         end;
  cbn [List.app].

Ltac analysis_failed :=
  exists [ CryptoTradingApp.LogError;
           CryptoTradingApp.ShowError
             "分析中にエラーが発生しました。しばらく後にもう一度お試しください。";
           CryptoTradingApp.SetAnalysisStatus "error" "エラー" ].

(** X21.  [runAnalysis] never throws and never leaves the page analysing:
    it sets the status to analysing, shows the spinner and posts the form
    data, and whatever comes back it ends by hiding the spinner, the last
    status it has set being "completed" or "error".  The status is
    "completed" exactly when the reply has a body that parses, with a
    truthy [success], whose [analysis] the page can display; the reply's
    [ok] flag plays no part. *)
Theorem runAnalysis_settles (displays : jsval -> bool)
    (templateString : jsval -> option str)
    (data : CryptoTradingApp.formData) (r : reply)
    (log : list CryptoTradingApp.appEvent) :
  exists middle,
    CryptoTradingApp.runAnalysis displays templateString data r log
    = (log
       ++ [ CryptoTradingApp.SetAnalysisStatus "analyzing" "分析実行中...";
            CryptoTradingApp.ShowLoadingSpinner true;
            CryptoTradingApp.PostAnalyze data ]
       ++ middle
       ++ [ CryptoTradingApp.ShowLoadingSpinner false ],
       Eff.Returned tt)
    /\ (Page.lastStatus middle = Some ("completed" : str)
        \/ Page.lastStatus middle = Some ("error" : str))
    /\ (Page.lastStatus middle = Some ("completed" : str) <->
        exists ok result success analysis,
          r = Response ok (Some result)
          /\ JsValue.get result "success" = Some success
          /\ JsValue.truthy success = true
          /\ JsValue.get result "analysis" = Some analysis
          /\ displays analysis = true)
    /\ (forall ok ok' body,
          r = Response ok body ->
          CryptoTradingApp.runAnalysis displays templateString data
            (Response ok' body) log
          = CryptoTradingApp.runAnalysis displays templateString data r log).
Proof.
  rewrite (runAnalysis_appending displays templateString data r log).
  assert (Hok : forall ok ok' body,
    r = Response ok body ->
    CryptoTradingApp.runAnalysis displays templateString data
      (Response ok' body) log
    = (log ++ fst (Js.run (CryptoTradingApp.runAnalysis displays
                             templateString data r)),
       snd (Js.run (CryptoTradingApp.runAnalysis displays templateString
                      data r)))).
  { intros ok ok' body Hr. subst r.
    rewrite (runAnalysis_appending displays templateString data
               (Response ok' body) log).
    reflexivity. }
  destruct r as [| ok [result |]].
  - (* the request fails in transport *)
    analysis_failed. split; [run_analysis; reflexivity |].
    split; [right; reflexivity |].
    split; [| exact Hok].
    split; [intros H; discriminate H |].
    intros (ok & result & success & analysis & Hr & _); discriminate Hr.
  - destruct (JsValue.get result "success") as [success |] eqn:Hsuccess.
    + destruct (JsValue.truthy success) eqn:Htruthy.
      * destruct (JsValue.get result "analysis") as [analysis |] eqn:Hanalysis.
        -- destruct (displays analysis) eqn:Hdisplays.
           ++ exists [ CryptoTradingApp.DisplayAnalysisResults analysis;
                       CryptoTradingApp.SetAnalysisStatus "completed" "分析完了";
                       CryptoTradingApp.ShowExportOptions true ].
              split; [run_analysis; reflexivity |].
              split; [left; reflexivity |].
              split; [| exact Hok].
              split; [| intros _; reflexivity].
              intros _. exists ok, result, success, analysis.
              repeat split; assumption.
           ++ analysis_failed.
              split; [run_analysis; reflexivity |].
              split; [right; reflexivity |].
              split; [| exact Hok].
              split; [intros H; discriminate H |].
              intros (ok0 & result0 & success0 & analysis0
                      & Hr & Hs & Ht & Ha & Hd).
              injection Hr as _ Hr. subst result0. congruence.
        -- analysis_failed.
           split; [run_analysis; reflexivity |].
           split; [right; reflexivity |].
           split; [| exact Hok].
           split; [intros H; discriminate H |].
           intros (ok0 & result0 & success0 & analysis0
                   & Hr & Hs & Ht & Ha & Hd).
           injection Hr as _ Hr. subst result0. congruence.
      * destruct (JsValue.get result "error") as [error |] eqn:Herror;
          [destruct (templateString error) as [text |] eqn:Htext |];
          (first [ exists [ CryptoTradingApp.ShowError ("分析エラー: " ++ text);
                            CryptoTradingApp.SetAnalysisStatus "error" "エラー" ]
                 | analysis_failed ];
           split; [run_analysis; reflexivity |];
           split; [right; reflexivity |];
           split; [| exact Hok];
           split; [intros H; discriminate H |];
           intros (ok0 & result0 & success0 & analysis0
                   & Hr & Hs & Ht & Ha & Hd);
           injection Hr as _ Hr; subst result0; congruence).
    + analysis_failed.
      split; [run_analysis; reflexivity |].
      split; [right; reflexivity |].
      split; [| exact Hok].
      split; [intros H; discriminate H |].
      intros (ok0 & result0 & success0 & analysis0
              & Hr & Hs & Ht & Ha & Hd).
      injection Hr as _ Hr. subst result0. congruence.
  - (* the body does not parse *)
    analysis_failed. split; [run_analysis; reflexivity |].
    split; [right; reflexivity |].
    split; [| exact Hok].
    split; [intros H; discriminate H |].
    intros (ok0 & result0 & success0 & analysis0 & Hr & _).
    discriminate Hr.
Qed.

(** ** Refreshing the mobile app *)

Section RefreshFacts.
Variable loads : Js.M domEvent unit.

Import MobileCryptoApp.

Lemma appending_mapEvents {E E' A} (inj : E -> E') (m : Js.M E A) :
  Js.appending (Js.mapEvents inj m).
Proof.
  intros log. unfold Js.mapEvents.
  change (Js.run (fun log0 : list E' =>
                    let (events, result) := Js.run m in
                    (log0 ++ map inj events, result)))
    with (let (events, result) := Js.run m in
          (@nil E' ++ map inj events, result)).
  destruct (Js.run m) as [events result]. reflexivity.
Qed.

Lemma refreshData_appending : Js.appending (refreshData loads).
Proof.
  unfold refreshData, loadInitialData.
  repeat first [ apply appending_bind; [| intros ?]
               | apply appending_tryCatch
               | apply appending_emit
               | apply appending_mapEvents ].
Qed.

Lemma toasts_loading (events : list domEvent) :
  Page.toasts (map Loading events) = [].
Proof. induction events as [| e events IH]; [reflexivity | exact IH]. Qed.

Lemma toasts_app (a b : list refreshEvent) :
  Page.toasts (a ++ b) = Page.toasts a ++ Page.toasts b.
Proof.
  induction a as [| e a IH]; [reflexivity |].
  destruct e; cbn; rewrite IH; reflexivity.
Qed.

End RefreshFacts.

(** X22.  [refreshData] of the mobile app never throws, and whatever the
    loads do it shows the toast of the start and ends its toasts with the
    toast of success; in between it shows the toast of [loadInitialData]
    when a load rejects.  Its own toast of failure is never shown. *)
Theorem refreshData_always_announces_success (loads : Js.M domEvent unit)
    (log : list MobileCryptoApp.refreshEvent) :
  exists l,
    MobileCryptoApp.refreshData loads log = (log ++ l, Eff.Returned tt)
    /\ Page.toasts l =
       [ ("データを更新中..." : str, "info" : str) ]
       ++ match snd (Js.run loads) with
          | Eff.Returned _ => []
          | Eff.Thrown =>
              [ ("データの読み込みに失敗しました" : str, "error" : str) ]
          end
       ++ [ ("データを更新しました" : str, "success" : str) ]
    /\ ~ In ("更新に失敗しました" : str, "error" : str) (Page.toasts l).
Proof.
  rewrite (refreshData_appending loads log).
  assert (Hrun : exists l,
    Js.run (MobileCryptoApp.refreshData loads) = (l, Eff.Returned tt)
    /\ Page.toasts l =
       [ ("データを更新中..." : str, "info" : str) ]
       ++ match snd (Js.run loads) with
          | Eff.Returned _ => []
          | Eff.Thrown =>
              [ ("データの読み込みに失敗しました" : str, "error" : str) ]
          end
       ++ [ ("データを更新しました" : str, "success" : str) ]).
  { unfold MobileCryptoApp.refreshData, MobileCryptoApp.loadInitialData,
      Js.run, Js.bind, Js.tryCatch, Js.emit, Js.mapEvents.
    unfold Js.run.
    destruct (loads []) as [events [[] |]]; cbn [List.app fst snd].
    - eexists. split; [reflexivity |].
      cbn [Page.toasts]. rewrite toasts_app, toasts_loading. reflexivity.
    - eexists. split; [reflexivity |].
      cbn [Page.toasts]. rewrite !toasts_app, toasts_loading. reflexivity. }
  destruct Hrun as [l [Hrun Htoasts]].
  exists l. rewrite Hrun. cbn [fst snd].
  split; [reflexivity |]. split; [exact Htoasts |].
  rewrite Htoasts.
  destruct (snd (Js.run loads)); cbn [List.app In];
    intros H; repeat (destruct H as [H | H]; [discriminate H |]);
    exact H.
Qed.

(** ** The progress bar *)

Section ProgressFacts.
Context {doubles : Doubles}.

Import CryptoDashboard Progress.

Lemma dOfZ_finite (z : Z) :
  (Z.abs z <= 9007199254740992)%Z -> dFinite (dOfZ z).
Proof. intros H. exact (proj1 (dOfZ_value z H)). Qed.

Lemma dOfZ_exact (z : Z) :
  (Z.abs z <= 9007199254740992)%Z -> (dValue (dOfZ z) == inject_Z z)%Q.
Proof. intros H. exact (proj2 (dOfZ_value z H)). Qed.

Lemma budget_succ (runs : nat) :
  budget (S runs) = (budget runs + 15)%Z.
Proof. unfold budget. lia. Qed.

Lemma inject_Z_15 (z : Z) : (inject_Z (z + 15) == inject_Z z + 15)%Q.
Proof. rewrite inject_Z_plus. reflexivity. Qed.

(** The step of a draw: a finite double from 0 to 15. *)
Lemma step_bounds (random : double) :
  drawn random ->
  dFinite (dMul random (dOfZ 15))
  /\ (0 <= dValue (dMul random (dOfZ 15)))%Q
  /\ (dValue (dMul random (dOfZ 15)) <= 15)%Q.
Proof.
  intros (Hf & H0 & H1).
  pose proof (dOfZ_exact 0 ltac:(cbn; lia)) as E0.
  pose proof (dOfZ_exact 15 ltac:(cbn; lia)) as E15.
  unfold inject_Z in E0, E15.
  destruct (dMul_rounds random (dOfZ 15) (dOfZ 0) (dOfZ 15) Hf
              (dOfZ_finite 15 ltac:(cbn; lia))
              (dOfZ_finite 0 ltac:(cbn; lia))
              (dOfZ_finite 15 ltac:(cbn; lia)))
    as (Hfin & Hlo & Hhi).
  - rewrite E0, E15. nra.
  - rewrite E15. nra.
  - split; [exact Hfin |]. split; lra.
Qed.

(** The sum of the progress and a step, while the interval is
    registered: finite, not below the progress, at most 110 and within
    the next budget. *)
Lemma sum_bounds (runs : nat) (random : double) (b : progressBar) :
  drawn random -> steady runs b -> ticking b = true ->
  let sum := dAdd (progress b) (dMul random (dOfZ 15)) in
  dFinite sum
  /\ (dValue (progress b) <= dValue sum)%Q
  /\ (dValue sum <= 110)%Q
  /\ (dValue sum <= inject_Z (budget (S runs)))%Q.
Proof.
  intros Hr (Hw & Hf & Hp & Hb) Ht. rewrite Ht in Hb.
  destruct Hb as [Hbudget Hlt]. cbv zeta.
  destruct (step_bounds random Hr) as (Hsf & Hs0 & Hs15).
  pose proof (dOfZ_exact 110 ltac:(cbn; lia)) as E110.
  unfold inject_Z in E110.
  destruct (dAdd_rounds (progress b) (dMul random (dOfZ 15))
              (progress b) (dOfZ 110) Hf Hsf Hf
              (dOfZ_finite 110 ltac:(cbn; lia)))
    as (Hfin & Hlo & Hhi); [lra | rewrite E110; lra |].
  split; [exact Hfin |]. split; [exact Hlo |].
  split; [lra |].
  rewrite budget_succ.
  assert (Hnonneg : (0 <= budget runs)%Z) by (unfold budget; lia).
  destruct (Z_le_gt_dec (budget runs + 15) 110) as [Hsmall | Hlarge].
  - pose proof (dOfZ_exact (budget runs + 15) ltac:(lia)) as Enext.
    destruct (dAdd_rounds (progress b) (dMul random (dOfZ 15))
                (progress b) (dOfZ (budget runs + 15)) Hf Hsf Hf
                (dOfZ_finite (budget runs + 15) ltac:(lia)))
      as (_ & _ & Hnext).
    + lra.
    + rewrite Enext, inject_Z_15. lra.
    + rewrite Enext in Hnext. exact Hnext.
  - assert (H110 : (inject_Z 110 <= inject_Z (budget runs + 15))%Q)
      by (rewrite <- Zle_Qle; lia).
    unfold inject_Z at 1 in H110. rewrite E110 in Hhi. lra.
Qed.

Lemma steady_started : steady 0 started.
Proof.
  pose proof (dOfZ_exact 0 ltac:(cbn; lia)) as E0. unfold inject_Z in E0.
  unfold steady, started. cbn [width progress ticking].
  split; [reflexivity |].
  split; [apply dOfZ_finite; cbn; lia |].
  split; [rewrite E0; lra |].
  split; [rewrite E0; unfold budget, inject_Z; cbn; lra | rewrite E0; lra].
Qed.

Lemma steady_tick (runs : nat) (random : double) (b : progressBar) :
  drawn random -> steady runs b -> steady (S runs) (tick random b).
Proof.
  intros Hr Hs. pose proof Hs as (Hw & Hf & Hp & Hb). unfold tick.
  destruct (ticking b) eqn:Ht.
  - destruct (sum_bounds runs random b Hr Hs Ht)
      as (Hfin & Hgrow & H110 & Hnext).
    cbv zeta in *.
    pose proof (dOfZ_exact 95 ltac:(cbn; lia)) as E95.
    unfold inject_Z in E95.
    pose proof (dGeb_value (dAdd (progress b) (dMul random (dOfZ 15)))
                  (dOfZ 95) Hfin (dOfZ_finite 95 ltac:(cbn; lia))) as Hge.
    destruct (dGeb (dAdd (progress b) (dMul random (dOfZ 15))) (dOfZ 95)).
    + assert (H95 : (dValue (dOfZ 95)
                     <= dValue (dAdd (progress b) (dMul random (dOfZ 15))))%Q)
        by (apply Hge; reflexivity).
      unfold steady. cbn [width progress ticking].
      split; [reflexivity |].
      split; [apply dOfZ_finite; cbn; lia |].
      split; [rewrite E95; lra |].
      split; [reflexivity |].
      assert (Hle : (95 <= budget (S runs))%Z).
      { rewrite Zle_Qle. unfold inject_Z at 1. lra. }
      unfold budget in *. lia.
    + assert (Hless : (dValue (dAdd (progress b) (dMul random (dOfZ 15)))
                       < 95)%Q).
      { apply Qnot_le_lt. intros H.
        assert (Htrue : false = true)
          by (apply Hge; rewrite E95; exact H).
        discriminate Htrue. }
      unfold steady. cbn [width progress ticking].
      split; [reflexivity |]. split; [exact Hfin |].
      split; [lra |]. split; [exact Hnext | exact Hless].
  - unfold steady. rewrite Ht. destruct Hb as [H95 Hbudget].
    split; [exact Hw |]. split; [exact Hf |]. split; [exact Hp |].
    split; [exact H95 |]. rewrite budget_succ. lia.
Qed.

Lemma steady_after (randoms : list double) (runs : nat) (b : progressBar) :
  Forall drawn randoms -> steady runs b ->
  steady (runs + List.length randoms) (after randoms b).
Proof.
  revert runs b.
  induction randoms as [| random randoms IH]; intros runs b Hall Hb.
  - cbn. rewrite Nat.add_0_r. exact Hb.
  - inversion Hall as [| ? ? Hr Hrest]; subst.
    cbn [List.length]. rewrite Nat.add_succ_r.
    change (after (random :: randoms) b)
      with (after randoms (tick random b)).
    apply (IH (S runs)); [exact Hrest |].
    apply steady_tick; assumption.
Qed.

(** The bar never goes back. *)
Lemma tick_grows (runs : nat) (random : double) (b : progressBar) :
  drawn random -> steady runs b ->
  (dValue (width b) <= dValue (width (tick random b)))%Q.
Proof.
  intros Hr Hs. pose proof Hs as (Hw & Hf & Hp & Hb). unfold tick.
  rewrite Hw.
  destruct (ticking b) eqn:Ht.
  - destruct (sum_bounds runs random b Hr Hs Ht)
      as (Hfin & Hgrow & _ & _).
    cbv zeta in *. destruct Hb as [_ Hlt].
    pose proof (dOfZ_exact 95 ltac:(cbn; lia)) as E95.
    unfold inject_Z in E95.
    destruct (dGeb (dAdd (progress b) (dMul random (dOfZ 15))) (dOfZ 95));
      cbn [width]; [rewrite E95; lra | exact Hgrow].
  - rewrite Hw. lra.
Qed.

End ProgressFacts.

(** X23.  The simulated progress of a detailed analysis, in double
    arithmetic and whatever [Math.random] gives: the width of the bar is a
    finite number from 0 to 95, the next run of the callback never makes
    it smaller, the interval is registered while the width is below 95 and
    cleared with the width at 95, and within the first six runs it is
    never cleared, so that reaching 95 takes at least seven runs. *)
Theorem progress_stops_at_95 {doubles : Doubles} (randoms : list double) :
  Forall Progress.drawn randoms ->
  let b := Progress.after randoms CryptoDashboard.started in
  dFinite (CryptoDashboard.width b)
  /\ (0 <= dValue (CryptoDashboard.width b))%Q
  /\ (dValue (CryptoDashboard.width b) <= 95)%Q
  /\ (forall random, Progress.drawn random ->
      (dValue (CryptoDashboard.width b)
       <= dValue (CryptoDashboard.width (CryptoDashboard.tick random b)))%Q)
  /\ (if CryptoDashboard.ticking b
      then (dValue (CryptoDashboard.width b) < 95)%Q
      else CryptoDashboard.width b = dOfZ 95)
  /\ ((List.length randoms <= 6)%nat -> CryptoDashboard.ticking b = true).
Proof.
  intros Hall. cbv zeta.
  pose proof (steady_after randoms 0 CryptoDashboard.started Hall
                steady_started) as Hs.
  cbn [Nat.add] in Hs.
  pose proof Hs as (Hw & Hf & Hp & Hb).
  pose proof (dOfZ_exact 95 ltac:(cbn; lia)) as E95. unfold inject_Z in E95.
  split; [rewrite Hw; exact Hf |].
  split; [rewrite Hw; exact Hp |].
  split.
  { rewrite Hw. destruct (CryptoDashboard.ticking _).
    - destruct Hb as [_ Hlt]. lra.
    - destruct Hb as [H95 _]. rewrite H95, E95. lra. }
  split; [intros random Hr; exact (tick_grows _ random _ Hr Hs) |].
  split.
  - rewrite Hw. destruct (CryptoDashboard.ticking _); destruct Hb; assumption.
  - intros Hshort.
    destruct (CryptoDashboard.ticking _); [reflexivity |].
    destruct Hb as [_ Hbudget]. unfold Progress.budget in Hbudget. lia.
Qed.

Lemma progress_stops_at_95_witness :
  let randoms : list (double (Doubles := exactDoubles)) :=
    [ (1 # 2)%Q; (9 # 10)%Q ] in
  Forall (Progress.drawn (doubles := exactDoubles)) randoms
  /\ let b := Progress.after (doubles := exactDoubles) randoms
                 (CryptoDashboard.started (doubles := exactDoubles)) in
     dFinite (CryptoDashboard.width b)
     /\ (0 <= dValue (CryptoDashboard.width b))%Q
     /\ (dValue (CryptoDashboard.width b) <= 95)%Q
     /\ (forall random, Progress.drawn random ->
         (dValue (CryptoDashboard.width b)
          <= dValue (CryptoDashboard.width
                       (CryptoDashboard.tick random b)))%Q)
     /\ (if CryptoDashboard.ticking b
         then (dValue (CryptoDashboard.width b) < 95)%Q
         else CryptoDashboard.width b = dOfZ 95)
     /\ ((List.length randoms <= 6)%nat -> CryptoDashboard.ticking b = true).
Proof.
  cbv zeta.
  assert (H : Forall (Progress.drawn (doubles := exactDoubles))
                     [ (1 # 2)%Q; (9 # 10)%Q ]).
  { repeat (apply Forall_cons;
            [split; [exact I | split; [unfold Qle | unfold Qlt]; cbn; lia] |]).
    apply Forall_nil. }
  split; [exact H |].
  exact (progress_stops_at_95 (doubles := exactDoubles)
           [ (1 # 2)%Q; (9 # 10)%Q ] H).
Defined.

(** ** The source filter and capital letters *)

Section SourceFilterFacts.
Context {host : Host}.

Import CryptoNewsApp.

Lemma filter_nothing {A} (f : A -> bool) (l : list A) :
  (forall x, f x = false) -> filter f l = [].
Proof.
  intros H. induction l as [| x l IH]; [reflexivity |].
  cbn [filter]. rewrite H. exact IH.
Qed.

(** Every character of a substring is a character of the text. *)
Lemma includes_In (text piece : str) (c : ascii) :
  JsString.includes text piece = true -> In c piece -> In c text.
Proof.
  intros H Hin. destruct (includes_inv text piece H) as (pre & post & ->).
  apply in_or_app. right. apply in_or_app. left. exact Hin.
Qed.

Lemma passes_capital (c s tm : str) (now : Z) (item : Item.t)
    (capital : ascii) :
  Letters.lowers host ->
  In capital s -> Letters.isUpper capital = true ->
  passes c s tm now item = false.
Proof.
  intros Hhost Hin Hupper. unfold passes.
  destruct (negb (JsValue.eqStr c "all")
            && negb (JsValue.eqStr (Item.category item) c));
    [reflexivity |].
  assert (Hall : JsValue.eqStr s "all" = false).
  { unfold JsValue.eqStr.
    destruct (list_eq_dec ascii_dec s "all") as [E | E]; [| reflexivity].
    subst s. destruct Hin as [<- | [<- | [<- | []]]]; discriminate Hupper. }
  assert (Hinc : JsString.includes (toLowerCase (Item.source item)) s = false).
  { destruct (JsString.includes (toLowerCase (Item.source item)) s) eqn:E;
      [| reflexivity].
    pose proof (Hhost _ _ (includes_In _ _ capital E Hin)) as Hlow.
    congruence. }
  rewrite Hall, Hinc. reflexivity.
Qed.

End SourceFilterFacts.

(** X24.  The source filter of [applyFilters] is compared as it is with
    the lower-cased source of each item: a filter value that holds an
    ASCII capital letter matches no item, whatever the sources, the other
    two filters and the time. *)
Theorem capital_source_filter_matches_nothing {host : Host}
    (c tm : option str) (sourceFilter : str) (capital : ascii) (now : Z)
    (data : list CryptoNewsApp.Item.t) :
  Letters.lowers host ->
  In capital sourceFilter ->
  Letters.isUpper capital = true ->
  CryptoNewsApp.applyFilters c (Some sourceFilter) tm now data = [].
Proof.
  intros Hhost Hin Hupper. unfold CryptoNewsApp.applyFilters. cbv zeta.
  apply filter_nothing. intros item.
  destruct sourceFilter as [| s0 rest]; [destruct Hin |].
  cbn [CryptoNewsApp.formValue].
  exact (passes_capital _ _ _ now item capital Hhost Hin Hupper).
Qed.

Lemma capital_source_filter_matches_nothing_witness :
  Letters.lowers exampleHost
  /\ CryptoNewsApp.applyFilters (host := exampleHost) None
       (Some ("CoinDesk" : str)) None 1700000000000
       [ {| CryptoNewsApp.Item.title := "Bitcoin rallies" : str;
            CryptoNewsApp.Item.summary := "" : str;
            CryptoNewsApp.Item.source := "CoinDesk" : str;
            CryptoNewsApp.Item.published := DateAt 1699999000000;
            CryptoNewsApp.Item.category := "bitcoin" : str;
            CryptoNewsApp.Item.sentiment := "neutral" : str |} ]
     = [].
Proof.
  assert (H : Letters.lowers exampleHost).
  { intros s c Hin. cbn [toLowerCase exampleHost] in Hin.
    apply in_map_iff in Hin as [x [<- _]].
    destruct x as [[] [] [] [] [] [] [] []]; reflexivity. }
  split; [exact H |].
  apply (capital_source_filter_matches_nothing (host := exampleHost)
           None None "CoinDesk" "C" 1700000000000 _ H).
  - left. reflexivity.
  - reflexivity.
Defined.
